(** * The pod-sandbox lifecycle of the docker shim

    A shallow embedding of [pkg/kubelet/dockershim/docker_sandbox.go]:
    [RunPodSandbox], [StopPodSandbox], [RemovePodSandbox], [PodSandboxStatus],
    [ListPodSandbox] and the helpers defined in that file.

    The functions of the file talk to three collaborators held by the
    [dockerService] (the docker client, the network plugin and the checkpoint
    handler) and to a few other functions of the package.  Every such call is
    an operation [Op] of a small free monad [Prog]; a [Handler] gives the
    collaborators' answers over a world of any type, and [run] threads the
    world through a program and records the calls with their answers. *)

From Stdlib Require Import ZArith Ascii.
From stdpp Require Import base option list strings pretty gmap.

Local Open Scope Z_scope.

(** ** Errors *)

(** A Go [error] value.  [CheckpointNotFoundError] and [CorruptCheckpointError]
    are the two sentinels of the package [dockershim/errors], which the source
    compares by identity.  [Opaque] is an error made by a collaborator, known
    by its message; [Errorf] is [fmt.Errorf] with its format, its string
    arguments and the error it wraps; [Aggregate] is what
    [utilerrors.NewAggregate] builds. *)
#[warnings="-register-all"]
Inductive error : Type :=
| CheckpointNotFoundError
| CorruptCheckpointError
| Opaque (msg : string)
| Errorf (format : string) (args : list string) (cause : option error)
| Aggregate (errs : list error).

(** Modelled from the spec: [utilerrors.NewAggregate] (package
    [k8s.io/apimachinery], not in the file) returns one aggregated error,
    or nil if none occurred. *)
Definition NewAggregate (errlist : list error) : option error :=
  match errlist with
  | [] => None
  | _ => Some (Aggregate errlist)
  end.

(** A Go [(value, error)] pair whose value the source reads only when the error
    is nil. *)
Inductive result (A : Type) : Type :=
| ok (a : A)
| fail (e : error).
Arguments ok {A} a.
Arguments fail {A} e.

(** ** The runtime API (package [runtimeapi]) *)

Module runtimeapi.

Inductive PodSandboxState : Set :=
| PodSandboxState_SANDBOX_READY
| PodSandboxState_SANDBOX_NOTREADY.

(** [Protocol] is a protocol-buffer enumeration: an [int32] of which two values
    are named. *)
Definition Protocol : Type := Z.
Definition Protocol_TCP : Protocol := 0.
Definition Protocol_UDP : Protocol := 1.

Module PodSandboxMetadata.
Record t : Type := mk
  { Name : string; Uid : string; Namespace : string; Attempt : Z }.
End PodSandboxMetadata.

Module NamespaceOption.
Record t : Type := mk
  { HostNetwork : bool; HostPid : bool; HostIpc : bool }.
End NamespaceOption.

Module Namespace.
Record t : Type := mk
  { Network : string; Options : option NamespaceOption.t }.
End Namespace.

Module LinuxPodSandboxStatus.
Record t : Type := mk { Namespaces : option Namespace.t }.
End LinuxPodSandboxStatus.

Module PodSandboxNetworkStatus.
Record t : Type := mk { Ip : string }.
End PodSandboxNetworkStatus.

Module PodSandboxStatus.
Record t : Type := mk
  { Id : string;
    Metadata : option PodSandboxMetadata.t;
    State : PodSandboxState;
    CreatedAt : Z;
    Network : option PodSandboxNetworkStatus.t;
    Linux : option LinuxPodSandboxStatus.t;
    Labels : gmap string string;
    Annotations : gmap string string }.

(** The generated getters, which answer nil on a nil receiver. *)
Definition GetLinux (s : t) : option LinuxPodSandboxStatus.t := Linux s.
Definition GetNamespaces (l : option LinuxPodSandboxStatus.t) : option Namespace.t :=
  l ≫= LinuxPodSandboxStatus.Namespaces.
Definition GetOptions (n : option Namespace.t) : option NamespaceOption.t :=
  n ≫= Namespace.Options.
Definition GetMetadata (s : t) : option PodSandboxMetadata.t := Metadata s.
End PodSandboxStatus.

Module PodSandbox.
Record t : Type := mk
  { Id : string;
    Metadata : option PodSandboxMetadata.t;
    State : PodSandboxState;
    CreatedAt : Z;
    Labels : gmap string string;
    Annotations : gmap string string }.
End PodSandbox.

Module PodSandboxFilter.
(** [State] is a pointer to a [PodSandboxStateValue], [LabelSelector] a map
    that may be nil. *)
Record t : Type := mk
  { Id : string;
    State : option PodSandboxState;
    LabelSelector : option (gmap string string) }.
End PodSandboxFilter.

Module PortMapping.
Record t : Type := mk
  { Protocol : runtimeapi.Protocol;
    ContainerPort : Z;
    HostPort : Z;
    HostIp : string }.
End PortMapping.

Module DNSConfig.
Record t : Type := mk
  { Servers : list string; Searches : list string; Options : list string }.
End DNSConfig.

Module LinuxSandboxSecurityContext.
Record t : Type := mk { NamespaceOptions : option NamespaceOption.t }.
Definition GetNamespaceOptions (s : option t) : option NamespaceOption.t :=
  s ≫= NamespaceOptions.
End LinuxSandboxSecurityContext.

Module LinuxPodSandboxConfig.
Record t : Type := mk
  { CgroupParent : string;
    SecurityContext : option LinuxSandboxSecurityContext.t }.
Definition GetSecurityContext (l : option t) : option LinuxSandboxSecurityContext.t :=
  l ≫= SecurityContext.
End LinuxPodSandboxConfig.

Module PodSandboxConfig.
(** [Metadata] is read without a nil check on every path of [RunPodSandbox]
    ([makeSandboxName], [constructPodSandboxCheckpoint]); it is a value
    here.  [PortMappings] is a slice of pointers, one record per mapping. *)
Record t : Type := mk
  { Metadata : PodSandboxMetadata.t;
    Hostname : string;
    LogDirectory : string;
    DnsConfig : option DNSConfig.t;
    PortMappings : list PortMapping.t;
    Labels : gmap string string;
    Annotations : gmap string string;
    Linux : option LinuxPodSandboxConfig.t }.
Definition GetMetadata (c : t) : PodSandboxMetadata.t := Metadata c.
Definition GetLinux (c : t) : option LinuxPodSandboxConfig.t := Linux c.
Definition GetPortMappings (c : t) : list PortMapping.t := PortMappings c.
Definition GetLabels (c : t) : gmap string string := Labels c.
Definition GetAnnotations (c : t) : gmap string string := Annotations c.
Definition GetDnsConfig (c : t) : option DNSConfig.t := DnsConfig c.
End PodSandboxConfig.

End runtimeapi.

(** ** The docker engine API (packages [dockertypes], [dockercontainer]) *)

Module dockercontainer.

Module Resources.
Record t : Type := mk { MemorySwap : Z; CPUShares : Z }.
End Resources.

Module PortBinding.
Record t : Type := mk { HostIP : string; HostPort : string }.
End PortBinding.

Module HostConfig.
Record t : Type := mk
  { NetworkMode : string;
    IpcMode : string;
    PidMode : string;
    CgroupParent : string;
    Sysctls : gmap string string;
    PortBindings : gmap string (list PortBinding.t);
    DNS : list string;
    DNSSearch : list string;
    DNSOptions : list string;
    Resources : Resources.t;
    OomScoreAdj : Z;
    SecurityOpt : list string }.
(** [&dockercontainer.HostConfig{}]. *)
Definition zero : t :=
  mk "" "" "" "" ∅ ∅ [] [] [] (Resources.mk 0 0) 0 [].
(** Assignments to one field. *)
Definition set_CgroupParent (v : string) (hc : t) : t :=
  let '(mk nm ipc pid _ sys pb dns dnss dnso res oom so) := hc in
  mk nm ipc pid v sys pb dns dnss dnso res oom so.
Definition set_Sysctls (v : gmap string string) (hc : t) : t :=
  let '(mk nm ipc pid cg _ pb dns dnss dnso res oom so) := hc in
  mk nm ipc pid cg v pb dns dnss dnso res oom so.
Definition set_PortBindings (v : gmap string (list PortBinding.t)) (hc : t) : t :=
  let '(mk nm ipc pid cg sys _ dns dnss dnso res oom so) := hc in
  mk nm ipc pid cg sys v dns dnss dnso res oom so.
Definition set_DNS (servers searches options : list string) (hc : t) : t :=
  let '(mk nm ipc pid cg sys pb _ _ _ res oom so) := hc in
  mk nm ipc pid cg sys pb servers searches options res oom so.
Definition set_SecurityOpt (v : list string) (hc : t) : t :=
  let '(mk nm ipc pid cg sys pb dns dnss dnso res oom _) := hc in
  mk nm ipc pid cg sys pb dns dnss dnso res oom v.
End HostConfig.

Module Config.
Record t : Type := mk
  { Hostname : string;
    Image : string;
    Labels : gmap string string;
    ExposedPorts : gset string }.
Definition set_ExposedPorts (v : gset string) (c : t) : t :=
  mk (Hostname c) (Image c) (Labels c) v.
End Config.

End dockercontainer.

Module dockertypes.

Module ContainerState.
Record t : Type := mk
  { Running : bool; StartedAt : string; FinishedAt : string }.
End ContainerState.

Module NetworkSettings.
Record t : Type := mk
  { IPAddress : string; GlobalIPv6Address : string; SandboxKey : string }.
End NetworkSettings.

Module ContainerJSON.
(** The answer of [docker inspect].  [State] and [Config] are read without a
    nil check by [PodSandboxStatus] (lines 260 and 272) and are values here:
    an answer without them, at which the source panics, is no inhabitant of
    this type, and no statement below says when [PodSandboxStatus] panics.
    [HostConfig] and [NetworkSettings] are pointers that the source tests. *)
Record t : Type := mk
  { ID : string;
    Created : string;
    Name : string;
    State : ContainerState.t;
    HostConfig : option dockercontainer.HostConfig.t;
    Config : dockercontainer.Config.t;
    NetworkSettings : option NetworkSettings.t }.
End ContainerJSON.

Module Container.
(** One entry of [docker ps]. *)
Record t : Type := mk
  { ID : string;
    Names : list string;
    Labels : gmap string string;
    Created : Z;
    Status : string }.
End Container.

Module ContainerCreateConfig.
Record t : Type := mk
  { Name : string;
    Config : dockercontainer.Config.t;
    HostConfig : dockercontainer.HostConfig.t }.
End ContainerCreateConfig.

Module ContainerCreateResponse.
Record t : Type := mk { ID : string }.
End ContainerCreateResponse.

Module ContainerListOptions.
(** [Filter] is a [filters.Args]: a set of values per key, here the set of
    (key, value) pairs. *)
Record t : Type := mk { All : bool; Filter : gset (string * string) }.
End ContainerListOptions.

End dockertypes.

(** ** Checkpoints (package [dockershim]) *)

(** Modelled from the spec: the protocol of a checkpointed port mapping is
    one of TCP and UDP. *)
Inductive Protocol : Set :=
| protocolTCP
| protocolUDP.

Module PortMapping.
Record t : Type := mk
  { Protocol : Protocol; ContainerPort : Z; HostPort : Z }.
End PortMapping.

Module PodSandboxCheckpoint.
(** Modelled from the spec: a checkpoint holds the namespace, the name and
    the ordered list of port mappings of a sandbox; it is keyed by the
    sandbox id. *)
Record t : Type := mk
  { Namespace : string; Name : string; PortMappings : list PortMapping.t }.
End PodSandboxCheckpoint.

(** [NewPodSandboxCheckpoint(namespace, name)]: no port mapping yet. *)
Definition NewPodSandboxCheckpoint (namespace name : string) : PodSandboxCheckpoint.t :=
  PodSandboxCheckpoint.mk namespace name [].

(** ** Container identifiers handed to the network plugin *)

Module kubecontainer.
Module ContainerID.
Record t : Type := mk { Type_ : string; ID : string }.
End ContainerID.
Definition BuildContainerID (typ ID : string) : ContainerID.t :=
  ContainerID.mk typ ID.
End kubecontainer.

(** ** The package [net] of Go's standard library *)

Module net.
Module IP.
(** [net.IP], a slice of bytes: four for an IPv4 address, sixteen for an IPv6
    address; the nil slice is no address. *)
Definition t : Type := list Byte.byte.

#[local] Open Scope nat_scope.

Definition IPv4len : nat := 4.
Definition IPv6len : nat := 16.

Definition hexDigit (v : N) : ascii :=
  default "0"%char (String.list_ascii_of_string "0123456789abcdef" !! N.to_nat v).

(** [uitoa]: an unsigned number in decimal. *)
Definition uitoa (b : Byte.byte) : string := pretty (Byte.to_N b).

(** [hexString]: two hexadecimal digits for every byte. *)
Definition hexString (b : list Byte.byte) : string :=
  String.string_of_list_ascii
    (b ≫= λ tn, [hexDigit (N.shiftr (Byte.to_N tn) 4);
                 hexDigit (N.land (Byte.to_N tn) 15)]).

(** [appendHex]: a number in hexadecimal, from its first digit that is not
    zero. *)
Definition appendHex (i : N) : string :=
  if (i =? 0)%N then "0"
  else
    String.string_of_list_ascii
      ([7; 6; 5; 4; 3; 2; 1; 0]%N ≫= λ j,
         let v := N.shiftr i (j * 4) in
         if (0 <? v)%N then [hexDigit (N.land v 15)] else []).

(** [IP.To4]: the four bytes of an IPv4 address, also of one written in
    sixteen bytes; nil for another slice. *)
Definition To4 (ip : t) : t :=
  if decide (length ip = IPv4len) then ip
  else if bool_decide (length ip = IPv6len)
          && forallb (Byte.eqb Byte.x00) (take 10 ip)
          && from_option (Byte.eqb Byte.xff) false (ip !! 10%nat)
          && from_option (Byte.eqb Byte.xff) false (ip !! 11%nat)
       then drop 12 ip
       else [].

(** The eight numbers of sixteen bits of an IPv6 address. *)
Fixpoint groups (p : list Byte.byte) : list N :=
  match p with
  | hi :: lo :: p => (N.lor (N.shiftl (Byte.to_N hi) 8) (Byte.to_N lo)) :: groups p
  | _ => []
  end.

(** The inner loop of the search: how many numbers are zero at the head. *)
Fixpoint zeros (gs : list N) : nat :=
  match gs with
  | g :: gs => if (g =? 0)%N then S (zeros gs) else O
  | [] => O
  end.

(** The first loop of [IP.String]: the longest run of zeros, as the index of
    its first number and the index after its last, the first of the longest
    ones.  The index grows at every turn, so as many turns as there are
    numbers are enough. *)
Fixpoint longestZeros (fuel : nat) (gs : list N) (i : nat) (best : option (nat * nat))
  : option (nat * nat) :=
  match fuel with
  | O => best
  | S fuel =>
      if decide (length gs ≤ i) then best
      else
        let j := i + zeros (drop i gs) in
        let size := match best with Some (e0, e1) => e1 - e0 | None => 0 end in
        if decide (i < j ∧ size < j - i)
        then longestZeros fuel gs (S j) (Some (i, j))
        else longestZeros fuel gs (S i) best
  end.

(** The second loop of [IP.String]: the numbers in hexadecimal with colons
    between them, and two colons in the place of the run of zeros.  Here too
    the index grows at every turn. *)
Fixpoint printGroups (fuel : nat) (gs : list N) (zeros : option (nat * nat)) (i : nat)
  : string :=
  match fuel with
  | O => ""
  | S fuel =>
      if decide (length gs ≤ i) then ""
      else
        match zeros with
        | Some (e0, e1) =>
            if decide (i = e0) then
              "::" +:+
                (if decide (length gs ≤ e1) then ""
                 else appendHex (default 0%N (gs !! e1)) +:+
                      printGroups fuel gs zeros (S e1))
            else
              (if decide (0 < i) then ":" else "") +:+
              appendHex (default 0%N (gs !! i)) +:+ printGroups fuel gs zeros (S i)
        | None =>
            (if decide (0 < i) then ":" else "") +:+
            appendHex (default 0%N (gs !! i)) +:+ printGroups fuel gs zeros (S i)
        end
  end.

(** [IP.String], the text of an address: "<nil>" for the slice of length
    zero, the dotted form of an IPv4 address, the form with colons of an IPv6
    address, and a question mark with the bytes in hexadecimal for a slice of
    another length. *)
Definition String (ip : t) : string :=
  if decide (length ip = 0) then "<nil>"
  else
    match To4 ip with
    | [a; b; c; d] =>
        uitoa a +:+ "." +:+ uitoa b +:+ "." +:+ uitoa c +:+ "." +:+ uitoa d
    | _ =>
        if decide (length ip ≠ IPv6len) then "?" +:+ hexString ip
        else
          let gs := groups ip in
          let zeros :=
            match longestZeros (length gs) gs 0 None with
            | Some (e0, e1) => if decide (e1 - e0 ≤ 1) then None else Some (e0, e1)
            | None => None
            end in
          printGroups (length gs) gs zeros 0
    end.
End IP.
End net.

Module network.
Module PodNetworkStatus.
(** [IP] is a [net.IP]. *)
Record t : Type := mk { IP : net.IP.t }.
End PodNetworkStatus.
End network.

(** ** The rest of the package *)

(** The constants and the pure functions of the package that
    [docker_sandbox.go] uses and that other files declare.  They are taken as
    they come: nothing is assumed about them. *)
Class Helpers : Type := {
  containerTypeLabelKey : string;
  containerTypeLabelSandbox : string;
  KubernetesContainerNameLabel : string;
  sandboxContainerName : string;
  namespaceModeHost : string;
  DefaultMemorySwap : Z;
  PodInfraOOMAdj : Z;
  (** [dockertools.IsContainerNotFoundError] *)
  IsContainerNotFoundError : error → bool;
  parseSandboxName : string → result runtimeapi.PodSandboxMetadata.t;
  makeSandboxName : runtimeapi.PodSandboxConfig.t → string;
  makeLabels : gmap string string → gmap string string → gmap string string;
  extractLabels : gmap string string → gmap string string * gmap string string;
  convertLegacyNameAndLabels :
    list string → gmap string string → result (list string * gmap string string);
  (** the three timestamps of a container, created, started and finished,
      each as the nanoseconds [UnixNano] gives *)
  getContainerTimestamps : dockertypes.ContainerJSON.t → result (Z * Z * Z);
  getNetworkNamespace : dockertypes.ContainerJSON.t → string;
  containerToRuntimeAPISandbox :
    dockertypes.Container.t → result runtimeapi.PodSandbox.t;
  (** [dockerFilter.AddLabel] on the arguments of a docker filter *)
  dockerFilter_AddLabel :
    string → string → gset (string * string) → gset (string * string);
  getSecurityOptSeparator : string → Z;
  getSysctlsFromAnnotations : gmap string string → result (gmap string string);
  makePortsAndBindings :
    list runtimeapi.PortMapping.t →
    gset string * gmap string (list dockercontainer.PortBinding.t);
  getSandboxSecurityOpts :
    runtimeapi.PodSandboxConfig.t → string → Z → result (list string)
}.

(** [dockerFilter.Add]: one more value under a key of the filter. *)
Definition dockerFilter_Add (key value : string) (args : gset (string * string))
  : gset (string * string) :=
  {[ (key, value) ]} ∪ args.

(** Modelled from the spec: [checkpointToRuntimeAPISandbox] (in another file
    of the package) synthesizes a minimal record from a checkpoint: id, name
    and namespace only, state forced to NotReady. *)
Definition checkpointToRuntimeAPISandbox
  (id : string) (checkpoint : PodSandboxCheckpoint.t) : runtimeapi.PodSandbox.t :=
  runtimeapi.PodSandbox.mk id
    (Some (runtimeapi.PodSandboxMetadata.mk
             (PodSandboxCheckpoint.Name checkpoint) ""
             (PodSandboxCheckpoint.Namespace checkpoint) 0))
    runtimeapi.PodSandboxState_SANDBOX_NOTREADY 0 ∅ ∅.

(** ** Calls to the collaborators *)

(** [ds.client], the docker client.  [PullImage] is always called with the
    zero [AuthConfig] and [ImagePullOptions]; [RemoveContainer] takes the
    [RemoveVolumes] option. *)
Inductive ClientOp : Type :=
| PullImage (image : string)
| CreateContainer (config : dockertypes.ContainerCreateConfig.t)
| StartContainer (id : string)
| StopContainer (id : string) (timeout : Z)
| RemoveContainer (id : string) (RemoveVolumes : bool)
| InspectContainer (id : string)
| ListContainers (options : dockertypes.ContainerListOptions.t).

(** [ds.networkPlugin]. *)
Inductive PluginOp : Type :=
| SetUpPod (namespace name : string) (id : kubecontainer.ContainerID.t)
| TearDownPod (namespace name : string) (id : kubecontainer.ContainerID.t)
| GetPodNetworkStatus (namespace name : string) (id : kubecontainer.ContainerID.t).

(** [ds.checkpointHandler]. *)
Inductive CheckpointOp : Type :=
| CreateCheckpoint (podSandboxID : string) (checkpoint : PodSandboxCheckpoint.t)
| GetCheckpoint (podSandboxID : string)
| RemoveCheckpoint (podSandboxID : string)
| ListCheckpoints.

(** Functions and methods declared in other files of the package that
    themselves use the collaborators or the fields of the service. *)
Inductive ShimOp : Type :=
| recoverFromCreationConflictIfNeeded
    (config : dockertypes.ContainerCreateConfig.t) (err : error)
| getDockerAPIVersion
| GenerateExpectedCgroupParent (cgroupParent : string)
| applySandboxSecurityContext
    (lc : runtimeapi.LinuxPodSandboxConfig.t)
    (config : dockercontainer.Config.t) (hc : dockercontainer.HostConfig.t)
    (separator : Z)
| legacyCleanup_Done
| ListLegacyPodSandbox (filter : option runtimeapi.PodSandboxFilter.t).

Inductive Op : Type :=
| client (o : ClientOp)
| networkPlugin (o : PluginOp)
| checkpointHandler (o : CheckpointOp)
| shim (o : ShimOp).

(** What each call answers.  A pair is a Go [(value, error)] pair of which the
    source looks at both components. *)
Definition Resp (o : Op) : Type :=
  match o with
  | client (PullImage _) => option error
  | client (CreateContainer _) =>
      option dockertypes.ContainerCreateResponse.t * option error
  | client (StartContainer _) => option error
  | client (StopContainer _ _) => option error
  | client (RemoveContainer _ _) => option error
  | client (InspectContainer _) => result dockertypes.ContainerJSON.t
  | client (ListContainers _) => result (list dockertypes.Container.t)
  | networkPlugin (SetUpPod _ _ _) => option error
  | networkPlugin (TearDownPod _ _ _) => option error
  | networkPlugin (GetPodNetworkStatus _ _ _) =>
      option network.PodNetworkStatus.t * option error
  | checkpointHandler (CreateCheckpoint _ _) => option error
  | checkpointHandler (GetCheckpoint _) =>
      option PodSandboxCheckpoint.t * option error
  | checkpointHandler (RemoveCheckpoint _) => option error
  | checkpointHandler ListCheckpoints => list string * option error
  | shim (recoverFromCreationConflictIfNeeded _ _) =>
      option dockertypes.ContainerCreateResponse.t * option error
  | shim getDockerAPIVersion => result string
  | shim (GenerateExpectedCgroupParent _) => result string
  | shim (applySandboxSecurityContext _ _ _ _) =>
      dockercontainer.Config.t * dockercontainer.HostConfig.t
  | shim legacyCleanup_Done => bool
  | shim (ListLegacyPodSandbox _) => result (list runtimeapi.PodSandbox.t)
  end.

(** ** Programs *)

(** A program returns, calls a collaborator and goes on with its answer, or
    panics (a nil dereference, an index out of range). *)
Inductive Prog (A : Type) : Type :=
| Ret (a : A)
| Call (o : Op) (k : Resp o → Prog A)
| Panic.
Arguments Ret {A} a.
Arguments Call {A} o k.
Arguments Panic {A}.

Fixpoint Prog_bind {A B : Type} (f : A → Prog B) (p : Prog A) : Prog B :=
  match p with
  | Ret a => f a
  | Call o k => Call o (λ r, Prog_bind f (k r))
  | Panic => Panic
  end.

#[export] Instance Prog_ret : MRet Prog := @Ret.
#[export] Instance Prog_mbind : MBind Prog := @Prog_bind.

Definition call (o : Op) : Prog (Resp o) := Call o Ret.

(** How a program ends. *)
Inductive Outcome (A : Type) : Type :=
| Returned (a : A)
| Panicked.
Arguments Returned {A} a.
Arguments Panicked {A}.

(** A call with the answer it got. *)
Definition Event : Type := { o : Op & Resp o }.
Definition ev (o : Op) (r : Resp o) : Event := existT o r.

(** The collaborators over a world [W]: the answer to each call and the world
    after it. *)
Definition Handler (W : Type) : Type := ∀ o : Op, W → Resp o * W.

(** [run h p w]: how [p] ends from the world [w], the world it leaves, and
    the calls it made, in order. *)
Fixpoint run {W A : Type} (h : Handler W) (p : Prog A) (w : W)
  : Outcome A * W * list Event :=
  match p with
  | Ret a => (Returned a, w, [])
  | Panic => (Panicked, w, [])
  | Call o k =>
      let '(r, w1) := h o w in
      let '(out, w2, t) := run h (k r) w1 in
      (out, w2, ev o r :: t)
  end.

(** The operations called, without the answers. *)
Definition calls (t : list Event) : list Op := projT1 <$> t.

(** ** The service *)

Definition defaultSandboxImage : string := "gcr.io/google_containers/pause-amd64:3.0".
Definition defaultSandboxCPUshares : Z := 2.
Definition defaultSandboxGracePeriod : Z := 10.
Definition runtimeName : string := "docker".

(** The fields of [dockerService] that the file reads; its collaborators are
    reached through [call]. *)
Record dockerService : Type := {
  podSandboxImage : string;
  seccompProfileRoot : string
}.

(** [err == errors.CheckpointNotFoundError] and
    [err == errors.CorruptCheckpointError]. *)
Definition is_CheckpointNotFoundError (e : error) : bool :=
  match e with CheckpointNotFoundError => true | _ => false end.

Definition is_CorruptCheckpointError (e : error) : bool :=
  match e with CorruptCheckpointError => true | _ => false end.

Section docker_sandbox.
Context `{Helpers} (ds : dockerService).

(** [sharesHostNetwork], lines 482-489. *)
Definition sharesHostNetwork (container : option dockertypes.ContainerJSON.t) : bool :=
  match container with
  | Some c =>
      match dockertypes.ContainerJSON.HostConfig c with
      | Some hc =>
          bool_decide (dockercontainer.HostConfig.NetworkMode hc = namespaceModeHost)
      | None => false
      end
  | None => false
  end.

(** [setSandboxResources], lines 491-499. *)
Definition setSandboxResources (hc : dockercontainer.HostConfig.t)
  : dockercontainer.HostConfig.t :=
  let '(dockercontainer.HostConfig.mk nm ipc pid cg sys pb dns dnss dnso _ _ so) := hc in
  dockercontainer.HostConfig.mk nm ipc pid cg sys pb dns dnss dnso
    (dockercontainer.Resources.mk DefaultMemorySwap defaultSandboxCPUshares)
    PodInfraOOMAdj so.

(** [toCheckpointProtocol], lines 514-523. *)
Definition toCheckpointProtocol (protocol : runtimeapi.Protocol) : Protocol :=
  if bool_decide (protocol = runtimeapi.Protocol_TCP) then protocolTCP
  else if bool_decide (protocol = runtimeapi.Protocol_UDP) then protocolUDP
  else protocolTCP.

(** [constructPodSandboxCheckpoint], lines 501-512: the loop appends one
    checkpoint mapping per configured mapping, in the order of the slice. *)
Definition constructPodSandboxCheckpoint (config : runtimeapi.PodSandboxConfig.t)
  : PodSandboxCheckpoint.t :=
  let checkpoint :=
    NewPodSandboxCheckpoint
      (runtimeapi.PodSandboxMetadata.Namespace (runtimeapi.PodSandboxConfig.Metadata config))
      (runtimeapi.PodSandboxMetadata.Name (runtimeapi.PodSandboxConfig.Metadata config)) in
  foldl
    (λ checkpoint pm,
       let proto := toCheckpointProtocol (runtimeapi.PortMapping.Protocol pm) in
       PodSandboxCheckpoint.mk
         (PodSandboxCheckpoint.Namespace checkpoint)
         (PodSandboxCheckpoint.Name checkpoint)
         (PodSandboxCheckpoint.PortMappings checkpoint ++
            [ PortMapping.mk proto
                (runtimeapi.PortMapping.ContainerPort pm)
                (runtimeapi.PortMapping.HostPort pm) ]))
    checkpoint (runtimeapi.PodSandboxConfig.GetPortMappings config).

(** [getIPFromPlugin], lines 195-213.  The message [msg] is written into the
    format of the error it prefixes. *)
Definition getIPFromPlugin (sandbox : dockertypes.ContainerJSON.t)
  : Prog (string * option error) :=
  match parseSandboxName (dockertypes.ContainerJSON.Name sandbox) with
  | fail err => mret ("", Some err)
  | ok metadata =>
      let namespace := runtimeapi.PodSandboxMetadata.Namespace metadata in
      let name := runtimeapi.PodSandboxMetadata.Name metadata in
      let cID :=
        kubecontainer.BuildContainerID runtimeName (dockertypes.ContainerJSON.ID sandbox) in
      r ← call (networkPlugin (GetPodNetworkStatus namespace name cID));
      match r with
      | (_, Some err) =>
          mret ("", Some (Errorf "Couldn't find network status for %s/%s through plugin: %v"
                            [namespace; name] (Some err)))
      | (None, None) =>
          mret ("", Some (Errorf
                            "Couldn't find network status for %s/%s through plugin: invalid network status for"
                            [namespace; name] None))
      | (Some networkStatus, None) =>
          mret (net.IP.String (network.PodNetworkStatus.IP networkStatus), None)
      end
  end.

(** [getIP], lines 218-241. *)
Definition getIP (sandbox : dockertypes.ContainerJSON.t) : Prog (string * option error) :=
  match dockertypes.ContainerJSON.NetworkSettings sandbox with
  | None => mret ("", None)
  | Some settings =>
      if sharesHostNetwork (Some sandbox) then mret ("", None)
      else
        let docker_ip :=
          if bool_decide (dockertypes.NetworkSettings.IPAddress settings ≠ "")
          then (dockertypes.NetworkSettings.IPAddress settings, None)
          else (dockertypes.NetworkSettings.GlobalIPv6Address settings, None) in
        r ← getIPFromPlugin sandbox;
        match r with
        | (_, Some err) => mret docker_ip
        | (IP, None) => if bool_decide (IP ≠ "") then mret (IP, None) else mret docker_ip
        end
  end.

(** [PodSandboxStatus], lines 244-304. *)
Definition PodSandboxStatus (podSandboxID : string)
  : Prog (result runtimeapi.PodSandboxStatus.t) :=
  r ← call (client (InspectContainer podSandboxID));
  match r with
  | fail err => mret (fail err)
  | ok r =>
      match getContainerTimestamps r with
      | fail err =>
          mret (fail (Errorf "failed to parse timestamp for container %q: %v"
                        [podSandboxID] (Some err)))
      | ok (createdAt, _, _) =>
          let ct := createdAt in
          let state :=
            if dockertypes.ContainerState.Running (dockertypes.ContainerJSON.State r)
            then runtimeapi.PodSandboxState_SANDBOX_READY
            else runtimeapi.PodSandboxState_SANDBOX_NOTREADY in
          ip ← getIP r;
          match ip with
          | (_, Some err) => mret (fail err)
          | (IP, None) =>
              let network := runtimeapi.PodSandboxNetworkStatus.mk IP in
              let netNS := getNetworkNamespace r in
              let hostNetwork := sharesHostNetwork (Some r) in
              let Labels :=
                dockercontainer.Config.Labels (dockertypes.ContainerJSON.Config r) in
              (* the legacy case rewrites [r.Name] and [r.Config.Labels] *)
              legacy ←
                match Labels !! containerTypeLabelKey with
                | Some _ =>
                    mret (ok (dockertypes.ContainerJSON.Name r, Labels, hostNetwork))
                | None =>
                    match convertLegacyNameAndLabels
                            [dockertypes.ContainerJSON.Name r] Labels with
                    | fail err => mret (fail err)
                    | ok (names, labels) =>
                        match names with
                        | [] => Panic
                        | name0 :: _ => mret (ok (name0, labels, negb hostNetwork))
                        end
                    end
                end;
              match legacy with
              | fail err => mret (fail err)
              | ok (Name, Labels, hostNetwork) =>
                  match parseSandboxName Name with
                  | fail err => mret (fail err)
                  | ok metadata =>
                      let '(labels, annotations) := extractLabels Labels in
                      mret (ok {|
                        runtimeapi.PodSandboxStatus.Id := dockertypes.ContainerJSON.ID r;
                        runtimeapi.PodSandboxStatus.State := state;
                        runtimeapi.PodSandboxStatus.CreatedAt := ct;
                        runtimeapi.PodSandboxStatus.Metadata := Some metadata;
                        runtimeapi.PodSandboxStatus.Labels := labels;
                        runtimeapi.PodSandboxStatus.Annotations := annotations;
                        runtimeapi.PodSandboxStatus.Network := Some network;
                        runtimeapi.PodSandboxStatus.Linux :=
                          Some (runtimeapi.LinuxPodSandboxStatus.mk
                                  (Some (runtimeapi.Namespace.mk netNS
                                           (Some (runtimeapi.NamespaceOption.mk
                                                    hostNetwork false false)))))
                      |})
                  end
              end
          end
      end
  end.

(** The second half of [StopPodSandbox], lines 162-176: the teardown, once
    [needNetworkTearDown], [namespace] and [name] are settled. *)
Definition StopPodSandbox_teardown
  (podSandboxID : string) (needNetworkTearDown : bool) (namespace name : string)
  : Prog (option error) :=
  let errList : list error := [] in
  errList ←
    (if needNetworkTearDown then
       let cID := kubecontainer.BuildContainerID runtimeName podSandboxID in
       err ← call (networkPlugin (TearDownPod namespace name cID));
       match err with
       | Some err =>
           mret (errList ++
                   [Errorf "failed to teardown sandbox %q for pod %s/%s: %v"
                      [podSandboxID; namespace; name] (Some err)])
       | None => mret errList
       end
     else mret errList);
  err ← call (client (StopContainer podSandboxID defaultSandboxGracePeriod));
  let errList :=
    match err with
    | Some err => if negb (IsContainerNotFoundError err) then errList ++ [err] else errList
    | None => errList
    end in
  mret (NewAggregate errList).

(** [StopPodSandbox], lines 116-178. *)
Definition StopPodSandbox (podSandboxID : string) : Prog (option error) :=
  r ← PodSandboxStatus podSandboxID;
  match r with
  | ok status =>
      let nsOpts :=
        runtimeapi.PodSandboxStatus.GetOptions
          (runtimeapi.PodSandboxStatus.GetNamespaces
             (runtimeapi.PodSandboxStatus.GetLinux status)) in
      let needNetworkTearDown :=
        match nsOpts with
        | Some nsOpts => negb (runtimeapi.NamespaceOption.HostNetwork nsOpts)
        | None => false
        end in
      match runtimeapi.PodSandboxStatus.GetMetadata status with
      | None => Panic
      | Some m =>
          StopPodSandbox_teardown podSandboxID needNetworkTearDown
            (runtimeapi.PodSandboxMetadata.Namespace m)
            (runtimeapi.PodSandboxMetadata.Name m)
      end
  | fail statusErr =>
      c ← call (checkpointHandler (GetCheckpoint podSandboxID));
      match c with
      | (_, Some checkpointErr) =>
          if IsContainerNotFoundError statusErr
             && is_CheckpointNotFoundError checkpointErr
          then StopPodSandbox_teardown podSandboxID true "" ""
          else
            mret (NewAggregate
                    [Errorf "failed to get checkpoint for sandbox %q: %v"
                       [podSandboxID] (Some checkpointErr);
                     Errorf "failed to get sandbox status: %v" [] (Some statusErr)])
      | (None, None) => Panic
      | (Some checkpoint, None) =>
          StopPodSandbox_teardown podSandboxID true
            (PodSandboxCheckpoint.Namespace checkpoint)
            (PodSandboxCheckpoint.Name checkpoint)
      end
  end.

(** [RemovePodSandbox], lines 182-192. *)
Definition RemovePodSandbox (podSandboxID : string) : Prog (option error) :=
  let errs : list error := [] in
  err ← call (client (RemoveContainer podSandboxID true));
  let errs :=
    match err with
    | Some err => if negb (IsContainerNotFoundError err) then errs ++ [err] else errs
    | None => errs
    end in
  err ← call (checkpointHandler (RemoveCheckpoint podSandboxID));
  let errs :=
    match err with
    | Some err => errs ++ [err]
    | None => errs
    end in
  mret (NewAggregate errs).

(** ** [ListPodSandbox], lines 307-400 *)

(** Lines 309-340: the options of the docker query and whether ready
    sandboxes are to be dropped afterwards. *)
Definition ListPodSandbox_options (filter : option runtimeapi.PodSandboxFilter.t)
  : dockertypes.ContainerListOptions.t * bool :=
  let f := dockerFilter_AddLabel containerTypeLabelKey containerTypeLabelSandbox ∅ in
  match filter with
  | None => (dockertypes.ContainerListOptions.mk true f, false)
  | Some filter =>
      let f :=
        if bool_decide (runtimeapi.PodSandboxFilter.Id filter ≠ "")
        then dockerFilter_Add "id" (runtimeapi.PodSandboxFilter.Id filter) f
        else f in
      let '(All, filterOutReadySandboxes) :=
        match runtimeapi.PodSandboxFilter.State filter with
        | Some runtimeapi.PodSandboxState_SANDBOX_READY => (false, false)
        | Some _ => (true, true)
        | None => (true, false)
        end in
      let f :=
        match runtimeapi.PodSandboxFilter.LabelSelector filter with
        | Some selector => map_fold (λ k v f, dockerFilter_AddLabel k v f) f selector
        | None => f
        end in
      (dockertypes.ContainerListOptions.mk All f, filterOutReadySandboxes)
  end.

Definition is_ready (s : runtimeapi.PodSandboxState) : bool :=
  match s with
  | runtimeapi.PodSandboxState_SANDBOX_READY => true
  | runtimeapi.PodSandboxState_SANDBOX_NOTREADY => false
  end.

(** Lines 350-362: the loop over the containers docker listed.
    [sandboxIDs] is the map the source uses as a set. *)
Fixpoint ListPodSandbox_convert
  (filterOutReadySandboxes : bool) (containers : list dockertypes.Container.t)
  (result : list runtimeapi.PodSandbox.t) (sandboxIDs : gmap string bool)
  : list runtimeapi.PodSandbox.t * gmap string bool :=
  match containers with
  | [] => (result, sandboxIDs)
  | c :: containers =>
      match containerToRuntimeAPISandbox c with
      | fail _ =>
          ListPodSandbox_convert filterOutReadySandboxes containers result sandboxIDs
      | ok converted =>
          if filterOutReadySandboxes
             && is_ready (runtimeapi.PodSandbox.State converted)
          then ListPodSandbox_convert filterOutReadySandboxes containers result sandboxIDs
          else
            ListPodSandbox_convert filterOutReadySandboxes containers
              (result ++ [converted])
              (<[runtimeapi.PodSandbox.Id converted := true]> sandboxIDs)
      end
  end.

(** Lines 372-387: the loop over the checkpoint ids.  Line 381 evaluates
    [*checkpoint] as an argument of the log call, whatever the verbosity. *)
Fixpoint ListPodSandbox_checkpoints
  (sandboxIDs : gmap string bool) (checkpoints : list string)
  (result : list runtimeapi.PodSandbox.t) : Prog (list runtimeapi.PodSandbox.t) :=
  match checkpoints with
  | [] => mret result
  | id :: checkpoints =>
      match sandboxIDs !! id with
      | Some _ => ListPodSandbox_checkpoints sandboxIDs checkpoints result
      | None =>
          c ← call (checkpointHandler (GetCheckpoint id));
          match c with
          | (checkpoint, Some err) =>
              if is_CorruptCheckpointError err then
                match checkpoint with
                | None => Panic
                | Some _ =>
                    _ ← call (checkpointHandler (RemoveCheckpoint id));
                    ListPodSandbox_checkpoints sandboxIDs checkpoints result
                end
              else ListPodSandbox_checkpoints sandboxIDs checkpoints result
          | (None, None) => Panic
          | (Some checkpoint, None) =>
              ListPodSandbox_checkpoints sandboxIDs checkpoints
                (result ++ [checkpointToRuntimeAPISandbox id checkpoint])
          end
      end
  end.

Definition ListPodSandbox (filter : option runtimeapi.PodSandboxFilter.t)
  : Prog (result (list runtimeapi.PodSandbox.t)) :=
  let '(opts, filterOutReadySandboxes) := ListPodSandbox_options filter in
  r ← call (client (ListContainers opts));
  match r with
  | fail err => mret (fail err)
  | ok containers =>
      let '(result, sandboxIDs) :=
        ListPodSandbox_convert filterOutReadySandboxes containers [] ∅ in
      result ←
        match filter with
        | None =>
            l ← call (checkpointHandler ListCheckpoints);
            ListPodSandbox_checkpoints sandboxIDs l.1 result
        | Some _ => mret result
        end;
      done ← call (shim legacyCleanup_Done);
      if negb done then
        r ← call (shim (ListLegacyPodSandbox filter));
        match r with
        | fail err => mret (fail err)
        | ok legacySandboxes => mret (ok (result ++ legacySandboxes))
        end
      else mret (ok result)
  end.

(** ** [RunPodSandbox] and the docker configuration of a sandbox *)

(** [applySandboxLinuxOptions], lines 403-414.  The source updates [hc] and
    [createConfig.Config] in place; here the two come back. *)
Definition applySandboxLinuxOptions
  (hc : dockercontainer.HostConfig.t) (lc : runtimeapi.LinuxPodSandboxConfig.t)
  (config : dockercontainer.Config.t) (image : string) (separator : Z)
  : Prog (result (dockercontainer.Config.t * dockercontainer.HostConfig.t)) :=
  r ← call (shim (GenerateExpectedCgroupParent
                    (runtimeapi.LinuxPodSandboxConfig.CgroupParent lc)));
  match r with
  | fail err => mret (fail err)
  | ok cgroupParent =>
      let hc := dockercontainer.HostConfig.set_CgroupParent cgroupParent hc in
      r ← call (shim (applySandboxSecurityContext lc config hc separator));
      mret (ok (r.1, r.2))
  end.

(** [makeSandboxDockerConfig], lines 417-480.  [createConfig.HostConfig] is
    the pointer [hc], so the configuration is put together at the end. *)
Definition makeSandboxDockerConfig (c : runtimeapi.PodSandboxConfig.t) (image : string)
  : Prog (result dockertypes.ContainerCreateConfig.t) :=
  let labels :=
    makeLabels (runtimeapi.PodSandboxConfig.GetLabels c)
      (runtimeapi.PodSandboxConfig.GetAnnotations c) in
  let labels := <[containerTypeLabelKey := containerTypeLabelSandbox]> labels in
  let labels := <[KubernetesContainerNameLabel := sandboxContainerName]> labels in
  let Name := runtimeapi.PodSandboxMetadata.Name (runtimeapi.PodSandboxConfig.Metadata c) in
  r ← call (shim getDockerAPIVersion);
  match r with
  | fail err =>
      mret (fail (Errorf "unable to get the docker API version: %v" [] (Some err)))
  | ok apiVersion =>
      let securityOptSep := getSecurityOptSeparator apiVersion in
      let hc := dockercontainer.HostConfig.zero in
      let config :=
        dockercontainer.Config.mk (runtimeapi.PodSandboxConfig.Hostname c) image labels ∅ in
      match getSysctlsFromAnnotations (runtimeapi.PodSandboxConfig.Annotations c) with
      | fail err =>
          mret (fail (Errorf "failed to get sysctls from annotations %v for sandbox %q: %v"
                        [Name] (Some err)))
      | ok sysctls =>
          let hc := dockercontainer.HostConfig.set_Sysctls sysctls hc in
          r ←
            match runtimeapi.PodSandboxConfig.GetLinux c with
            | Some lc => applySandboxLinuxOptions hc lc config image securityOptSep
            | None => mret (ok (config, hc))
            end;
          match r with
          | fail err => mret (fail err)
          | ok (config, hc) =>
              let '(exposedPorts, portBindings) :=
                makePortsAndBindings (runtimeapi.PodSandboxConfig.GetPortMappings c) in
              let config := dockercontainer.Config.set_ExposedPorts exposedPorts config in
              let hc := dockercontainer.HostConfig.set_PortBindings portBindings hc in
              let hc :=
                match runtimeapi.PodSandboxConfig.GetDnsConfig c with
                | Some dnsConfig =>
                    dockercontainer.HostConfig.set_DNS
                      (runtimeapi.DNSConfig.Servers dnsConfig)
                      (runtimeapi.DNSConfig.Searches dnsConfig)
                      (runtimeapi.DNSConfig.Options dnsConfig) hc
                | None => hc
                end in
              let hc := setSandboxResources hc in
              match getSandboxSecurityOpts c (seccompProfileRoot ds) securityOptSep with
              | fail err =>
                  mret (fail (Errorf
                                "failed to generate sandbox security options for sandbox %q: %v"
                                [Name] (Some err)))
              | ok securityOpts =>
                  let hc :=
                    dockercontainer.HostConfig.set_SecurityOpt
                      (dockercontainer.HostConfig.SecurityOpt hc ++ securityOpts) hc in
                  mret (ok (dockertypes.ContainerCreateConfig.mk (makeSandboxName c) config hc))
              end
          end
      end
  end.

(** The image of the sandbox, lines 56-60. *)
Definition sandboxImage : string :=
  if negb (String.length (podSandboxImage ds) =? 0)%nat
  then podSandboxImage ds else defaultSandboxImage.

(** Steps 3 to 5 of [RunPodSandbox], lines 82-108, for the record docker
    created. *)
Definition RunPodSandbox_created
  (config : runtimeapi.PodSandboxConfig.t)
  (createResp : dockertypes.ContainerCreateResponse.t) : Prog (string * option error) :=
  let ID := dockertypes.ContainerCreateResponse.ID createResp in
  let Name := runtimeapi.PodSandboxMetadata.Name (runtimeapi.PodSandboxConfig.Metadata config) in
  err ← call (checkpointHandler
                (CreateCheckpoint ID (constructPodSandboxCheckpoint config)));
  match err with
  | Some err => mret (ID, Some err)
  | None =>
      err ← call (client (StartContainer ID));
      match err with
      | Some err =>
          mret (ID, Some (Errorf "failed to start sandbox container for pod %q: %v"
                            [Name] (Some err)))
      | None =>
          let nsOptions :=
            runtimeapi.LinuxSandboxSecurityContext.GetNamespaceOptions
              (runtimeapi.LinuxPodSandboxConfig.GetSecurityContext
                 (runtimeapi.PodSandboxConfig.GetLinux config)) in
          if match nsOptions with
             | Some nsOptions => runtimeapi.NamespaceOption.HostNetwork nsOptions
             | None => false
             end
          then mret (ID, None)
          else
            let cID := kubecontainer.BuildContainerID runtimeName ID in
            err ← call (networkPlugin
                          (SetUpPod
                             (runtimeapi.PodSandboxMetadata.Namespace
                                (runtimeapi.PodSandboxConfig.GetMetadata config))
                             (runtimeapi.PodSandboxMetadata.Name
                                (runtimeapi.PodSandboxConfig.GetMetadata config))
                             cID));
            mret (ID, err)
      end
  end.

(** [RunPodSandbox], lines 54-109. *)
Definition RunPodSandbox (config : runtimeapi.PodSandboxConfig.t)
  : Prog (string * option error) :=
  let image := sandboxImage in
  let Name := runtimeapi.PodSandboxMetadata.Name (runtimeapi.PodSandboxConfig.Metadata config) in
  err ← call (client (PullImage image));
  match err with
  | Some err =>
      mret ("", Some (Errorf "unable to pull image for the sandbox container: %v"
                        [] (Some err)))
  | None =>
      r ← makeSandboxDockerConfig config image;
      match r with
      | fail err =>
          mret ("", Some (Errorf "failed to make sandbox docker config for pod %q: %v"
                            [Name] (Some err)))
      | ok createConfig =>
          r ← call (client (CreateContainer createConfig));
          r ← match r with
              | (_, Some err) =>
                  call (shim (recoverFromCreationConflictIfNeeded createConfig err))
              | (createResp, None) => mret (createResp, None)
              end;
          match r with
          | (Some createResp, None) => RunPodSandbox_created config createResp
          | (_, err) =>
              mret ("", Some (Errorf "failed to create a sandbox for pod %q: %v"
                                [Name] err))
          end
      end
  end.

End docker_sandbox.

(** ** The checkpoint store *)

Module Store.
(** Modelled from the spec: the checkpoint store is a durable key-value record
    keyed by sandbox id.  What it holds under an id is a valid checkpoint, a
    corrupted one (payload present but undecodable) or a record whose access
    fails (generic I/O failure).  [Read] distinguishes not-found, corrupted and
    I/O failure; corruption does not crash the reader, it is reported as
    [CorruptCheckpointError] together with what was decoded, which line 381 of
    the source prints.  [Remove] ignores not-found.  [ListIds] gives the
    ids, each once. *)
Inductive Stored : Type :=
| Valid (checkpoint : PodSandboxCheckpoint.t)
| Corrupt (checkpoint : PodSandboxCheckpoint.t)
| Unreadable (msg : string).

Abbreviation t := (gmap string Stored).

Definition Read (id : string) (s : t) : option PodSandboxCheckpoint.t * option error :=
  match s !! id with
  | None => (None, Some CheckpointNotFoundError)
  | Some (Valid checkpoint) => (Some checkpoint, None)
  | Some (Corrupt checkpoint) => (Some checkpoint, Some CorruptCheckpointError)
  | Some (Unreadable msg) => (None, Some (Opaque msg))
  end.

Definition Write (id : string) (checkpoint : PodSandboxCheckpoint.t) (s : t)
  : option error * t :=
  match s !! id with
  | Some (Unreadable msg) => (Some (Opaque msg), s)
  | _ => (None, <[id := Valid checkpoint]> s)
  end.

Definition Remove (id : string) (s : t) : option error * t :=
  match s !! id with
  | Some (Unreadable msg) => (Some (Opaque msg), s)
  | _ => (None, delete id s)
  end.

Definition ListIds (s : t) : list string * option error :=
  ((map_to_list s).*1, None).
End Store.

(** The collaborators [hX] over a world [X], with the checkpoint handler
    served by a [Store.t]. *)
Definition withStore {X : Type} (hX : Handler X) : Handler (X * Store.t) :=
  λ o,
    match o as o' return X * Store.t → Resp o' * (X * Store.t) with
    | checkpointHandler c =>
        match c as c' return X * Store.t → Resp (checkpointHandler c') * (X * Store.t) with
        | CreateCheckpoint id checkpoint =>
            λ w, let '(r, s) := Store.Write id checkpoint w.2 in (r, (w.1, s))
        | GetCheckpoint id => λ w, (Store.Read id w.2, w)
        | RemoveCheckpoint id =>
            λ w, let '(r, s) := Store.Remove id w.2 in (r, (w.1, s))
        | ListCheckpoints => λ w, (Store.ListIds w.2, w)
        end
    | client c => λ w, let '(r, x) := hX (client c) w.1 in (r, (x, w.2))
    | networkPlugin c => λ w, let '(r, x) := hX (networkPlugin c) w.1 in (r, (x, w.2))
    | shim c => λ w, let '(r, x) := hX (shim c) w.1 in (r, (x, w.2))
    end.

(** ** Fakes

    A docker client, a network plugin and the rest of the package as a unit
    test of the package sets them up: every call has a scripted answer.  The
    checkpoint handler is the [Store] above. *)

Module Fake.

Definition notFound : error := Opaque "No such container".

Definition helpers : Helpers := {|
  containerTypeLabelKey := "io.kubernetes.docker.type";
  containerTypeLabelSandbox := "podsandbox";
  KubernetesContainerNameLabel := "io.kubernetes.container.name";
  sandboxContainerName := "POD";
  namespaceModeHost := "host";
  DefaultMemorySwap := 0;
  PodInfraOOMAdj := -998;
  IsContainerNotFoundError e :=
    match e with
    | Opaque msg => bool_decide (msg = "No such container")
    | _ => false
    end;
  parseSandboxName name :=
    if bool_decide (name = "") then fail (Opaque "failed to parse the sandbox name")
    else ok (runtimeapi.PodSandboxMetadata.mk name "uid" "default" 0);
  makeSandboxName c :=
    runtimeapi.PodSandboxMetadata.Name (runtimeapi.PodSandboxConfig.Metadata c);
  makeLabels labels annotations := labels ∪ annotations;
  extractLabels labels := (labels, ∅);
  convertLegacyNameAndLabels names labels :=
    ok (names, <["io.kubernetes.docker.type" := "podsandbox"]> labels);
  getContainerTimestamps r := ok (0, 0, 0);
  getNetworkNamespace r := "";
  containerToRuntimeAPISandbox c :=
    match dockertypes.Container.Names c with
    | [] => fail (Opaque "no name")
    | name :: _ =>
        ok (runtimeapi.PodSandbox.mk (dockertypes.Container.ID c)
              (Some (runtimeapi.PodSandboxMetadata.mk name "uid" "default" 0))
              (if bool_decide (dockertypes.Container.Status c = "Up")
               then runtimeapi.PodSandboxState_SANDBOX_READY
               else runtimeapi.PodSandboxState_SANDBOX_NOTREADY)
              (dockertypes.Container.Created c)
              (dockertypes.Container.Labels c) ∅)
    end;
  dockerFilter_AddLabel key value args := {[ ("label", key +:+ "=" +:+ value) ]} ∪ args;
  getSecurityOptSeparator version := 61;
  getSysctlsFromAnnotations annotations := ok ∅;
  makePortsAndBindings mappings := (∅, ∅);
  getSandboxSecurityOpts c root separator := ok []
|}.

(** The scripted answers. *)
Record script : Type := {
  pull : option error;
  create : option dockertypes.ContainerCreateResponse.t * option error;
  start : option error;
  stop : option error;
  remove : option error;
  inspect : result dockertypes.ContainerJSON.t;
  listed : result (list dockertypes.Container.t);
  setup : option error;
  teardown : option error;
  status : option network.PodNetworkStatus.t * option error;
  legacy_done : bool;
  legacy : result (list runtimeapi.PodSandbox.t)
}.

Definition docker (s : script) : Handler unit :=
  λ o,
    match o as o' return unit → Resp o' * unit with
    | client (PullImage _) => λ w, (pull s, w)
    | client (CreateContainer _) => λ w, (create s, w)
    | client (StartContainer _) => λ w, (start s, w)
    | client (StopContainer _ _) => λ w, (stop s, w)
    | client (RemoveContainer _ _) => λ w, (remove s, w)
    | client (InspectContainer _) => λ w, (inspect s, w)
    | client (ListContainers _) => λ w, (listed s, w)
    | networkPlugin (SetUpPod _ _ _) => λ w, (setup s, w)
    | networkPlugin (TearDownPod _ _ _) => λ w, (teardown s, w)
    | networkPlugin (GetPodNetworkStatus _ _ _) => λ w, (status s, w)
    | checkpointHandler (CreateCheckpoint _ _) => λ w, (None, w)
    | checkpointHandler (GetCheckpoint _) => λ w, ((None, Some CheckpointNotFoundError), w)
    | checkpointHandler (RemoveCheckpoint _) => λ w, (None, w)
    | checkpointHandler ListCheckpoints => λ w, (([], None), w)
    | shim (recoverFromCreationConflictIfNeeded _ err) => λ w, ((None, Some err), w)
    | shim getDockerAPIVersion => λ w, (ok "1.24", w)
    | shim (GenerateExpectedCgroupParent cgroupParent) => λ w, (ok cgroupParent, w)
    | shim (applySandboxSecurityContext _ config hc _) => λ w, ((config, hc), w)
    | shim legacyCleanup_Done => λ w, (legacy_done s, w)
    | shim (ListLegacyPodSandbox _) => λ w, (legacy s, w)
    end.

(** A sandbox that runs, with the address 172.17.0.2 from docker and
    10.0.0.5 from the plugin. *)
Definition sandbox (labels : gmap string string) (mode : string)
  : dockertypes.ContainerJSON.t :=
  dockertypes.ContainerJSON.mk "s1" "2017-01-01T00:00:00Z" "web"
    (dockertypes.ContainerState.mk true "" "")
    (Some (dockercontainer.HostConfig.mk mode "" "" "" ∅ ∅ [] [] []
             (dockercontainer.Resources.mk 0 0) 0 []))
    (dockercontainer.Config.mk "web" "pause" labels ∅)
    (Some (dockertypes.NetworkSettings.mk "172.17.0.2" "" "")).

Definition quiet : script := {|
  pull := None;
  create := (Some (dockertypes.ContainerCreateResponse.mk "s1"), None);
  start := None;
  stop := None;
  remove := None;
  inspect := ok (sandbox {[ "io.kubernetes.docker.type" := "podsandbox" ]} "default");
  listed := ok [];
  setup := None;
  teardown := None;
  status :=
    (Some (network.PodNetworkStatus.mk [Byte.x0a; Byte.x00; Byte.x00; Byte.x05]), None);
  legacy_done := true;
  legacy := ok []
|}.

Definition service : dockerService :=
  {| podSandboxImage := ""; seccompProfileRoot := "" |}.

Definition config (hostNetwork : bool) : runtimeapi.PodSandboxConfig.t :=
  runtimeapi.PodSandboxConfig.mk
    (runtimeapi.PodSandboxMetadata.mk "web" "uid" "default" 0)
    "web" "" None
    [runtimeapi.PortMapping.mk 0 80 8080 ""; runtimeapi.PortMapping.mk 1 53 5353 "";
     runtimeapi.PortMapping.mk 2 443 8443 ""]
    ∅ ∅
    (Some (runtimeapi.LinuxPodSandboxConfig.mk ""
             (Some (runtimeapi.LinuxSandboxSecurityContext.mk
                      (Some (runtimeapi.NamespaceOption.mk hostNetwork false false)))))).

(** A fake world for the listing: docker lists the sandbox "s1", the store
    holds a valid checkpoint "c2" and a corrupted one "c3", and the legacy
    path, whose cleanup is not done, gives the sandbox "old". *)
Definition listing : script :=
  {| pull := None; create := (None, None); start := None;
     stop := None; remove := None; inspect := fail notFound;
     listed := ok [dockertypes.Container.mk "s1" ["web"%string] ∅ 0 "Up"];
     setup := None; teardown := None; status := (None, None);
     legacy_done := false;
     legacy :=
       ok [runtimeapi.PodSandbox.mk "old" None
             runtimeapi.PodSandboxState_SANDBOX_NOTREADY 0 ∅ ∅] |}.

Definition store : Store.t :=
  {[ "c2"%string := Store.Valid (PodSandboxCheckpoint.mk "default" "db" []);
     "c3"%string := Store.Corrupt (PodSandboxCheckpoint.mk "" "" []) ]}.

End Fake.

(** * Vocabulary of the statements *)

(** The calls of the teardown phase of [StopPodSandbox]. *)
Definition is_teardown_call (o : Op) : bool :=
  match o with
  | networkPlugin (TearDownPod _ _ _) => true
  | client (StopContainer _ _) => true
  | _ => false
  end.

Definition no_teardown_call (t : list Event) : Prop :=
  Forall (λ e, is_teardown_call (projT1 e) = false) t.

Section vocabulary.
Context `{Helpers} {W : Type} (h : Handler W).

(** What the teardown phase keeps of the answer of the network plugin and of
    the answer of [StopContainer]. *)
Definition teardown_failure (id namespace name : string) (r : option error)
  : list error :=
  match r with
  | Some err =>
      [Errorf "failed to teardown sandbox %q for pod %s/%s: %v"
         [id; namespace; name] (Some err)]
  | None => []
  end.

Definition unless_not_found (r : option error) : list error :=
  match r with
  | Some err => if IsContainerNotFoundError err then [] else [err]
  | None => []
  end.

(** The teardown phase from the world [w], after the calls [before]: the
    plugin is asked when [need] holds, docker is asked to stop the container
    from the world the plugin left, and what is kept of the two answers is
    aggregated. *)
Definition teardown_from
  (id : string) (need : bool) (namespace name : string) (w : W) (before : list Event)
  : Outcome (option error) * W * list Event :=
  let o1 :=
    networkPlugin
      (TearDownPod namespace name (kubecontainer.BuildContainerID runtimeName id)) in
  let o2 := client (StopContainer id defaultSandboxGracePeriod) in
  let '(rn, w1) := if need then h o1 w else ((None : Resp o1), w) in
  let '(rs, w2) := h o2 w1 in
  (Returned (NewAggregate (teardown_failure id namespace name rn ++ unless_not_found rs)),
   w2, before ++ (if need then [ev o1 rn] else []) ++ [ev o2 rs]).

End vocabulary.

(** The address docker reports for a sandbox, lines 237-240: its IPv4
    address, then its IPv6 address. *)
Definition docker_address (settings : dockertypes.NetworkSettings.t) : string :=
  if bool_decide (dockertypes.NetworkSettings.IPAddress settings ≠ "")
  then dockertypes.NetworkSettings.IPAddress settings
  else dockertypes.NetworkSettings.GlobalIPv6Address settings.

(** The host-network flag a status reports. *)
Definition reported_hostNetwork (status : runtimeapi.PodSandboxStatus.t) : option bool :=
  runtimeapi.NamespaceOption.HostNetwork <$>
    runtimeapi.PodSandboxStatus.GetOptions
      (runtimeapi.PodSandboxStatus.GetNamespaces
         (runtimeapi.PodSandboxStatus.GetLinux status)).

(** The record docker created, when the event is the answer of the creation
    step of [RunPodSandbox]: [CreateContainer], or the recovery from a name
    conflict, handing back a response and no error. *)
Definition created_by (e : Event) : option dockertypes.ContainerCreateResponse.t :=
  let '(existT o r) := e in
  match o return Resp o → option dockertypes.ContainerCreateResponse.t with
  | client (CreateContainer _) =>
      λ r, match r with (Some createResp, None) => Some createResp | _ => None end
  | shim (recoverFromCreationConflictIfNeeded _ _) =>
      λ r, match r with (Some createResp, None) => Some createResp | _ => None end
  | _ => λ _, None
  end r.

Definition created (t : list Event) : option dockertypes.ContainerCreateResponse.t :=
  head (omap created_by t).

(** The steps of [RunPodSandbox] that follow the creation. *)
Definition is_later_call (o : Op) : bool :=
  match o with
  | checkpointHandler (CreateCheckpoint _ _) => true
  | client (StartContainer _) => true
  | networkPlugin (SetUpPod _ _ _) => true
  | _ => false
  end.

Definition is_SetUpPod (o : Op) : bool :=
  match o with
  | networkPlugin (SetUpPod _ _ _) => true
  | _ => false
  end.

(** The error [RunPodSandbox] returns for a failed later step of the pod
    [name]. *)
Definition later_failure (name : string) (e : Event) : option error :=
  let '(existT o r) := e in
  match o return Resp o → option error with
  | checkpointHandler (CreateCheckpoint _ _) => λ r, r
  | client (StartContainer _) =>
      λ r, (λ err, Errorf "failed to start sandbox container for pod %q: %v"
                     [name] (Some err)) <$> r
  | networkPlugin (SetUpPod _ _ _) => λ r, r
  | _ => λ _, None
  end r.

(** The calls of the later steps, in the order of the source, for the
    record [id]. *)
Definition later_calls (config : runtimeapi.PodSandboxConfig.t) (id : string) : list Op :=
  [checkpointHandler (CreateCheckpoint id (constructPodSandboxCheckpoint config));
   client (StartContainer id);
   networkPlugin
     (SetUpPod
        (runtimeapi.PodSandboxMetadata.Namespace (runtimeapi.PodSandboxConfig.Metadata config))
        (runtimeapi.PodSandboxMetadata.Name (runtimeapi.PodSandboxConfig.Metadata config))
        (kubecontainer.BuildContainerID runtimeName id))].

(** Whether the configuration asks for the host network, as line 94 reads
    it. *)
Definition config_hostNetwork (config : runtimeapi.PodSandboxConfig.t) : bool :=
  match runtimeapi.LinuxSandboxSecurityContext.GetNamespaceOptions
          (runtimeapi.LinuxPodSandboxConfig.GetSecurityContext
             (runtimeapi.PodSandboxConfig.GetLinux config)) with
  | Some nsOptions => runtimeapi.NamespaceOption.HostNetwork nsOptions
  | None => false
  end.

(** The mapping the checkpoint keeps of a configured port mapping. *)
Definition checkpoint_mapping (pm : runtimeapi.PortMapping.t) : PortMapping.t :=
  PortMapping.mk
    (toCheckpointProtocol (runtimeapi.PortMapping.Protocol pm))
    (runtimeapi.PortMapping.ContainerPort pm)
    (runtimeapi.PortMapping.HostPort pm).

(** An event of [RunPodSandbox] that comes before the record exists: no
    answer of a successful creation, no call of a later step. *)
Definition before_creation (e : Event) : Prop :=
  created_by e = None ∧ is_later_call (projT1 e) = false.

Section list_vocabulary.
Context `{Helpers}.

(** The sandboxes made of the containers docker listed: those that convert,
    in the order of the listing. *)
Definition converted (containers : list dockertypes.Container.t)
  : list runtimeapi.PodSandbox.t :=
  omap (λ c, match containerToRuntimeAPISandbox c with
             | ok sandbox => Some sandbox
             | fail _ => None
             end) containers.

(** The sandbox synthesized for a checkpoint id: there is one when no
    sandbox of [backend] has the id and the store holds a valid checkpoint
    under it. *)
Definition checkpoint_entry (backend : list string) (store : Store.t) (id : string)
  : option runtimeapi.PodSandbox.t :=
  if decide (id ∈ backend) then None
  else
    match store !! id with
    | Some (Store.Valid checkpoint) => Some (checkpointToRuntimeAPISandbox id checkpoint)
    | _ => None
    end.

Definition checkpoint_entries (backend : list string) (store : Store.t)
  : list runtimeapi.PodSandbox.t :=
  omap (checkpoint_entry backend store) (Store.ListIds store).1.

Definition is_corrupt (stored : Store.Stored) : bool :=
  match stored with Store.Corrupt _ => true | _ => false end.

(** The store after an unfiltered listing: the corrupted checkpoints whose id
    no sandbox of [backend] has are gone. *)
Definition swept (backend : list string) (store : Store.t) : Store.t :=
  filter (λ kv, kv.1 ∈ backend ∨ is_corrupt kv.2 = false) store.

(** What the loop over the checkpoint ids makes of one id, and what it does
    to the store. *)
Definition loop_entry (sandboxIDs : gmap string bool) (store : Store.t) (id : string)
  : option runtimeapi.PodSandbox.t :=
  match sandboxIDs !! id with
  | Some _ => None
  | None =>
      match store !! id with
      | Some (Store.Valid checkpoint) => Some (checkpointToRuntimeAPISandbox id checkpoint)
      | _ => None
      end
  end.

Definition loop_sweep (sandboxIDs : gmap string bool) (store : Store.t) (id : string)
  : Store.t :=
  match sandboxIDs !! id with
  | Some _ => store
  | None =>
      match store !! id with
      | Some (Store.Corrupt _) => delete id store
      | _ => store
      end
  end.

Definition is_checkpoint_call (o : Op) : bool :=
  match o with checkpointHandler _ => true | _ => false end.

End list_vocabulary.

(** The calls [PodSandboxStatus] may make, and those [StopPodSandbox] may
    make. *)
Definition is_status_call (o : Op) : bool :=
  match o with
  | client (InspectContainer _) => true
  | networkPlugin (GetPodNetworkStatus _ _ _) => true
  | _ => false
  end.

Definition is_stop_call (o : Op) : bool :=
  match o with
  | client (InspectContainer _) => true
  | client (StopContainer _ _) => true
  | networkPlugin (GetPodNetworkStatus _ _ _) => true
  | networkPlugin (TearDownPod _ _ _) => true
  | checkpointHandler (GetCheckpoint _) => true
  | _ => false
  end.

(** The calls that change the checkpoint store. *)
Definition is_store_update (o : Op) : bool :=
  match o with
  | checkpointHandler (CreateCheckpoint _ _) => true
  | checkpointHandler (RemoveCheckpoint _) => true
  | _ => false
  end.

Section filtered_vocabulary.
Context `{Helpers}.

(** The sandboxes the loop of lines 350-362 keeps of the containers docker
    listed: those that convert, without the ready ones when they are to be
    filtered out. *)
Definition kept (filterOutReadySandboxes : bool)
  (containers : list dockertypes.Container.t) : list runtimeapi.PodSandbox.t :=
  filter
    (λ s, filterOutReadySandboxes && is_ready (runtimeapi.PodSandbox.State s) = false)
    (converted containers).

(** Whether a filter asks for the sandboxes that are not ready. *)
Definition asks_not_ready (filter : runtimeapi.PodSandboxFilter.t) : bool :=
  match runtimeapi.PodSandboxFilter.State filter with
  | Some runtimeapi.PodSandboxState_SANDBOX_NOTREADY => true
  | _ => false
  end.

End filtered_vocabulary.

(** The calls the statements of [ListPodSandbox] make after the listing of
    docker: calls of the checkpoint handler, the test of the legacy cleanup
    and [ListLegacyPodSandbox].  What [ListLegacyPodSandbox], a method of
    another file, asks docker is not among the events of a run. *)
Definition is_listing_step (o : Op) : bool :=
  match o with
  | checkpointHandler _ => true
  | shim legacyCleanup_Done => true
  | shim (ListLegacyPodSandbox _) => true
  | _ => false
  end.

(** The calls [makeSandboxDockerConfig] may make. *)
Definition is_config_call (o : Op) : bool :=
  match o with
  | shim getDockerAPIVersion => true
  | shim (GenerateExpectedCgroupParent _) => true
  | shim (applySandboxSecurityContext _ _ _ _) => true
  | _ => false
  end.

Section config_vocabulary.
Context `{Helpers}.

(** What the lines 453-479 of [makeSandboxDockerConfig] make of the
    configuration [config0] and the host configuration [hc0] that the lines
    before left, with the security options [securityOpts]. *)
Definition configured (c : runtimeapi.PodSandboxConfig.t)
  (config0 : dockercontainer.Config.t) (hc0 : dockercontainer.HostConfig.t)
  (securityOpts : list string) : dockertypes.ContainerCreateConfig.t :=
  let ports := makePortsAndBindings (runtimeapi.PodSandboxConfig.GetPortMappings c) in
  let config := dockercontainer.Config.set_ExposedPorts ports.1 config0 in
  let hc := dockercontainer.HostConfig.set_PortBindings ports.2 hc0 in
  let hc :=
    match runtimeapi.PodSandboxConfig.GetDnsConfig c with
    | Some dnsConfig =>
        dockercontainer.HostConfig.set_DNS
          (runtimeapi.DNSConfig.Servers dnsConfig)
          (runtimeapi.DNSConfig.Searches dnsConfig)
          (runtimeapi.DNSConfig.Options dnsConfig) hc
    | None => hc
    end in
  let hc := setSandboxResources hc in
  let hc :=
    dockercontainer.HostConfig.set_SecurityOpt
      (dockercontainer.HostConfig.SecurityOpt hc ++ securityOpts) hc in
  dockertypes.ContainerCreateConfig.mk (makeSandboxName c) config hc.

End config_vocabulary.

(** The two statements of the creation step of [RunPodSandbox]: the call of
    [CreateContainer] at line 73 and the hand-over to
    [recoverFromCreationConflictIfNeeded] at line 75.  The recovery is a
    function of another file that is given the docker client: it is one event
    of a run, and the calls it makes of docker are not events. *)
Definition is_creation_step (o : Op) : bool :=
  match o with
  | client (CreateContainer _) => true
  | shim (recoverFromCreationConflictIfNeeded _ _) => true
  | _ => false
  end.

(** The calls the statements of [RunPodSandbox] and of
    [makeSandboxDockerConfig] make. *)
Definition is_run_step (o : Op) : bool :=
  match o with
  | client (PullImage _) => true
  | _ => is_config_call o || is_creation_step o || is_later_call o
  end.

(** * Proofs *)

Ltac run_step h :=
  match goal with
  | |- context [h ?o ?w] =>
      let r := fresh "r" in
      let w' := fresh "w" in
      let E := fresh "E" in
      destruct (h o w) as [r w'] eqn:E; simpl in r
  end.

(** ** The text of an address *)

Lemma app_nonempty_r (s1 s2 : string) : s2 ≠ "" → s1 +:+ s2 ≠ "".
Proof. destruct s1; [done |]. intros _. discriminate. Qed.

Lemma app_nonempty_l (s1 s2 : string) : s1 ≠ "" → s1 +:+ s2 ≠ "".
Proof. destruct s1; [done |]. intros _. discriminate. Qed.

Lemma appendHex_nonempty (i : N) : net.IP.appendHex i ≠ "".
Proof.
  unfold net.IP.appendHex. destruct (i =? 0)%N eqn:Hi; [discriminate |].
  apply N.eqb_neq in Hi.
  intros Hnil.
  assert (Hlist : ∀ l, String.string_of_list_ascii l = "" → l = [])
    by (intros [| c l]; [done | discriminate]).
  apply Hlist in Hnil. cbn [mbind list_bind] in Hnil.
  do 7 (apply app_eq_nil in Hnil as [_ Hnil]). apply app_eq_nil in Hnil as [Hnil _].
  change (0 * 4)%N with 0%N in Hnil. rewrite N.shiftr_0_r in Hnil.
  assert (Hpos : (0 <? i)%N = true) by (apply N.ltb_lt; lia).
  rewrite Hpos in Hnil. discriminate Hnil.
Qed.

(** The text of an address is never empty: the text of no address is
    "<nil>". *)
Lemma IP_String_nonempty (ip : net.IP.t) : net.IP.String ip ≠ "".
Proof.
  unfold net.IP.String. destruct (decide (length ip = 0%nat)); [discriminate |].
  assert (Hv6 :
    (if decide (length ip ≠ net.IP.IPv6len) then "?" +:+ net.IP.hexString ip
     else
       let gs := net.IP.groups ip in
       let zeros :=
         match net.IP.longestZeros (length gs) gs 0%nat None with
         | Some (e0, e1) => if decide (e1 - e0 ≤ 1)%nat then None else Some (e0, e1)
         | None => None
         end in
       net.IP.printGroups (length gs) gs zeros 0%nat) ≠ "").
  { destruct (decide (length ip ≠ net.IP.IPv6len)) as [| Hlen]; [discriminate |].
    cbv zeta.
    destruct ip as [| hi [| lo ip]]; [done | exfalso; apply Hlen; simpl; discriminate |].
    cbn [net.IP.groups length net.IP.printGroups].
    destruct (decide (S _ ≤ 0)%nat); [lia |].
    cbn [lookup list_lookup default from_option].
    set (zeros := match net.IP.longestZeros _ _ _ _ with Some _ => _ | None => _ end).
    destruct zeros as [[e0 e1] |].
    - destruct (decide (0%nat = e0)); [discriminate |].
      destruct (decide (0 < 0)%nat); [lia |].
      apply app_nonempty_r, app_nonempty_l, appendHex_nonempty.
    - destruct (decide (0 < 0)%nat); [lia |].
      apply app_nonempty_r, app_nonempty_l, appendHex_nonempty. }
  destruct (net.IP.To4 ip) as [| a [| b [| c [| d [| e p4]]]]]; try exact Hv6.
  apply app_nonempty_r. discriminate.
Qed.

Lemma run_bind {W A B : Type} (h : Handler W) (p : Prog A) (f : A → Prog B) (w : W) :
  run h (p ≫= f) w =
    match run h p w with
    | (Returned a, w1, t1) =>
        let '(out, w2, t2) := run h (f a) w1 in (out, w2, t1 ++ t2)
    | (Panicked, w1, t1) => (Panicked, w1, t1)
    end.
Proof.
  revert w. induction p as [a | o k IH |]; intros w; simpl.
  - destruct (run h (f a) w) as [[out w2] t2]. reflexivity.
  - destruct (h o w) as [r w1].
    change (Prog_bind f (k r)) with (k r ≫= f). rewrite IH.
    destruct (run h (k r) w1) as [[[a |] w2] t2]; [| reflexivity].
    destruct (run h (f a) w2) as [[out w3] t3]. reflexivity.
  - reflexivity.
Qed.

Section properties.
Context `{Helpers} (ds : dockerService) {W : Type} (h : Handler W).

Lemma StopPodSandbox_teardown_run id need namespace name w :
  run h (StopPodSandbox_teardown id need namespace name) w =
    teardown_from h id need namespace name w [].
Proof.
  unfold StopPodSandbox_teardown, teardown_from. destruct need; simpl.
  - run_step h. destruct r as [e |]; simpl; run_step h.
    + destruct r as [e' |]; simpl; [destruct (IsContainerNotFoundError e') |]; reflexivity.
    + destruct r as [e' |]; simpl; [destruct (IsContainerNotFoundError e') |]; reflexivity.
  - run_step h.
    destruct r as [e' |]; simpl; [destruct (IsContainerNotFoundError e') |]; reflexivity.
Qed.

#[local] Arguments StopPodSandbox_teardown : simpl never.

Lemma teardown_from_before id need namespace name w before :
  teardown_from h id need namespace name w before =
    let '(out, w1, t) := teardown_from h id need namespace name w [] in
    (out, w1, before ++ t).
Proof.
  unfold teardown_from. destruct need.
  - destruct (h _ w) as [rn w1]. destruct (h _ w1) as [rs w2]. reflexivity.
  - destruct (h _ w) as [rs w2]. reflexivity.
Qed.

(** The status query never panics on the plugin's side and makes no call of
    the teardown phase. *)
Lemma getIPFromPlugin_returns sandbox w :
  ∃ ip err w1 t,
    run h (getIPFromPlugin sandbox) w = (Returned (ip, err), w1, t) ∧
    no_teardown_call t.
Proof.
  unfold getIPFromPlugin, no_teardown_call.
  destruct (parseSandboxName _) as [md | e]; simpl.
  - run_step h. destruct r as [[st |] [e |]]; simpl; eauto 10.
  - eauto 10.
Qed.

Lemma getIP_returns sandbox w :
  ∃ ip w1 t,
    run h (getIP sandbox) w = (Returned (ip, None), w1, t) ∧ no_teardown_call t.
Proof.
  unfold getIP.
  destruct (dockertypes.ContainerJSON.NetworkSettings sandbox) as [settings |].
  2: { simpl. unfold no_teardown_call. eauto. }
  destruct (sharesHostNetwork _).
  { simpl. unfold no_teardown_call. eauto. }
  rewrite run_bind.
  destruct (getIPFromPlugin_returns sandbox w) as (ip & err & w1 & t & -> & Ht).
  destruct err as [e |]; simpl.
  - case_bool_decide; simpl; rewrite app_nil_r; eauto.
  - case_bool_decide; simpl; [rewrite app_nil_r; eauto |].
    case_bool_decide; simpl; rewrite app_nil_r; eauto.
Qed.

Lemma PodSandboxStatus_queries id w :
  ∃ out w1 t,
    run h (PodSandboxStatus id) w = (out, w1, t) ∧ no_teardown_call t ∧
    match out with
    | Returned (ok status) => is_Some (runtimeapi.PodSandboxStatus.Metadata status)
    | _ => True
    end.
Proof.
  unfold PodSandboxStatus. simpl. run_step h.
  destruct r as [r | e]; simpl.
  2: { do 3 eexists. split; [reflexivity |]. split; [| done]. repeat constructor. }
  destruct (getContainerTimestamps r) as [[[c s] f] | e]; simpl.
  2: { do 3 eexists. split; [reflexivity |]. split; [| done]. repeat constructor. }
  rewrite run_bind.
  destruct (getIP_returns r w0) as (ip & w1 & t & -> & Ht).
  assert (Hc : no_teardown_call (ev (client (InspectContainer id)) (ok r) :: t ++ [])).
  { rewrite app_nil_r. constructor; [reflexivity | assumption]. }
  destruct (_ !! containerTypeLabelKey); simpl.
  - destruct (parseSandboxName _); simpl;
      [destruct (extractLabels _); simpl |]; eauto 10.
  - destruct (convertLegacyNameAndLabels _ _) as [[[| n ns] ls] | e]; simpl; eauto 10.
    destruct (parseSandboxName _); simpl;
      [destruct (extractLabels _); simpl |]; eauto 10.
Qed.

(** C7.  Whatever the collaborators answer, the teardown phase of
    [StopPodSandbox] asks the network plugin to tear down when that is needed
    and then asks docker to stop the container, also after the plugin failed;
    a not-found answer of docker is dropped; the call returns the aggregate of
    the failures that are left, nil when there is none.  A run of
    [StopPodSandbox] either ends with this phase, after calls that are no
    teardown calls, or makes no teardown call at all and returns the aggregate
    of the two lookup failures (or panics). *)
Theorem StopPodSandbox_teardown_phase (id : string) (w : W) :
  (∀ need namespace name w0,
     run h (StopPodSandbox_teardown id need namespace name) w0 =
       teardown_from h id need namespace name w0 []) ∧
  (NewAggregate [] = None ∧ ∀ rs, unless_not_found rs = [] ↔
     rs = None ∨ ∃ err, rs = Some err ∧ IsContainerNotFoundError err = true) ∧
  ∃ t0 w0,
    no_teardown_call t0 ∧
    ((∃ need namespace name,
        run h (StopPodSandbox id) w = teardown_from h id need namespace name w0 t0) ∨
     (∃ out,
        run h (StopPodSandbox id) w = (out, w0, t0) ∧
        (out = Panicked ∨ ∃ e1 e2, out = Returned (Some (Aggregate [e1; e2]))))).
Proof.
  split; [intros; apply StopPodSandbox_teardown_run |].
  split.
  { split; [reflexivity |]. intros [e |]; simpl.
    - destruct (IsContainerNotFoundError e) eqn:E; split; try done.
      + intros _. right. eauto.
      + intros [| (e' & [= <-] & He)]; congruence.
    - split; eauto. }
  unfold StopPodSandbox. rewrite run_bind.
  destruct (PodSandboxStatus_queries id w) as (out & w1 & t & -> & Ht & Hmd).
  destruct out as [[status | statusErr] |].
  - destruct Hmd as [m Hm]. unfold runtimeapi.PodSandboxStatus.GetMetadata. rewrite Hm.
    simpl.
    exists t, w1. split; [assumption |]. left. do 3 eexists.
    rewrite StopPodSandbox_teardown_run.
    rewrite (teardown_from_before _ _ _ _ _ t). reflexivity.
  - simpl. run_step h.
    set (lookup := ev (checkpointHandler (GetCheckpoint id)) r).
    assert (Hq : no_teardown_call (t ++ [lookup])).
    { apply Forall_app; split; [assumption | repeat constructor]. }
    assert (Hteardown : ∀ namespace name,
      ∃ t0 w2, no_teardown_call t0 ∧
        ((∃ need namespace0 name0,
          (let '(out, w3, t2) :=
             let '(out, w3, t1) :=
               run h (StopPodSandbox_teardown id true namespace name) w0 in
             (out, w3, lookup :: t1) in
           (out, w3, t ++ t2)) = teardown_from h id need namespace0 name0 w2 t0) ∨
         (∃ out,
          (let '(out, w3, t2) :=
             let '(out, w3, t1) :=
               run h (StopPodSandbox_teardown id true namespace name) w0 in
             (out, w3, lookup :: t1) in
           (out, w3, t ++ t2)) = (out, w2, t0) ∧
          (out = Panicked ∨ ∃ e1 e2, out = Returned (Some (Aggregate [e1; e2])))))).
    { intros namespace name. exists (t ++ [lookup]), w0. split; [assumption |].
      left. exists true, namespace, name.
      rewrite StopPodSandbox_teardown_run.
      rewrite (teardown_from_before _ _ _ _ _ (t ++ _)).
      destruct (teardown_from _ _ _ _ _ _ _) as [[o w2] t2].
      by rewrite <- app_assoc. }
    destruct r as [[cp |] [cerr |]]; simpl.
    + destruct (_ && _); [apply Hteardown |].
      eexists _, w0. split; [apply Hq |].
      right; eexists; split; [reflexivity | right; eauto].
    + apply Hteardown.
    + destruct (_ && _); [apply Hteardown |].
      eexists _, w0. split; [apply Hq |].
      right; eexists; split; [reflexivity | right; eauto].
    + eexists _, w0. split; [apply Hq |].
      right; eexists; split; [reflexivity | left; reflexivity].
  - exists t, w1. split; [assumption |]. right. eauto.
Qed.

Lemma is_CheckpointNotFoundError_false err :
  err ≠ CheckpointNotFoundError → is_CheckpointNotFoundError err = false.
Proof. destruct err; simpl; congruence. Qed.

(** C1.  When the status query of [StopPodSandbox] fails with [statusErr],
    the checkpoint handler is asked for the checkpoint of the sandbox.  If
    that lookup fails with [CheckpointNotFoundError] and [statusErr] is a
    container-not-found error, the teardown runs with the network teardown
    forced and empty namespace and name.  If the lookup fails otherwise, or
    [statusErr] is no not-found error, the call returns the aggregate of the
    two failures and makes no further call.  If the checkpoint is found, the
    teardown runs with the network teardown forced and the namespace and name
    of the checkpoint. *)
Theorem StopPodSandbox_status_failure
  (id : string) (w : W) (statusErr : error) (w1 : W) (t1 : list Event)
  (checkpoint : option PodSandboxCheckpoint.t) (checkpointErr : option error) (w2 : W) :
  run h (PodSandboxStatus id) w = (Returned (fail statusErr), w1, t1) →
  h (checkpointHandler (GetCheckpoint id)) w1 = ((checkpoint, checkpointErr), w2) →
  let lookup := ev (checkpointHandler (GetCheckpoint id)) (checkpoint, checkpointErr) in
  (checkpointErr = Some CheckpointNotFoundError →
   IsContainerNotFoundError statusErr = true →
   run h (StopPodSandbox id) w = teardown_from h id true "" "" w2 (t1 ++ [lookup])) ∧
  (∀ err,
     checkpointErr = Some err →
     err ≠ CheckpointNotFoundError ∨ IsContainerNotFoundError statusErr = false →
     run h (StopPodSandbox id) w =
       (Returned
          (Some (Aggregate
                   [Errorf "failed to get checkpoint for sandbox %q: %v" [id] (Some err);
                    Errorf "failed to get sandbox status: %v" [] (Some statusErr)])),
        w2, t1 ++ [lookup])) ∧
  (∀ c,
     checkpointErr = None → checkpoint = Some c →
     run h (StopPodSandbox id) w =
       teardown_from h id true
         (PodSandboxCheckpoint.Namespace c) (PodSandboxCheckpoint.Name c)
         w2 (t1 ++ [lookup])).
Proof.
  intros Hstatus Hlookup lookup.
  assert (Hteardown : ∀ namespace name,
    (let '(out, w3, t2) :=
       let '(out, w3, t) :=
         run h (StopPodSandbox_teardown id true namespace name) w2 in
       (out, w3, lookup :: t) in
     (out, w3, t1 ++ t2)) = teardown_from h id true namespace name w2 (t1 ++ [lookup])).
  { intros namespace name. rewrite StopPodSandbox_teardown_run.
    rewrite (teardown_from_before _ _ _ _ _ (t1 ++ _)).
    destruct (teardown_from _ _ _ _ _ _ _) as [[o w3] t3].
    by rewrite <- app_assoc. }
  unfold StopPodSandbox. rewrite run_bind, Hstatus. simpl. rewrite Hlookup.
  split; [| split].
  - intros -> Hnf. rewrite Hnf. destruct checkpoint; simpl; apply Hteardown.
  - intros err -> Hother.
    assert (IsContainerNotFoundError statusErr && is_CheckpointNotFoundError err = false)
      as ->.
    { destruct Hother as [Hne | ->]; [| reflexivity].
      rewrite (is_CheckpointNotFoundError_false _ Hne). apply andb_false_r. }
    destruct checkpoint; reflexivity.
  - intros c -> ->. simpl. apply Hteardown.
Qed.
End properties.

(** In the fake world: docker has no container "s1" and the store holds its
    checkpoint, so the plugin is asked to tear down default/web. *)
Lemma StopPodSandbox_status_failure_witness :
  let hF := withStore (Fake.docker
    {| Fake.pull := None; Fake.create := (None, None); Fake.start := None;
       Fake.stop := Some Fake.notFound; Fake.remove := None;
       Fake.inspect := fail Fake.notFound; Fake.listed := ok [];
       Fake.setup := None; Fake.teardown := None; Fake.status := (None, None);
       Fake.legacy_done := true; Fake.legacy := ok [] |}) in
  let store : Store.t :=
    {[ "s1"%string := Store.Valid (PodSandboxCheckpoint.mk "default" "web" []) ]} in
  run hF (@StopPodSandbox Fake.helpers "s1") (tt, store) =
    (Returned None, (tt, store),
     [ev (client (InspectContainer "s1")) (fail Fake.notFound);
      ev (checkpointHandler (GetCheckpoint "s1"))
        (Some (PodSandboxCheckpoint.mk "default" "web" []), None);
      ev (networkPlugin
            (TearDownPod "default" "web" (kubecontainer.ContainerID.mk "docker" "s1")))
        None;
      ev (client (StopContainer "s1" 10)) (Some Fake.notFound)]).
Proof.
  intros hF store.
  pose proof (@StopPodSandbox_status_failure Fake.helpers _ hF "s1" (tt, store)
    Fake.notFound (tt, store) [ev (client (InspectContainer "s1")) (fail Fake.notFound)]
    (Some (PodSandboxCheckpoint.mk "default" "web" [])) None (tt, store)
    eq_refl eq_refl) as (_ & _ & Hfound).
  rewrite (Hfound _ eq_refl eq_refl). reflexivity.
Defined.

Section status_properties.
Context `{Helpers} {W : Type} (h : Handler W).

(** The plugin is asked about the pod the name of the container decodes to;
    a name that does not decode, an error of the plugin and a nil status are
    errors. *)
Lemma getIPFromPlugin_run sandbox w :
  run h (getIPFromPlugin sandbox) w =
    match parseSandboxName (dockertypes.ContainerJSON.Name sandbox) with
    | fail err => (Returned ("", Some err), w, [])
    | ok metadata =>
        let o :=
          networkPlugin
            (GetPodNetworkStatus
               (runtimeapi.PodSandboxMetadata.Namespace metadata)
               (runtimeapi.PodSandboxMetadata.Name metadata)
               (kubecontainer.BuildContainerID runtimeName
                  (dockertypes.ContainerJSON.ID sandbox))) in
        let '(r, w1) := h o w in
        (Returned
           match r with
           | (Some networkStatus, None) =>
               (net.IP.String (network.PodNetworkStatus.IP networkStatus), None)
           | (None, None) =>
               ("", Some (Errorf
                            "Couldn't find network status for %s/%s through plugin: invalid network status for"
                            [runtimeapi.PodSandboxMetadata.Namespace metadata;
                             runtimeapi.PodSandboxMetadata.Name metadata] None))
           | (_, Some err) =>
               ("", Some (Errorf
                            "Couldn't find network status for %s/%s through plugin: %v"
                            [runtimeapi.PodSandboxMetadata.Namespace metadata;
                             runtimeapi.PodSandboxMetadata.Name metadata] (Some err)))
           end, w1, [ev o r])
    end.
Proof.
  unfold getIPFromPlugin. destruct (parseSandboxName _) as [md | e]; simpl; [| reflexivity].
  run_step h. destruct r as [[st |] [e |]]; reflexivity.
Qed.

Lemma getIP_run sandbox w :
  ∃ ip w1 t,
    run h (getIP sandbox) w = (Returned (ip, None), w1, t) ∧
    match dockertypes.ContainerJSON.NetworkSettings sandbox with
    | None => ip = "" ∧ t = []
    | Some settings =>
        if sharesHostNetwork (Some sandbox) then ip = "" ∧ t = []
        else
          ∃ pluginIP pluginErr,
            run h (getIPFromPlugin sandbox) w = (Returned (pluginIP, pluginErr), w1, t) ∧
            ip = match pluginErr with
                 | None =>
                     if bool_decide (pluginIP ≠ "") then pluginIP
                     else docker_address settings
                 | Some _ => docker_address settings
                 end
    end.
Proof.
  unfold getIP.
  destruct (dockertypes.ContainerJSON.NetworkSettings sandbox) as [settings |];
    [| simpl; eauto 10].
  destruct (sharesHostNetwork _); [simpl; eauto 10 |].
  rewrite run_bind.
  destruct (getIPFromPlugin_returns h sandbox w) as (pip & perr & w1 & t & E & _).
  rewrite E. unfold docker_address.
  destruct perr as [e |]; simpl.
  - rewrite (app_nil_r t).
    case_bool_decide; (do 3 eexists; split; [reflexivity |]);
      exists pip, (Some e); (split; [reflexivity |]);
      repeat case_bool_decide; congruence.
  - case_bool_decide; simpl; rewrite (app_nil_r t).
    + do 3 eexists; split; [reflexivity |].
      exists pip, None. split; [reflexivity |].
      repeat case_bool_decide; congruence.
    + case_bool_decide; (do 3 eexists; split; [reflexivity |]);
        exists pip, None; (split; [reflexivity |]);
        repeat case_bool_decide; congruence.
Qed.

(** Line 212 returns the text of the address of the plugin, and the text of
    no address is "<nil>", which is not the empty string: for a plugin that
    answers with a status without an address, [getIP] returns "<nil>",
    whatever the addresses of docker. *)
Remark getIP_no_address sandbox settings metadata w w2 :
  dockertypes.ContainerJSON.NetworkSettings sandbox = Some settings →
  sharesHostNetwork (Some sandbox) = false →
  parseSandboxName (dockertypes.ContainerJSON.Name sandbox) = ok metadata →
  let query :=
    networkPlugin
      (GetPodNetworkStatus
         (runtimeapi.PodSandboxMetadata.Namespace metadata)
         (runtimeapi.PodSandboxMetadata.Name metadata)
         (kubecontainer.BuildContainerID runtimeName
            (dockertypes.ContainerJSON.ID sandbox))) in
  h query w = ((Some (network.PodNetworkStatus.mk []), None), w2) →
  run h (getIP sandbox) w =
    (Returned ("<nil>", None), w2,
     [ev query (Some (network.PodNetworkStatus.mk []), None)]).
Proof.
  intros Hsettings Hhost Hname query Hquery. subst query.
  unfold getIP. rewrite Hsettings, Hhost, run_bind, getIPFromPlugin_run, Hname.
  cbv zeta. rewrite Hquery. reflexivity.
Qed.

(** What [PodSandboxStatus] does once docker answered the inspection. *)
Lemma PodSandboxStatus_inspected id w r w1 status w3 t3 :
  h (client (InspectContainer id)) w = (ok r, w1) →
  run h (PodSandboxStatus id) w = (Returned (ok status), w3, t3) →
  ∃ ip t,
    run h (getIP r) w1 = (Returned (ip, None), w3, t) ∧
    t3 = ev (client (InspectContainer id)) (ok r) :: t ∧
    runtimeapi.PodSandboxStatus.Id status = dockertypes.ContainerJSON.ID r ∧
    runtimeapi.PodSandboxStatus.Network status =
      Some (runtimeapi.PodSandboxNetworkStatus.mk ip) ∧
    match dockercontainer.Config.Labels (dockertypes.ContainerJSON.Config r)
            !! containerTypeLabelKey with
    | None =>
        ∃ name0 names labels metadata,
          convertLegacyNameAndLabels
            [dockertypes.ContainerJSON.Name r]
            (dockercontainer.Config.Labels (dockertypes.ContainerJSON.Config r)) =
            ok (name0 :: names, labels) ∧
          parseSandboxName name0 = ok metadata ∧
          runtimeapi.PodSandboxStatus.Metadata status = Some metadata ∧
          (runtimeapi.PodSandboxStatus.Labels status,
           runtimeapi.PodSandboxStatus.Annotations status) = extractLabels labels ∧
          reported_hostNetwork status = Some (negb (sharesHostNetwork (Some r)))
    | Some _ =>
        ∃ metadata,
          parseSandboxName (dockertypes.ContainerJSON.Name r) = ok metadata ∧
          runtimeapi.PodSandboxStatus.Metadata status = Some metadata ∧
          (runtimeapi.PodSandboxStatus.Labels status,
           runtimeapi.PodSandboxStatus.Annotations status) =
            extractLabels
              (dockercontainer.Config.Labels (dockertypes.ContainerJSON.Config r)) ∧
          reported_hostNetwork status = Some (sharesHostNetwork (Some r))
    end.
Proof.
  intros Hinspect. unfold PodSandboxStatus. simpl. rewrite Hinspect.
  destruct (getContainerTimestamps r) as [[[c s] f] | e]; simpl; [| intros [=]].
  rewrite run_bind.
  destruct (getIP_run r w1) as (ip & w2 & t & E & _). rewrite E. simpl.
  destruct (_ !! containerTypeLabelKey); simpl.
  - destruct (parseSandboxName _) as [md | e]; simpl; [| intros [=]].
    destruct (extractLabels _) as [ls ans] eqn:El; simpl.
    intros [= <- <- <-]. rewrite app_nil_r. exists ip, t. eauto 10.
  - destruct (convertLegacyNameAndLabels _ _) as [[[| n ns] ls] | e]; simpl;
      try (intros [=]; fail).
    destruct (parseSandboxName _) as [md | e] eqn:Ep; simpl; [| intros [=]].
    destruct (extractLabels _) as [ls' ans] eqn:El; simpl.
    intros [= <- <- <-]. rewrite app_nil_r. exists ip, t.
    repeat split; try reflexivity. exists n, ns, ls, md. rewrite El. eauto 10.
Qed.

Lemma sharesHostNetwork_mode (r r' : dockertypes.ContainerJSON.t) :
  dockertypes.ContainerJSON.HostConfig r' = dockertypes.ContainerJSON.HostConfig r →
  sharesHostNetwork (Some r') = sharesHostNetwork (Some r).
Proof. unfold sharesHostNetwork. by intros ->. Qed.

(** C5, as amended.  The IP in the status of a sandbox docker has a record
    of: empty when the record carries no network settings, and the plugin is
    not asked; empty when the sandbox shares the host network, and the plugin
    is not asked; otherwise the plugin is asked first, for the pod the name of
    the record decodes to, and when it answers with an address that is not
    empty the text of this address is reported; when the name does not
    decode, and the plugin is not asked, or when the plugin answers with an
    error or with no status, the IPv4 address of docker is reported, then its
    IPv6 address, then nothing. *)
Theorem PodSandboxStatus_ip id w r w1 status w3 t3 :
  h (client (InspectContainer id)) w = (ok r, w1) →
  run h (PodSandboxStatus id) w = (Returned (ok status), w3, t3) →
  ∃ ip t,
    runtimeapi.PodSandboxStatus.Network status =
      Some (runtimeapi.PodSandboxNetworkStatus.mk ip) ∧
    t3 = ev (client (InspectContainer id)) (ok r) :: t ∧
    match dockertypes.ContainerJSON.NetworkSettings r with
    | None => ip = "" ∧ t = []
    | Some settings =>
        if sharesHostNetwork (Some r) then ip = "" ∧ t = []
        else
          match parseSandboxName (dockertypes.ContainerJSON.Name r) with
          | fail _ => ip = docker_address settings ∧ t = []
          | ok metadata =>
              let query :=
                networkPlugin
                  (GetPodNetworkStatus
                     (runtimeapi.PodSandboxMetadata.Namespace metadata)
                     (runtimeapi.PodSandboxMetadata.Name metadata)
                     (kubecontainer.BuildContainerID runtimeName
                        (dockertypes.ContainerJSON.ID r))) in
              t = [ev query (h query w1).1] ∧
              match (h query w1).1 with
              | (Some networkStatus, None) =>
                  network.PodNetworkStatus.IP networkStatus ≠ [] →
                  ip = net.IP.String (network.PodNetworkStatus.IP networkStatus) ∧
                  ip ≠ ""
              | _ => ip = docker_address settings
              end
          end
    end.
Proof.
  intros Hinspect Hrun.
  destruct (PodSandboxStatus_inspected _ _ _ _ _ _ _ Hinspect Hrun)
    as (ip & t & Hip & -> & _ & Hnet & _).
  exists ip, t. split; [assumption |]. split; [reflexivity |].
  destruct (getIP_run r w1) as (ip' & w2' & t' & Hip' & Hprec).
  rewrite Hip in Hip'. injection Hip' as <- <- <-.
  destruct (dockertypes.ContainerJSON.NetworkSettings r) as [settings |]; [| exact Hprec].
  destruct (sharesHostNetwork (Some r)); [exact Hprec |].
  destruct Hprec as (pluginIP & pluginErr & Hplugin & ->).
  rewrite getIPFromPlugin_run in Hplugin.
  destruct (parseSandboxName (dockertypes.ContainerJSON.Name r)) as [metadata | err].
  - cbv zeta in Hplugin |- *.
    destruct (h (networkPlugin _) w1) as [answer w2]. simpl in answer.
    injection Hplugin as Hanswer _ <-. split; [reflexivity |]. simpl.
    destruct answer as [[networkStatus |] [err |]]; injection Hanswer as <- <-;
      try reflexivity.
    intros Haddress.
    assert (Htext := IP_String_nonempty (network.PodNetworkStatus.IP networkStatus)).
    rewrite bool_decide_true by done. by split.
  - by injection Hplugin as <- <- _ <-.
Qed.

(** C6.  A record whose labels lack the container-type label goes through the
    legacy decoder: its name and labels are those the decoder gives, and the
    host-network flag reported is the negation of what [sharesHostNetwork]
    gives for any record with the same host configuration.  A record that
    carries the label keeps its name and labels, and its flag is what
    [sharesHostNetwork] gives. *)
Theorem PodSandboxStatus_legacy id w r w1 status w3 t3 :
  h (client (InspectContainer id)) w = (ok r, w1) →
  run h (PodSandboxStatus id) w = (Returned (ok status), w3, t3) →
  let Labels := dockercontainer.Config.Labels (dockertypes.ContainerJSON.Config r) in
  match Labels !! containerTypeLabelKey with
  | None =>
      ∃ name0 names labels metadata,
        convertLegacyNameAndLabels [dockertypes.ContainerJSON.Name r] Labels =
          ok (name0 :: names, labels) ∧
        parseSandboxName name0 = ok metadata ∧
        runtimeapi.PodSandboxStatus.Metadata status = Some metadata ∧
        (runtimeapi.PodSandboxStatus.Labels status,
         runtimeapi.PodSandboxStatus.Annotations status) = extractLabels labels ∧
        ∀ r',
          dockertypes.ContainerJSON.HostConfig r' = dockertypes.ContainerJSON.HostConfig r →
          reported_hostNetwork status = Some (negb (sharesHostNetwork (Some r')))
  | Some _ =>
      ∃ metadata,
        parseSandboxName (dockertypes.ContainerJSON.Name r) = ok metadata ∧
        runtimeapi.PodSandboxStatus.Metadata status = Some metadata ∧
        (runtimeapi.PodSandboxStatus.Labels status,
         runtimeapi.PodSandboxStatus.Annotations status) = extractLabels Labels ∧
        reported_hostNetwork status = Some (sharesHostNetwork (Some r))
  end.
Proof.
  intros Hinspect Hrun Labels.
  destruct (PodSandboxStatus_inspected _ _ _ _ _ _ _ Hinspect Hrun)
    as (ip & t & _ & _ & _ & _ & Hlegacy).
  fold Labels in Hlegacy. destruct (Labels !! containerTypeLabelKey); [exact Hlegacy |].
  destruct Hlegacy as (name0 & names & labels & metadata & ? & ? & ? & ? & Hflag).
  exists name0, names, labels, metadata. repeat split; try assumption.
  intros r' Hr'. by rewrite (sharesHostNetwork_mode _ _ Hr').
Qed.

End status_properties.

(** In the fake world the plugin gives 10.0.0.5 and docker 172.17.0.2 for a
    sandbox that is not on the host network: the status reports 10.0.0.5. *)
Lemma PodSandboxStatus_ip_witness :
  ∃ status,
    run (withStore (Fake.docker Fake.quiet)) (@PodSandboxStatus Fake.helpers "s1") (tt, ∅) =
      (Returned (ok status), (tt, ∅),
       [ev (client (InspectContainer "s1")) (Fake.inspect Fake.quiet);
        ev (networkPlugin
              (GetPodNetworkStatus "default" "web"
                 (kubecontainer.ContainerID.mk "docker" "s1")))
          (Some (network.PodNetworkStatus.mk [Byte.x0a; Byte.x00; Byte.x00; Byte.x05]),
           None)]) ∧
    runtimeapi.PodSandboxStatus.Network status =
      Some (runtimeapi.PodSandboxNetworkStatus.mk "10.0.0.5").
Proof.
  eexists. split; [reflexivity |].
  destruct (@PodSandboxStatus_ip Fake.helpers _ (withStore (Fake.docker Fake.quiet))
              "s1" (tt, ∅) _ (tt, ∅) _ (tt, ∅) _ eq_refl eq_refl)
    as (ip & t & Hnet & _ & Hprecedence).
  rewrite Hnet. simpl in Hprecedence.
  destruct Hprecedence as [_ Haddress].
  destruct Haddress as [-> _]; [discriminate | reflexivity].
Defined.

(** A record without network settings, not on the host network, whose pod
    the plugin knows at 10.0.0.5: the status reports no IP and the plugin is
    not asked. *)
Lemma PodSandboxStatus_ip_counterexample :
  let r :=
    dockertypes.ContainerJSON.mk "s1" "2017-01-01T00:00:00Z" "web"
      (dockertypes.ContainerState.mk true "" "")
      (Some (dockercontainer.HostConfig.mk "default" "" "" "" ∅ ∅ [] [] []
               (dockercontainer.Resources.mk 0 0) 0 []))
      (dockercontainer.Config.mk "web" "pause"
         {[ "io.kubernetes.docker.type" := "podsandbox" ]} ∅)
      None in
  let address := network.PodNetworkStatus.mk [Byte.x0a; Byte.x00; Byte.x00; Byte.x05] in
  let hF :=
    Fake.docker
      {| Fake.pull := None; Fake.create := (None, None); Fake.start := None;
         Fake.stop := None; Fake.remove := None; Fake.inspect := ok r;
         Fake.listed := ok []; Fake.setup := None; Fake.teardown := None;
         Fake.status := (Some address, None);
         Fake.legacy_done := true; Fake.legacy := ok [] |} in
  @sharesHostNetwork Fake.helpers (Some r) = false ∧
  hF (networkPlugin
        (GetPodNetworkStatus "default" "web" (kubecontainer.ContainerID.mk "docker" "s1")))
     tt = ((Some address, None), tt) ∧
  net.IP.String (network.PodNetworkStatus.IP address) = "10.0.0.5" ∧
  ∃ status,
    run hF (@PodSandboxStatus Fake.helpers "s1") tt =
      (Returned (ok status), tt, [ev (client (InspectContainer "s1")) (ok r)]) ∧
    runtimeapi.PodSandboxStatus.Network status =
      Some (runtimeapi.PodSandboxNetworkStatus.mk "").
Proof.
  intros r address hF. split; [reflexivity |]. split; [reflexivity |].
  split; [reflexivity |].
  eexists. split; reflexivity.
Qed.

(** A legacy record on the host network: the decoder is used and the status
    reports a sandbox that is not on the host network. *)
Lemma PodSandboxStatus_legacy_witness :
  let s :=
    {| Fake.pull := None; Fake.create := (None, None); Fake.start := None;
       Fake.stop := None; Fake.remove := None;
       Fake.inspect := ok (Fake.sandbox ∅ "host");
       Fake.listed := ok []; Fake.setup := None; Fake.teardown := None;
       Fake.status := (None, None);
       Fake.legacy_done := true; Fake.legacy := ok [] |} in
  ∃ status,
    run (Fake.docker s) (@PodSandboxStatus Fake.helpers "s1") tt =
      (Returned (ok status), tt, [ev (client (InspectContainer "s1")) (Fake.inspect s)]) ∧
    runtimeapi.PodSandboxStatus.Labels status =
      {[ "io.kubernetes.docker.type" := "podsandbox" ]} ∧
    reported_hostNetwork status = Some false.
Proof.
  intros s. eexists. split; [reflexivity |].
  pose proof (@PodSandboxStatus_legacy Fake.helpers _ (Fake.docker s)
                "s1" tt _ tt _ tt _ eq_refl eq_refl) as Hlegacy.
  simpl in Hlegacy.
  destruct Hlegacy as (name0 & names & labels & metadata & Hconv & _ & _ & Hlabels & Hflag).
  split; [reflexivity |]. exact (Hflag (Fake.sandbox ∅ "host") eq_refl).
Defined.

Section checkpoint_properties.

Lemma constructPodSandboxCheckpoint_foldl
  (mappings : list runtimeapi.PortMapping.t) (checkpoint : PodSandboxCheckpoint.t) :
  foldl
    (λ checkpoint pm,
       PodSandboxCheckpoint.mk
         (PodSandboxCheckpoint.Namespace checkpoint)
         (PodSandboxCheckpoint.Name checkpoint)
         (PodSandboxCheckpoint.PortMappings checkpoint ++
            [ PortMapping.mk
                (toCheckpointProtocol (runtimeapi.PortMapping.Protocol pm))
                (runtimeapi.PortMapping.ContainerPort pm)
                (runtimeapi.PortMapping.HostPort pm) ]))
    checkpoint mappings =
  PodSandboxCheckpoint.mk
    (PodSandboxCheckpoint.Namespace checkpoint)
    (PodSandboxCheckpoint.Name checkpoint)
    (PodSandboxCheckpoint.PortMappings checkpoint ++
       ((λ pm, PortMapping.mk
                 (toCheckpointProtocol (runtimeapi.PortMapping.Protocol pm))
                 (runtimeapi.PortMapping.ContainerPort pm)
                 (runtimeapi.PortMapping.HostPort pm)) <$> mappings)).
Proof.
  revert checkpoint. induction mappings as [| pm mappings IH]; intros checkpoint; simpl.
  - rewrite app_nil_r. by destruct checkpoint.
  - rewrite IH. simpl. by rewrite <- app_assoc.
Qed.

(** C10.  The checkpoint [RunPodSandbox] constructs holds the namespace and
    the name of the pod and one mapping per configured port mapping, in the
    order of the configuration, with the same ports; the protocol is kept for
    TCP and UDP, and any other protocol is recorded as TCP. *)
Theorem constructPodSandboxCheckpoint_ports (config : runtimeapi.PodSandboxConfig.t) :
  PodSandboxCheckpoint.PortMappings (constructPodSandboxCheckpoint config) =
    checkpoint_mapping <$> runtimeapi.PodSandboxConfig.PortMappings config ∧
  PodSandboxCheckpoint.Namespace (constructPodSandboxCheckpoint config) =
    runtimeapi.PodSandboxMetadata.Namespace (runtimeapi.PodSandboxConfig.Metadata config) ∧
  PodSandboxCheckpoint.Name (constructPodSandboxCheckpoint config) =
    runtimeapi.PodSandboxMetadata.Name (runtimeapi.PodSandboxConfig.Metadata config) ∧
  toCheckpointProtocol runtimeapi.Protocol_TCP = protocolTCP ∧
  toCheckpointProtocol runtimeapi.Protocol_UDP = protocolUDP ∧
  ∀ protocol,
    protocol ≠ runtimeapi.Protocol_TCP → protocol ≠ runtimeapi.Protocol_UDP →
    toCheckpointProtocol protocol = protocolTCP.
Proof.
  unfold constructPodSandboxCheckpoint. rewrite constructPodSandboxCheckpoint_foldl.
  repeat (split; [reflexivity |]).
  intros protocol Htcp Hudp. unfold toCheckpointProtocol.
  by rewrite !bool_decide_false.
Qed.

End checkpoint_properties.

(** Three mappings, TCP, UDP and the unknown protocol 2: the order is kept
    and the third is recorded as TCP. *)
Lemma constructPodSandboxCheckpoint_ports_witness :
  PodSandboxCheckpoint.PortMappings (constructPodSandboxCheckpoint (Fake.config false)) =
    [PortMapping.mk protocolTCP 80 8080; PortMapping.mk protocolUDP 53 5353;
     PortMapping.mk protocolTCP 443 8443] ∧
  toCheckpointProtocol 2 = protocolTCP.
Proof.
  destruct (constructPodSandboxCheckpoint_ports (Fake.config false))
    as (Hports & _ & _ & _ & _ & Hother).
  split; [rewrite Hports; reflexivity | apply Hother; discriminate].
Defined.

Section run_properties.
Context `{Helpers} (ds : dockerService) {W : Type} (h : Handler W).

Lemma before_creation_omap (name : string) (t : list Event) :
  Forall before_creation t →
  omap created_by t = [] ∧ omap (later_failure name) t = [] ∧
  Forall (λ e, is_later_call (projT1 e) = false) t.
Proof.
  induction 1 as [| e t [Hc Hl] _ (IH1 & IH2 & IH3)]; [done |].
  cbn [omap list_omap]. rewrite Hc, IH1, IH2. split; [done |].
  split; [| by constructor].
  destruct e as [[[] | [] | [] | []] r]; simpl in *; done.
Qed.

Lemma makeSandboxDockerConfig_run config image w :
  ∃ r w1 t,
    run h (makeSandboxDockerConfig ds config image) w = (Returned r, w1, t) ∧
    Forall before_creation t.
Proof.
  unfold makeSandboxDockerConfig. simpl. run_step h.
  assert (Hv : before_creation (ev (shim getDockerAPIVersion) r)) by done.
  destruct r as [version | e]; simpl; [| eauto 10].
  destruct (getSysctlsFromAnnotations _) as [sysctls | e]; simpl; [| eauto 10].
  destruct (runtimeapi.PodSandboxConfig.GetLinux config) as [lc |]; simpl.
  - unfold applySandboxLinuxOptions. simpl. run_step h.
    assert (Hc : before_creation
                   (ev (shim (GenerateExpectedCgroupParent
                                (runtimeapi.LinuxPodSandboxConfig.CgroupParent lc))) r))
      by done.
    destruct r as [cgroupParent | e]; simpl; [| eauto 10].
    run_step h. destruct r as [config' hc']. simpl.
    destruct (makePortsAndBindings _) as [exposedPorts portBindings]. simpl.
    destruct (getSandboxSecurityOpts _ _ _) as [opts | e]; simpl;
      do 3 eexists; (split; [reflexivity |]); repeat constructor.
  - destruct (makePortsAndBindings _) as [exposedPorts portBindings]. simpl.
    destruct (getSandboxSecurityOpts _ _ _) as [opts | e]; simpl; eauto 10.
Qed.

(** The steps after the creation, for the record [createResp]. *)
Lemma RunPodSandbox_created_run config createResp w :
  let ID := dockertypes.ContainerCreateResponse.ID createResp in
  let name :=
    runtimeapi.PodSandboxMetadata.Name (runtimeapi.PodSandboxConfig.Metadata config) in
  ∃ err w1 t,
    run h (RunPodSandbox_created config createResp) w = (Returned (ID, err), w1, t) ∧
    err = head (omap (later_failure name) t) ∧
    (config_hostNetwork config = true → Forall (λ e, is_SetUpPod (projT1 e) = false) t) ∧
    (err = None →
     t = [ev (checkpointHandler
                (CreateCheckpoint ID (constructPodSandboxCheckpoint config))) None;
          ev (client (StartContainer ID)) None] ++
         if config_hostNetwork config then []
         else [ev (networkPlugin
                     (SetUpPod
                        (runtimeapi.PodSandboxMetadata.Namespace
                           (runtimeapi.PodSandboxConfig.Metadata config))
                        name
                        (kubecontainer.BuildContainerID runtimeName ID))) None]).
Proof.
  intros ID name. unfold RunPodSandbox_created. simpl. fold ID.
  run_step h. destruct r as [e |]; simpl.
  { do 3 eexists. split; [reflexivity |]. split; [reflexivity |].
    split; [intros _; repeat constructor | intros [=]]. }
  run_step h. destruct r as [e |]; simpl.
  { do 3 eexists. split; [reflexivity |]. split; [reflexivity |].
    split; [intros _; repeat constructor | intros [=]]. }
  fold (config_hostNetwork config). destruct (config_hostNetwork config); simpl.
  { do 3 eexists. split; [reflexivity |]. split; [reflexivity |].
    split; [intros _; repeat constructor | done]. }
  run_step h. do 3 eexists. split; [reflexivity |].
  destruct r as [e |]; simpl; (split; [reflexivity |]); (split; [intros [=] |]);
    [intros [=] | done].
Qed.

Lemma RunPodSandbox_created_calls config createResp w :
  let t := (run h (RunPodSandbox_created config createResp) w).2 in
  calls t `prefix_of`
    later_calls config (dockertypes.ContainerCreateResponse.ID createResp) ∧
  Forall (λ o, is_later_call o = true) (calls t).
Proof.
  unfold RunPodSandbox_created, later_calls, calls. simpl.
  run_step h. destruct r as [e |]; simpl.
  { split; [by eexists | by repeat constructor]. }
  run_step h. destruct r as [e |]; simpl.
  { split; [by eexists | by repeat constructor]. }
  destruct (match _ with Some _ => _ | None => false end); simpl.
  { split; [by eexists | by repeat constructor]. }
  run_step h. simpl. split; [by exists [] | by repeat constructor].
Qed.

Lemma filter_later_none (l : list Op) :
  Forall (λ o, is_later_call o = false) l →
  filter (λ o, is_later_call o = true) l = [].
Proof.
  induction 1 as [| o l Ho _ IH]; [done |].
  rewrite filter_cons, decide_False by congruence. exact IH.
Qed.

Lemma filter_later_all (l : list Op) :
  Forall (λ o, is_later_call o = true) l →
  filter (λ o, is_later_call o = true) l = l.
Proof.
  induction 1 as [| o l Ho _ IH]; [done |].
  rewrite filter_cons, decide_True by done. by rewrite IH.
Qed.

#[local] Opaque makeSandboxDockerConfig RunPodSandbox_created.

(** [RunPodSandbox] up to the creation: it fails with no id, or docker hands
    back a record and the later steps run for it. *)
Lemma RunPodSandbox_creation config w :
  (∃ err w1 t,
     run h (RunPodSandbox ds config) w = (Returned ("", Some err), w1, t) ∧
     Forall before_creation t) ∨
  (∃ before creation createResp w0,
     Forall before_creation before ∧
     created_by creation = Some createResp ∧
     is_later_call (projT1 creation) = false ∧
     run h (RunPodSandbox ds config) w =
       let '(out, w1, t) := run h (RunPodSandbox_created config createResp) w0 in
       (out, w1, before ++ creation :: t)).
Proof.
  unfold RunPodSandbox. simpl. run_step h.
  assert (Hp : before_creation (ev (client (PullImage (sandboxImage ds))) r)) by done.
  destruct r as [e |]; simpl; [left; eauto 10 |].
  rewrite run_bind.
  destruct (makeSandboxDockerConfig_run config (sandboxImage ds) w0)
    as (r & w1 & t & -> & Ht).
  destruct r as [createConfig | e]; simpl.
  2: { left. do 3 eexists. split; [reflexivity |]. rewrite app_nil_r. by constructor. }
  run_step h.
  set (first := ev (client (CreateContainer createConfig)) r).
  destruct r as [[createResp |] [e |]]; simpl.
  - run_step h.
    set (second := ev (shim (recoverFromCreationConflictIfNeeded createConfig e)) r).
    assert (Hf : before_creation first) by done.
    destruct r as [[createResp' |] [e' |]]; simpl.
    + left. do 3 eexists. split; [reflexivity |].
      constructor; [done |]. apply Forall_app. split; [done |]. by repeat constructor.
    + right. exists (ev (client (PullImage (sandboxImage ds))) None :: t ++ [first]),
        second, createResp', w3.
      split; [constructor; [done |]; apply Forall_app; split; [done | by constructor] |].
      split; [done |]. split; [done |].
      destruct (run h (RunPodSandbox_created _ _) _) as [[out w4] t4].
      simpl. by rewrite <- app_assoc.
    + left. do 3 eexists. split; [reflexivity |].
      constructor; [done |]. apply Forall_app. split; [done |]. by repeat constructor.
    + left. do 3 eexists. split; [reflexivity |].
      constructor; [done |]. apply Forall_app. split; [done |]. by repeat constructor.
  - right. exists (ev (client (PullImage (sandboxImage ds))) None :: t), first, createResp, w2.
    split; [by constructor |]. split; [done |]. split; [done |].
    destruct (run h (RunPodSandbox_created _ _) _) as [[out w4] t4]. reflexivity.
  - run_step h.
    set (second := ev (shim (recoverFromCreationConflictIfNeeded createConfig e)) r).
    assert (Hf : before_creation first) by done.
    destruct r as [[createResp' |] [e' |]]; simpl.
    + left. do 3 eexists. split; [reflexivity |].
      constructor; [done |]. apply Forall_app. split; [done |]. by repeat constructor.
    + right. exists (ev (client (PullImage (sandboxImage ds))) None :: t ++ [first]),
        second, createResp', w3.
      split; [constructor; [done |]; apply Forall_app; split; [done | by constructor] |].
      split; [done |]. split; [done |].
      destruct (run h (RunPodSandbox_created _ _) _) as [[out w4] t4].
      simpl. by rewrite <- app_assoc.
    + left. do 3 eexists. split; [reflexivity |].
      constructor; [done |]. apply Forall_app. split; [done |]. by repeat constructor.
    + left. do 3 eexists. split; [reflexivity |].
      constructor; [done |]. apply Forall_app. split; [done |]. by repeat constructor.
  - left. do 3 eexists. split; [reflexivity |].
    constructor; [done |]. apply Forall_app. split; [done |]. by repeat constructor.
Qed.

#[local] Transparent makeSandboxDockerConfig RunPodSandbox_created.

Lemma later_failure_None (name : string) (e : Event) :
  is_later_call (projT1 e) = false → later_failure name e = None.
Proof. destruct e as [[[] | [] | [] | []] r]; simpl; done. Qed.

Lemma is_later_call_SetUpPod (o : Op) :
  is_later_call o = false → is_SetUpPod o = false.
Proof. destruct o as [[] | [] | [] | []]; simpl; done. Qed.

(** C8.  [RunPodSandbox] always returns.  When no record was created (the
    pull failed, the configuration could not be made, or the creation failed
    and was not recovered) it returns the empty id with an error, and no later
    step was attempted.  When docker created a record it returns the id of
    that record, with the failure of the first later step that failed
    (checkpoint write, start, network setup) or with no error.  So, docker
    giving no empty id, the id is empty exactly when no record was created. *)
Theorem RunPodSandbox_id (config : runtimeapi.PodSandboxConfig.t) (w : W) :
  let name :=
    runtimeapi.PodSandboxMetadata.Name (runtimeapi.PodSandboxConfig.Metadata config) in
  ∃ id err w1 t,
    run h (RunPodSandbox ds config) w = (Returned (id, err), w1, t) ∧
    match created t with
    | None =>
        id = "" ∧ is_Some err ∧ Forall (λ e, is_later_call (projT1 e) = false) t
    | Some createResp =>
        id = dockertypes.ContainerCreateResponse.ID createResp ∧
        err = head (omap (later_failure name) t)
    end ∧
    ((∀ createResp,
        created t = Some createResp →
        dockertypes.ContainerCreateResponse.ID createResp ≠ "") →
     id = "" ↔ created t = None).
Proof.
  intros name.
  destruct (RunPodSandbox_creation config w)
    as [(err & w1 & t & Hrun & Ht) |
        (before & creation & createResp & w0 & Hbefore & Hcreation & Hlater & Hrun)].
  - destruct (before_creation_omap name t Ht) as (Hc & _ & Hl).
    exists "", (Some err), w1, t. split; [assumption |].
    unfold created. rewrite Hc. simpl. split; [by eauto |]. done.
  - destruct (RunPodSandbox_created_run config createResp w0)
      as (err & w1 & t & Hcreated & Herr & _).
    rewrite Hcreated in Hrun.
    destruct (before_creation_omap name before Hbefore) as (Hc & Hf & _).
    exists (dockertypes.ContainerCreateResponse.ID createResp), err, w1,
      (before ++ creation :: t).
    split; [assumption |].
    unfold created. rewrite omap_app, Hc. cbn [omap list_omap app]. rewrite Hcreation.
    simpl. split.
    + split; [reflexivity |].
      rewrite omap_app, Hf. cbn [omap list_omap app].
      by rewrite (later_failure_None _ _ Hlater).
    + intros Hid. split; [| done]. intros Hempty. by destruct (Hid createResp).
Qed.

(** C9.  Whatever the run of [RunPodSandbox], the later steps it calls are an
    initial segment of: checkpoint write, start of the container, setup of the
    network plugin, all for one id; so the container is never started before
    the checkpoint write was attempted, and the plugin is never set up before
    the start.  A configuration that asks for the host network never has the
    plugin set up.  In a run that succeeds, the calls are: calls that come
    before the record exists, the answer of the creation, then the checkpoint
    write for the new id, then the start of the container, then, unless the
    configuration asks for the host network, the setup of the network
    plugin. *)
Theorem RunPodSandbox_order (config : runtimeapi.PodSandboxConfig.t) (w : W)
  (out : Outcome (string * option error)) (w1 : W) (t : list Event) :
  run h (RunPodSandbox ds config) w = (out, w1, t) →
  (∃ id, filter (λ o, is_later_call o = true) (calls t) `prefix_of` later_calls config id) ∧
  (config_hostNetwork config = true → Forall (λ e, is_SetUpPod (projT1 e) = false) t) ∧
  (∀ id,
     out = Returned (id, None) →
     ∃ before creation createResp,
       Forall before_creation before ∧
       created_by creation = Some createResp ∧
       id = dockertypes.ContainerCreateResponse.ID createResp ∧
       t = before ++ [creation] ++
           [ev (checkpointHandler
                  (CreateCheckpoint id (constructPodSandboxCheckpoint config))) None;
            ev (client (StartContainer id)) None] ++
           if config_hostNetwork config then []
           else [ev (networkPlugin
                       (SetUpPod
                          (runtimeapi.PodSandboxMetadata.Namespace
                             (runtimeapi.PodSandboxConfig.Metadata config))
                          (runtimeapi.PodSandboxMetadata.Name
                             (runtimeapi.PodSandboxConfig.Metadata config))
                          (kubecontainer.BuildContainerID runtimeName id))) None]).
Proof.
  intros Hrun.
  set (name :=
    runtimeapi.PodSandboxMetadata.Name (runtimeapi.PodSandboxConfig.Metadata config)).
  destruct (RunPodSandbox_creation config w)
    as [(err & w1' & t' & Hrun' & Ht) |
        (before & creation & createResp & w0 & Hbefore & Hcreation & Hlater & Hrun')];
    rewrite Hrun' in Hrun.
  - injection Hrun as <- <- <-.
    destruct (before_creation_omap name t' Ht) as (_ & _ & Hl).
    split; [| split; [| intros id [=]]].
    + exists "". rewrite filter_later_none; [by eexists |].
      unfold calls. by apply Forall_fmap.
    + intros _. eapply Forall_impl; [exact Hl |]. intros e. apply is_later_call_SetUpPod.
  - destruct (RunPodSandbox_created_run config createResp w0)
      as (err & w1' & t' & Hcreated & Herr & Hhost & Hok).
    pose proof (RunPodSandbox_created_calls config createResp w0) as [Hprefix Hall].
    rewrite Hcreated in Hrun, Hprefix, Hall. simpl in Hprefix, Hall.
    injection Hrun as <- <- <-.
    destruct (before_creation_omap name before Hbefore) as (_ & _ & Hl).
    split; [| split].
    + exists (dockertypes.ContainerCreateResponse.ID createResp).
      unfold calls. rewrite fmap_app, fmap_cons, filter_app, filter_cons.
      rewrite filter_later_none by (by apply Forall_fmap).
      rewrite decide_False by (rewrite Hlater; discriminate).
      rewrite filter_later_all by exact Hall. exact Hprefix.
    + intros Hh. apply Forall_app. split.
      * eapply Forall_impl; [exact Hl |]. intros e. apply is_later_call_SetUpPod.
      * constructor; [by apply is_later_call_SetUpPod | by apply Hhost].
    + intros id [= <- ->].
      exists before, creation, createResp.
      repeat (split; [done |]). by rewrite (Hok eq_refl).
Qed.

End run_properties.

(** In the fake world docker creates "s1" and then fails to start it: the id
    comes back with the error. *)
Lemma RunPodSandbox_id_witness :
  let s :=
    {| Fake.pull := None;
       Fake.create := (Some (dockertypes.ContainerCreateResponse.mk "s1"), None);
       Fake.start := Some (Opaque "cannot start"); Fake.stop := None;
       Fake.remove := None; Fake.inspect := fail Fake.notFound;
       Fake.listed := ok []; Fake.setup := None; Fake.teardown := None;
       Fake.status := (None, None);
       Fake.legacy_done := true; Fake.legacy := ok [] |} in
  ∃ w1 t,
    run (withStore (Fake.docker s))
      (@RunPodSandbox Fake.helpers Fake.service (Fake.config false)) (tt, ∅) =
      (Returned
         ("s1"%string,
          Some (Errorf "failed to start sandbox container for pod %q: %v" ["web"%string]
                  (Some (Opaque "cannot start")))),
       w1, t) ∧
    created t = Some (dockertypes.ContainerCreateResponse.mk "s1").
Proof.
  intros s.
  destruct (@RunPodSandbox_id Fake.helpers Fake.service _ (withStore (Fake.docker s))
              (Fake.config false) (tt, ∅))
    as (id & err & w1 & t & Hrun & Hcases & Hiff).
  exists w1, t.
  assert (Hcreated : created t = Some (dockertypes.ContainerCreateResponse.mk "s1")).
  { vm_compute in Hrun. injection Hrun as _ _ _ <-. reflexivity. }
  rewrite Hcreated in Hcases. destruct Hcases as [-> ->].
  split; [| exact Hcreated].
  rewrite Hrun. vm_compute in Hrun. injection Hrun as _ _ <-. reflexivity.
Defined.

(** In the fake world a sandbox that is not on the host network is created:
    checkpoint, start and network setup follow the creation in this order. *)
Lemma RunPodSandbox_order_witness :
  ∃ w1 t before creation,
    run (withStore (Fake.docker Fake.quiet))
      (@RunPodSandbox Fake.helpers Fake.service (Fake.config false)) (tt, ∅) =
      (Returned ("s1"%string, None), w1, t) ∧
    created_by creation = Some (dockertypes.ContainerCreateResponse.mk "s1") ∧
    t = before ++ [creation] ++
        [ev (checkpointHandler
               (CreateCheckpoint "s1"
                  (PodSandboxCheckpoint.mk "default" "web"
                     [PortMapping.mk protocolTCP 80 8080; PortMapping.mk protocolUDP 53 5353;
                      PortMapping.mk protocolTCP 443 8443]))) None;
         ev (client (StartContainer "s1")) None;
         ev (networkPlugin
               (SetUpPod "default" "web" (kubecontainer.ContainerID.mk "docker" "s1"))) None].
Proof.
  eexists _, _.
  assert (Hrun :
    run (withStore (Fake.docker Fake.quiet))
      (@RunPodSandbox Fake.helpers Fake.service (Fake.config false)) (tt, ∅) =
      (Returned ("s1"%string, None), _, _)) by (vm_compute; reflexivity).
  destruct (proj2 (proj2 (@RunPodSandbox_order Fake.helpers Fake.service _
                            (withStore (Fake.docker Fake.quiet)) (Fake.config false) (tt, ∅)
                            _ _ _ Hrun)) "s1"%string eq_refl)
    as (before & creation & createResp & _ & Hcreation & Hid & Ht).
  exists before, creation. split; [exact Hrun |].
  split; [| exact Ht].
  rewrite Hcreation. by destruct createResp; simpl in Hid; subst.
Defined.

Section remove_properties.
Context `{Helpers} {X : Type} (hX : Handler X).

(** C3.  [RemovePodSandbox] asks docker to remove the container and then,
    whatever docker answered, asks the checkpoint handler to remove the
    checkpoint; it returns the aggregate of docker's error, unless that is a
    not-found error, and of the error of the store, which has none for an id
    it holds no checkpoint of.  So it returns nil for an id docker has no
    container of and the store has no checkpoint of. *)
Theorem RemovePodSandbox_idempotent (id : string) (x : X) (store : Store.t) :
  let docker := client (RemoveContainer id true) in
  let '(r1, x1) := hX docker x in
  let '(r2, store2) := Store.Remove id store in
  run (withStore hX) (RemovePodSandbox id) (x, store) =
    (Returned (NewAggregate (unless_not_found r1 ++ option_list r2)),
     (x1, store2),
     [ev docker r1; ev (checkpointHandler (RemoveCheckpoint id)) r2]) ∧
  (store !! id = None → r2 = None ∧ store2 = store) ∧
  (∀ msg, r2 = Some (Opaque msg) ↔ store !! id = Some (Store.Unreadable msg)) ∧
  (store !! id = None →
   (r1 = None ∨ ∃ err, r1 = Some err ∧ IsContainerNotFoundError err = true) →
   NewAggregate (unless_not_found r1 ++ option_list r2) = None).
Proof.
  intros docker. unfold RemovePodSandbox. simpl.
  destruct (hX docker x) as [r1 x1] eqn:E1. simpl in r1.
  unfold docker in E1. rewrite E1. simpl.
  destruct (Store.Remove id store) as [r2 store2] eqn:E2. simpl.
  split; [| split; [| split]].
  - destruct r1 as [e1 |]; [destruct (IsContainerNotFoundError e1) eqn:E |];
      destruct r2 as [e2 |]; simpl; rewrite ?E; reflexivity.
  - intros Hnone. unfold Store.Remove in E2. rewrite Hnone in E2.
    injection E2 as <- <-. split; [reflexivity |]. by apply delete_id.
  - intros msg. unfold Store.Remove in E2.
    destruct (store !! id) as [[cp | cp | msg'] |]; injection E2 as <- <-;
      split; intros [=]; by subst.
  - intros Hnone Hr1. unfold Store.Remove in E2. rewrite Hnone in E2.
    injection E2 as <- <-.
    destruct Hr1 as [-> | (err & -> & Herr)]; simpl; [| rewrite Herr]; reflexivity.
Qed.

End remove_properties.

(** In the fake world docker has no container "s1" and the store is empty:
    both removals are attempted and the call succeeds. *)
Lemma RemovePodSandbox_idempotent_witness :
  let s :=
    {| Fake.pull := None; Fake.create := (None, None); Fake.start := None;
       Fake.stop := None; Fake.remove := Some Fake.notFound;
       Fake.inspect := fail Fake.notFound;
       Fake.listed := ok []; Fake.setup := None; Fake.teardown := None;
       Fake.status := (None, None);
       Fake.legacy_done := true; Fake.legacy := ok [] |} in
  run (withStore (Fake.docker s)) (@RemovePodSandbox Fake.helpers "s1") (tt, ∅) =
    (Returned None, (tt, ∅),
     [ev (client (RemoveContainer "s1" true)) (Some Fake.notFound);
      ev (checkpointHandler (RemoveCheckpoint "s1")) None]).
Proof.
  intros s.
  pose proof (@RemovePodSandbox_idempotent Fake.helpers _ (Fake.docker s) "s1" tt ∅)
    as Hremove.
  vm_compute in Hremove. destruct Hremove as (Hrun & _). exact Hrun.
Defined.

Section list_properties.
Context `{Helpers} {X : Type} (hX : Handler X).

Lemma ListPodSandbox_convert_all containers result sandboxIDs :
  ∃ sandboxIDs',
    ListPodSandbox_convert false containers result sandboxIDs =
      (result ++ converted containers, sandboxIDs') ∧
    ∀ id, sandboxIDs' !! id = None ↔
          sandboxIDs !! id = None ∧
          id ∉ runtimeapi.PodSandbox.Id <$> converted containers.
Proof.
  revert result sandboxIDs.
  induction containers as [| c containers IH]; intros result sandboxIDs; simpl.
  - exists sandboxIDs. rewrite app_nil_r. split; [done |].
    intros id. rewrite elem_of_nil. tauto.
  - unfold converted. cbn [omap list_omap].
    destruct (containerToRuntimeAPISandbox c) as [sandbox | e]; [| apply IH].
    destruct (IH (result ++ [sandbox])
                (<[runtimeapi.PodSandbox.Id sandbox := true]> sandboxIDs))
      as (S' & -> & HS').
    exists S'. split; [by rewrite <- app_assoc |].
    intros id. rewrite HS', fmap_cons, elem_of_cons, lookup_insert_None.
    fold (converted containers).
    split; [intros [[? ?] ?]; split; [done |]; intros [-> |]; done |].
    intros [? Hn]. split; [split; [done |]; intros <-; apply Hn; by left |].
    intros ?. apply Hn. by right.
Qed.


Lemma loop_entry_delete sandboxIDs store id checkpoint id' :
  store !! id = Some (Store.Corrupt checkpoint) →
  loop_entry sandboxIDs (delete id store) id' = loop_entry sandboxIDs store id'.
Proof.
  intros Hid. unfold loop_entry. destruct (sandboxIDs !! id'); [done |].
  destruct (decide (id = id')) as [<- | Hne].
  - by rewrite lookup_delete_eq, Hid.
  - by rewrite lookup_delete_ne.
Qed.

Lemma omap_pointwise {A B : Type} (f g : A → option B) (l : list A) :
  (∀ a, f a = g a) → omap f l = omap g l.
Proof.
  intros Hfg. induction l as [| a l IH]; [done |].
  cbn [omap list_omap]. by rewrite Hfg, IH.
Qed.


Lemma ListPodSandbox_checkpoints_run sandboxIDs ids result x store :
  ∃ t,
    run (withStore hX) (ListPodSandbox_checkpoints sandboxIDs ids result) (x, store) =
      (Returned (result ++ omap (loop_entry sandboxIDs store) ids),
       (x, foldl (loop_sweep sandboxIDs) store ids), t) ∧
    Forall (λ e, is_checkpoint_call (projT1 e) = true) t.
Proof.
  revert result store.
  induction ids as [| id ids IH]; intros result store.
  - simpl. rewrite app_nil_r. eauto.
  - cbn [ListPodSandbox_checkpoints omap list_omap foldl].
    unfold loop_entry at 1, loop_sweep at 2.
    destruct (sandboxIDs !! id) as [b |] eqn:HS; [apply IH |].
    simpl. unfold Store.Read.
    destruct (store !! id) as [[checkpoint | checkpoint | msg] |] eqn:Hid; simpl.
    + destruct (IH (result ++ [checkpointToRuntimeAPISandbox id checkpoint]) store)
        as (t & -> & Ht).
      rewrite <- app_assoc. eexists. split; [reflexivity |]. by constructor.
    + unfold Store.Remove. rewrite Hid. simpl.
      destruct (IH result (delete id store)) as (t & -> & Ht).
      rewrite (omap_pointwise _ (loop_entry sandboxIDs store))
        by (intros; by eapply loop_entry_delete).
      eexists. split; [reflexivity |]. by repeat constructor.
    + destruct (IH result store) as (t & -> & Ht).
      eexists. split; [reflexivity |]. by constructor.
    + destruct (IH result store) as (t & -> & Ht).
      eexists. split; [reflexivity |]. by constructor.
Qed.

Lemma loop_entry_checkpoint_entry sandboxIDs backend store id :
  (∀ id, sandboxIDs !! id = None ↔ id ∉ backend) →
  loop_entry sandboxIDs store id = checkpoint_entry backend store id.
Proof.
  intros HS. unfold loop_entry, checkpoint_entry.
  destruct (sandboxIDs !! id) as [b |] eqn:Hid.
  - rewrite decide_True; [done |].
    destruct (decide (id ∈ backend)) as [| Hn]; [done |].
    apply HS in Hn. congruence.
  - apply HS in Hid. by rewrite decide_False.
Qed.

Lemma loop_sweep_lookup sandboxIDs ids (store : Store.t) k :
  foldl (loop_sweep sandboxIDs) store ids !! k =
    match store !! k with
    | Some (Store.Corrupt checkpoint) =>
        if decide (k ∈ ids ∧ sandboxIDs !! k = None) then None
        else Some (Store.Corrupt checkpoint)
    | stored => stored
    end.
Proof.
  revert store. induction ids as [| id ids IH]; intros store.
  - simpl. by destruct (store !! k) as [[] |].
  - cbn [foldl]. rewrite IH. unfold loop_sweep.
    destruct (sandboxIDs !! id) as [b |] eqn:HS.
    + destruct (store !! k) as [[| checkpoint |] |]; try done.
      apply decide_ext. rewrite elem_of_cons.
      split; [tauto |]. intros [[-> |] ?]; [congruence | done].
    + destruct (store !! id) as [[| checkpoint |] |] eqn:Hid;
        (destruct (decide (k = id)) as [-> | Hne];
         [rewrite ?lookup_delete_eq, ?Hid; try done
         | rewrite ?lookup_delete_ne by done;
           destruct (store !! k) as [[| checkpoint' |] |]; try done;
           apply decide_ext; rewrite elem_of_cons; tauto]).
      rewrite decide_True; [done |]. split; [by left | done].
Qed.

Lemma elem_of_ListIds (store : Store.t) k :
  k ∈ (Store.ListIds store).1 ↔ is_Some (store !! k).
Proof.
  unfold Store.ListIds. simpl. rewrite list_elem_of_fmap. split.
  - intros ([k' stored] & -> & Hin). apply elem_of_map_to_list in Hin. eauto.
  - intros [stored Hk]. exists (k, stored). split; [done |].
    by apply elem_of_map_to_list.
Qed.

Lemma loop_sweep_swept sandboxIDs backend (store : Store.t) :
  (∀ id, sandboxIDs !! id = None ↔ id ∉ backend) →
  foldl (loop_sweep sandboxIDs) store (Store.ListIds store).1 = swept backend store.
Proof.
  intros HS. apply map_eq. intros k. rewrite loop_sweep_lookup. unfold swept.
  destruct (store !! k) as [stored |] eqn:Hk.
  - destruct (decide (k ∈ backend ∨ is_corrupt stored = false)) as [Hkeep | Hdrop].
    + rewrite (proj2 (map_lookup_filter_Some _ store k stored)) by done.
      destruct stored as [| checkpoint |]; try done.
      rewrite decide_False; [done |]. intros [_ Hn]. apply HS in Hn.
      destruct Hkeep; [done | discriminate].
    + assert (filter (λ kv, kv.1 ∈ backend ∨ is_corrupt kv.2 = false) store !! k = None)
        as ->.
      { apply map_lookup_filter_None. right. intros stored' Hk'.
        rewrite Hk in Hk'. by injection Hk' as <-. }
      destruct stored as [| checkpoint |]; simpl in Hdrop; try tauto.
      rewrite decide_True; [done |]. split.
      * apply elem_of_ListIds. rewrite Hk. eauto.
      * apply HS. tauto.
  - symmetry. apply map_lookup_filter_None. by left.
Qed.

Lemma swept_lookup backend (store : Store.t) k :
  swept backend store !! k =
    match store !! k with
    | Some (Store.Corrupt checkpoint) =>
        if decide (k ∈ backend) then Some (Store.Corrupt checkpoint) else None
    | stored => stored
    end.
Proof.
  unfold swept. destruct (store !! k) as [stored |] eqn:Hk.
  - destruct stored as [cp | cp | msg].
    + by apply map_lookup_filter_Some; auto.
    + destruct (decide (k ∈ backend)).
      * by apply map_lookup_filter_Some; auto.
      * apply map_lookup_filter_None. right. intros stored' Hk'.
        rewrite Hk in Hk'. injection Hk' as <-. simpl. intros [|]; done.
    + by apply map_lookup_filter_Some; auto.
  - apply map_lookup_filter_None. by left.
Qed.


Lemma checkpoint_entry_Some backend (store : Store.t) id e :
  checkpoint_entry backend store id = Some e ↔
  (id ∉ backend) ∧
  ∃ checkpoint,
    store !! id = Some (Store.Valid checkpoint) ∧
    e = checkpointToRuntimeAPISandbox id checkpoint.
Proof.
  unfold checkpoint_entry. destruct (decide (id ∈ backend)) as [Hin | Hout].
  - split; [done | tauto].
  - destruct (store !! id) as [[cp | cp | msg] |]; split; try done.
    + intros [= <-]. eauto.
    + by intros [_ (cp' & [= <-] & ->)].
    + by intros [_ (cp' & [=] & _)].
    + by intros [_ (cp' & [=] & _)].
    + by intros [_ (cp' & [=] & _)].
Qed.

Lemma elem_of_checkpoint_entries backend (store : Store.t) e :
  e ∈ checkpoint_entries backend store ↔
  ∃ id checkpoint,
    store !! id = Some (Store.Valid checkpoint) ∧ (id ∉ backend) ∧
    e = checkpointToRuntimeAPISandbox id checkpoint.
Proof.
  unfold checkpoint_entries. rewrite list_elem_of_omap. split.
  - intros (id & _ & He). apply checkpoint_entry_Some in He as (? & cp & ? & ?).
    eauto.
  - intros (id & cp & Hid & Hout & ->). exists id. split.
    + apply elem_of_ListIds. eauto.
    + apply checkpoint_entry_Some. eauto.
Qed.

Lemma checkpoint_entries_ids backend (store : Store.t) (ids : list string) :
  NoDup ids →
  NoDup (runtimeapi.PodSandbox.Id <$> omap (checkpoint_entry backend store) ids) ∧
  ∀ id, id ∈ runtimeapi.PodSandbox.Id <$> omap (checkpoint_entry backend store) ids →
        id ∈ ids.
Proof.
  induction 1 as [| id ids Hid Hids [IH1 IH2]].
  - split; [constructor |]. intros id. simpl. by rewrite elem_of_nil.
  - cbn [omap list_omap].
    destruct (checkpoint_entry backend store id) as [e |] eqn:He.
    + apply checkpoint_entry_Some in He as (_ & cp & _ & ->).
      rewrite fmap_cons. simpl. split.
      * constructor; [| done]. intros Hin. by apply Hid, IH2.
      * intros id'. rewrite !elem_of_cons. intros [-> |]; [by left | right; auto].
    + split; [done |]. intros id' Hin. right. auto.
Qed.

(** An unfiltered [ListPodSandbox] over the store: what it returns, and the
    store it leaves. *)
Lemma ListPodSandbox_store_run x (store : Store.t) :
  let opts := (ListPodSandbox_options None).1 in
  let '(r, x1) := hX (client (ListContainers opts)) x in
  let '(done, x2) := hX (shim legacyCleanup_Done) x1 in
  let '(rl, x3) := hX (shim (ListLegacyPodSandbox None)) x2 in
  ∃ t,
    run (withStore hX) (ListPodSandbox None) (x, store) =
      match r with
      | fail err => (Returned (fail err), (x1, store), t)
      | ok containers =>
          let backend := runtimeapi.PodSandbox.Id <$> converted containers in
          let current := converted containers ++ checkpoint_entries backend store in
          if done then (Returned (ok current), (x2, swept backend store), t)
          else
            match rl with
            | fail err => (Returned (fail err), (x3, swept backend store), t)
            | ok legacy => (Returned (ok (current ++ legacy)), (x3, swept backend store), t)
            end
      end.
Proof.
  intros opts. unfold ListPodSandbox. subst opts. simpl.
  destruct (hX _ x) as [r x1]. simpl in r.
  destruct (hX _ x1) as [done x2] eqn:Hdone. simpl in done.
  destruct (hX _ x2) as [rl x3] eqn:Hlegacy. simpl in rl.
  destruct r as [containers | err]; simpl; [| eauto].
  destruct (ListPodSandbox_convert_all containers [] ∅) as (sandboxIDs & -> & HS).
  simpl. rewrite run_bind.
  destruct (ListPodSandbox_checkpoints_run sandboxIDs
              (map_to_list store).*1 (converted containers) x1 store)
    as (t & -> & _).
  assert (HS' : ∀ id, sandboxIDs !! id = None ↔
                      id ∉ runtimeapi.PodSandbox.Id <$> converted containers).
  { intros id. rewrite HS, lookup_empty. tauto. }
  change ((map_to_list store).*1) with (Store.ListIds store).1.
  rewrite (loop_sweep_swept _ _ _ HS').
  rewrite (omap_pointwise _
             (checkpoint_entry (runtimeapi.PodSandbox.Id <$> converted containers) store))
    by (intros; by apply loop_entry_checkpoint_entry).
  fold (checkpoint_entries (runtimeapi.PodSandbox.Id <$> converted containers) store).
  simpl. rewrite Hdone. destruct done; simpl; [eauto |].
  rewrite Hlegacy. destruct rl as [legacy | err]; simpl; eauto.
Qed.


(** C2, as amended.  Docker listing [containers] and the legacy path giving
    [legacy] (nothing when the legacy cleanup is done), an unfiltered
    [ListPodSandbox] returns, in this order: the sandboxes of the containers
    that convert; one sandbox per id of the store that is the id of none of
    them and whose checkpoint is valid, made of the id, the name and the
    namespace, not ready; the legacy sandboxes.  No id appears twice when
    the converted ids are distinct and the legacy ids are distinct, are not
    among the converted ids and have no valid checkpoint. *)
Theorem ListPodSandbox_unfiltered
  (x : X) (store : Store.t) (containers : list dockertypes.Container.t) (x1 : X)
  (done : bool) (x2 : X) (legacy : list runtimeapi.PodSandbox.t) :
  hX (client (ListContainers (ListPodSandbox_options None).1)) x = (ok containers, x1) →
  hX (shim legacyCleanup_Done) x1 = (done, x2) →
  (if done then legacy = []
   else ∃ x3, hX (shim (ListLegacyPodSandbox None)) x2 = (ok legacy, x3)) →
  let backend := runtimeapi.PodSandbox.Id <$> converted containers in
  let result := converted containers ++ checkpoint_entries backend store ++ legacy in
  (run (withStore hX) (ListPodSandbox None) (x, store)).1.1 = Returned (ok result) ∧
  (∀ e, e ∈ checkpoint_entries backend store ↔
        ∃ id checkpoint,
          store !! id = Some (Store.Valid checkpoint) ∧ (id ∉ backend) ∧
          e = checkpointToRuntimeAPISandbox id checkpoint) ∧
  (∀ id, id ∈ runtimeapi.PodSandbox.Id <$> result ↔
         id ∈ backend ∨
         ((id ∉ backend) ∧ ∃ checkpoint, store !! id = Some (Store.Valid checkpoint)) ∨
         id ∈ runtimeapi.PodSandbox.Id <$> legacy) ∧
  (NoDup backend →
   NoDup (runtimeapi.PodSandbox.Id <$> legacy) →
   (∀ id, id ∈ runtimeapi.PodSandbox.Id <$> legacy →
          (id ∉ backend) ∧ ∀ checkpoint, store !! id ≠ Some (Store.Valid checkpoint)) →
   NoDup (runtimeapi.PodSandbox.Id <$> result)).
Proof.
  intros Hlist Hdone Hlegacy backend result.
  assert (Hentries : ∀ id,
    id ∈ runtimeapi.PodSandbox.Id <$> checkpoint_entries backend store ↔
    (id ∉ backend) ∧ ∃ checkpoint, store !! id = Some (Store.Valid checkpoint)).
  { intros id. rewrite list_elem_of_fmap. split.
    - intros (e & -> & He). apply elem_of_checkpoint_entries in He
        as (id' & cp & ? & ? & ->). simpl. eauto.
    - intros (Hout & cp & Hid). exists (checkpointToRuntimeAPISandbox id cp).
      split; [done |]. apply elem_of_checkpoint_entries. eauto. }
  split; [| split; [| split]].
  - pose proof (ListPodSandbox_store_run x store) as Hrun. cbv zeta in Hrun.
    rewrite Hlist, Hdone in Hrun.
    destruct (hX (shim (ListLegacyPodSandbox None)) x2) as [rl x3] eqn:Hl.
    destruct Hrun as (t & ->).
    destruct done; simpl.
    + subst legacy. unfold result. by rewrite !app_nil_r.
    + destruct Hlegacy as (x3' & [= -> ->]). unfold result. by rewrite <- app_assoc.
  - apply elem_of_checkpoint_entries.
  - intros id. unfold result. rewrite !fmap_app, !elem_of_app, Hentries. tauto.
  - intros Hbackend Hlegacy_ids Hdisjoint. unfold result. rewrite !fmap_app.
    apply NoDup_app. split; [done |]. split.
    + intros id Hin. rewrite elem_of_app, Hentries.
      intros [[Hout _] | Hl]; [done |]. by apply Hdisjoint in Hl as [? _].
    + apply NoDup_app. split; [| split; [| done]].
      * apply checkpoint_entries_ids, NoDup_fst_map_to_list.
      * intros id Hin Hl. apply Hentries in Hin as (_ & cp & Hcp).
        apply Hdisjoint in Hl as [_ Hn]. by apply (Hn cp).
Qed.

(** C4.  Docker listing [containers], a corrupted checkpoint whose id is the
    id of none of the sandboxes made of them does not make an unfiltered
    [ListPodSandbox] panic: the checkpoint is gone from the store afterwards,
    no other record of the store that is not such a corrupted checkpoint is
    touched, and the sequence returned has no entry made of the corrupted
    checkpoint and has the sandboxes of docker and an entry for every valid
    checkpoint whose id is not one of theirs. *)
Theorem ListPodSandbox_corrupted
  (x : X) (store : Store.t) (id : string) (checkpoint : PodSandboxCheckpoint.t)
  (containers : list dockertypes.Container.t) (x1 : X) :
  hX (client (ListContainers (ListPodSandbox_options None).1)) x = (ok containers, x1) →
  store !! id = Some (Store.Corrupt checkpoint) →
  id ∉ runtimeapi.PodSandbox.Id <$> converted containers →
  let backend := runtimeapi.PodSandbox.Id <$> converted containers in
  ∃ out x' store' t,
    run (withStore hX) (ListPodSandbox None) (x, store) = (out, (x', store'), t) ∧
    out ≠ Panicked ∧
    store' !! id = None ∧
    (∀ id', (∀ c, store !! id' ≠ Some (Store.Corrupt c)) → store' !! id' = store !! id') ∧
    ∀ result,
      out = Returned (ok result) →
      (∃ legacy,
         result = (converted containers ++ checkpoint_entries backend store) ++ legacy) ∧
      (id ∉ runtimeapi.PodSandbox.Id <$>
              (converted containers ++ checkpoint_entries backend store)) ∧
      (∀ e, e ∈ converted containers → e ∈ result) ∧
      (∀ id' checkpoint',
         store !! id' = Some (Store.Valid checkpoint') → id' ∉ backend →
         checkpointToRuntimeAPISandbox id' checkpoint' ∈ result).
Proof.
  intros Hlist Hid Hout backend.
  pose proof (ListPodSandbox_store_run x store) as Hrun. cbv zeta in Hrun.
  rewrite Hlist in Hrun.
  destruct (hX (shim legacyCleanup_Done) x1) as [done x2].
  destruct (hX (shim (ListLegacyPodSandbox None)) x2) as [rl x3].
  destruct Hrun as (t & Hrun). fold backend in Hrun.
  assert (Hgone : swept backend store !! id = None).
  { rewrite swept_lookup, Hid. by rewrite decide_False. }
  assert (Hkept : ∀ id', (∀ c, store !! id' ≠ Some (Store.Corrupt c)) →
                         swept backend store !! id' = store !! id').
  { intros id' Hc. rewrite swept_lookup.
    destruct (store !! id') as [[| c |] |] eqn:E; try done. by destruct (Hc c). }
  assert (Hskipped : id ∉ runtimeapi.PodSandbox.Id <$>
                            (converted containers ++ checkpoint_entries backend store)).
  { rewrite fmap_app, elem_of_app. intros [Hin | Hin]; [done |].
    apply list_elem_of_fmap in Hin as (e & -> & He).
    apply elem_of_checkpoint_entries in He as (id' & cp & Hcp & _ & ->).
    simpl in Hid. congruence. }
  assert (Hall : ∀ legacy result,
    result = (converted containers ++ checkpoint_entries backend store) ++ legacy →
    (∃ legacy,
       result = (converted containers ++ checkpoint_entries backend store) ++ legacy) ∧
    (id ∉ runtimeapi.PodSandbox.Id <$>
            (converted containers ++ checkpoint_entries backend store)) ∧
    (∀ e, e ∈ converted containers → e ∈ result) ∧
    (∀ id' checkpoint',
       store !! id' = Some (Store.Valid checkpoint') → id' ∉ backend →
       checkpointToRuntimeAPISandbox id' checkpoint' ∈ result)).
  { intros legacy result ->. split; [by eauto |]. split; [done |]. split.
    - intros e He. rewrite !elem_of_app. auto.
    - intros id' cp' Hcp Hb. rewrite !elem_of_app. left. right.
      apply elem_of_checkpoint_entries. eauto. }
  destruct done; [| destruct rl as [legacy | err]]; do 4 eexists;
    (split; [exact Hrun |]); (split; [done |]); (split; [exact Hgone |]);
    (split; [exact Hkept |]); intros result [= <-].
  - apply (Hall []). by rewrite app_nil_r.
  - by apply (Hall legacy).
Qed.

End list_properties.

(** In the fake world of the listing the sequence is "s1", "c2", "old", and
    no id appears twice. *)
Lemma ListPodSandbox_unfiltered_witness :
  let result :=
    [runtimeapi.PodSandbox.mk "s1"
       (Some (runtimeapi.PodSandboxMetadata.mk "web" "uid" "default" 0))
       runtimeapi.PodSandboxState_SANDBOX_READY 0 ∅ ∅;
     runtimeapi.PodSandbox.mk "c2"
       (Some (runtimeapi.PodSandboxMetadata.mk "db" "" "default" 0))
       runtimeapi.PodSandboxState_SANDBOX_NOTREADY 0 ∅ ∅;
     runtimeapi.PodSandbox.mk "old" None
       runtimeapi.PodSandboxState_SANDBOX_NOTREADY 0 ∅ ∅] in
  (run (withStore (Fake.docker Fake.listing)) (@ListPodSandbox Fake.helpers None)
     (tt, Fake.store)).1.1 = Returned (ok result) ∧
  NoDup (runtimeapi.PodSandbox.Id <$> result).
Proof.
  intros result.
  destruct (@ListPodSandbox_unfiltered Fake.helpers _ (Fake.docker Fake.listing)
              tt Fake.store _ tt false tt _ eq_refl eq_refl (ex_intro _ tt eq_refl))
    as (Hrun & _ & _ & Hnodup).
  split; [exact Hrun |].
  apply Hnodup.
  - change (NoDup ["s1"%string]). apply NoDup_singleton.
  - change (NoDup ["old"%string]). apply NoDup_singleton.
  - intros id Hin. apply list_elem_of_fmap in Hin as (e & -> & He).
    apply list_elem_of_singleton in He as ->. split.
    + change ("old"%string ∉ ["s1"%string]).
      intros Hin. apply list_elem_of_singleton in Hin. discriminate.
    + intros checkpoint. vm_compute. discriminate.
Defined.

(** The store holds only a corrupted checkpoint "c1" and docker lists no
    container: "c1" is a checkpoint id with no entry of docker, and the
    sequence returned is empty. *)
Lemma ListPodSandbox_unfiltered_counterexample :
  let store : Store.t :=
    {[ "c1"%string := Store.Corrupt (PodSandboxCheckpoint.mk "default" "web" []) ]} in
  (Store.ListIds store).1 = ["c1"%string] ∧
  Fake.listed Fake.quiet = ok [] ∧
  (run (withStore (Fake.docker Fake.quiet)) (@ListPodSandbox Fake.helpers None)
     (tt, store)).1.1 = Returned (ok []).
Proof. intros store. repeat split; reflexivity. Qed.

(** In the fake world of the listing the corrupted checkpoint "c3" is gone
    after the call, the valid checkpoint "c2" is still there, and the sequence
    has the entry of "c2". *)
Lemma ListPodSandbox_corrupted_witness :
  ∃ result store' t,
    run (withStore (Fake.docker Fake.listing)) (@ListPodSandbox Fake.helpers None)
      (tt, Fake.store) = (Returned (ok result), (tt, store'), t) ∧
    store' !! "c3"%string = None ∧
    store' !! "c2"%string = Fake.store !! "c2"%string ∧
    checkpointToRuntimeAPISandbox "c2" (PodSandboxCheckpoint.mk "default" "db" [])
      ∈ result.
Proof.
  destruct (@ListPodSandbox_corrupted Fake.helpers _ (Fake.docker Fake.listing)
              tt Fake.store "c3" (PodSandboxCheckpoint.mk "" "" []) _ tt eq_refl eq_refl)
    as (out & x' & store' & t & Hrun & _ & Hgone & Hkept & Hresult).
  { change ("c3"%string ∉ ["s1"%string]).
    intros Hin. apply list_elem_of_singleton in Hin. discriminate. }
  assert (Hout : ∃ result, out = Returned (ok result)).
  { vm_compute in Hrun. injection Hrun as <- _ _ _. eauto. }
  destruct Hout as (result & ->). destruct x'.
  exists result, store', t. split; [exact Hrun |]. split; [exact Hgone |].
  split; [apply Hkept; intros c; vm_compute; discriminate |].
  destruct (Hresult result eq_refl) as (_ & _ & _ & Hvalid).
  apply Hvalid; [reflexivity |].
  change ("c2"%string ∉ ["s1"%string]).
  intros Hin. apply list_elem_of_singleton in Hin. discriminate.
Defined.

(** In the fake world the plugin fails to tear down and docker has no
    container "s1": the container is asked to stop all the same, the
    not-found answer is dropped, and the failure of the plugin comes back. *)
Lemma StopPodSandbox_teardown_phase_witness :
  let s :=
    {| Fake.pull := None; Fake.create := (None, None); Fake.start := None;
       Fake.stop := Some Fake.notFound; Fake.remove := None;
       Fake.inspect := fail Fake.notFound;
       Fake.listed := ok []; Fake.setup := None;
       Fake.teardown := Some (Opaque "plugin down");
       Fake.status := (None, None);
       Fake.legacy_done := true; Fake.legacy := ok [] |} in
  run (Fake.docker s) (@StopPodSandbox_teardown Fake.helpers "s1" true "default" "web") tt =
    (Returned
       (Some (Aggregate
                [Errorf "failed to teardown sandbox %q for pod %s/%s: %v"
                   ["s1"; "default"; "web"]%string (Some (Opaque "plugin down"))])),
     tt,
     [ev (networkPlugin
            (TearDownPod "default" "web" (kubecontainer.ContainerID.mk "docker" "s1")))
        (Some (Opaque "plugin down"));
      ev (client (StopContainer "s1" 10)) (Some Fake.notFound)]).
Proof.
  intros s.
  destruct (@StopPodSandbox_teardown_phase Fake.helpers _ (Fake.docker s) "s1" tt)
    as (Hteardown & _ & _).
  rewrite Hteardown. reflexivity.
Defined.

Section corrupted_without_record.
Context `{Helpers} {W : Type} (h : Handler W).

(** The loop of [ListPodSandbox] relies on the checkpoint handler handing
    back the record it could not validate: with [CorruptCheckpointError] and
    no record, line 381 dereferences nil. *)
Remark ListPodSandbox_checkpoints_nil_record id ids result w w1 :
  h (checkpointHandler (GetCheckpoint id)) w = ((None, Some CorruptCheckpointError), w1) →
  run h (ListPodSandbox_checkpoints ∅ (id :: ids) result) w =
    (Panicked, w1,
     [ev (checkpointHandler (GetCheckpoint id)) (None, Some CorruptCheckpointError)]).
Proof. intros Hget. simpl. rewrite lookup_empty. simpl. by rewrite Hget. Qed.

End corrupted_without_record.

(** A program that makes no call that updates the store leaves the store as
    it was. *)
Lemma withStore_frame {X A : Type} (hX : Handler X) (p : Prog A) :
  ∀ x (store : Store.t) out x' store' t,
    run (withStore hX) p (x, store) = (out, (x', store'), t) →
    Forall (λ o, is_store_update o = false) (calls t) →
    store' = store.
Proof.
  induction p as [a | o k IH |]; intros x store out x' store' t; simpl.
  - by intros [= _ _ <- _].
  - destruct (withStore hX o (x, store)) as [r [x1 store1]] eqn:Hstep.
    destruct (run (withStore hX) (k r) (x1, store1)) as [[out1 [x2 store2]] t1] eqn:Hrun.
    intros [= _ _ <- <-] Hcalls. apply Forall_cons in Hcalls as [Ho Hcalls]. simpl in Ho.
    rewrite (IH r _ _ _ _ _ _ Hrun Hcalls).
    destruct o as [c | c | [] | c]; simpl in Hstep, Ho; try discriminate;
      try (destruct (hX _ x) as [r' x'']; by injection Hstep as _ _ <-);
      by injection Hstep as _ _ <-.
  - by intros [= _ _ <- _].
Qed.

Section status_and_stop.
Context `{Helpers} {W : Type} (h : Handler W).

Lemma getIP_calls sandbox w :
  let t := (run h (getIP sandbox) w).2 in
  Forall (λ o, is_status_call o = true) (calls t) ∧ (length t ≤ 1)%nat.
Proof.
  destruct (getIP_run h sandbox w) as (ip & w1 & t & Hrun & Hcases).
  rewrite Hrun. simpl.
  destruct (dockertypes.ContainerJSON.NetworkSettings sandbox) as [settings |].
  2: { destruct Hcases as [_ ->]. split; [constructor | simpl; lia]. }
  destruct (sharesHostNetwork _).
  { destruct Hcases as [_ ->]. split; [constructor | simpl; lia]. }
  destruct Hcases as (pluginIP & pluginErr & Hplugin & _).
  rewrite getIPFromPlugin_run in Hplugin.
  destruct (parseSandboxName _) as [metadata | err].
  - cbv zeta in Hplugin.
    destruct (h (networkPlugin _) w) as [r w2]. injection Hplugin as _ _ <-.
    split; [by repeat constructor | simpl; lia].
  - injection Hplugin as _ _ _ <-. split; [constructor | simpl; lia].
Qed.

(** What a status holds of the record docker inspected. *)
Lemma PodSandboxStatus_fields id w r w0 status w1 t :
  h (client (InspectContainer id)) w = (ok r, w0) →
  run h (PodSandboxStatus id) w = (Returned (ok status), w1, t) →
  runtimeapi.PodSandboxStatus.Id status = dockertypes.ContainerJSON.ID r ∧
  runtimeapi.PodSandboxStatus.State status =
    (if dockertypes.ContainerState.Running (dockertypes.ContainerJSON.State r)
     then runtimeapi.PodSandboxState_SANDBOX_READY
     else runtimeapi.PodSandboxState_SANDBOX_NOTREADY) ∧
  (∃ started finished,
     getContainerTimestamps r =
       ok (runtimeapi.PodSandboxStatus.CreatedAt status, started, finished)) ∧
  runtimeapi.Namespace.Network <$>
    runtimeapi.PodSandboxStatus.GetNamespaces (runtimeapi.PodSandboxStatus.GetLinux status) =
    Some (getNetworkNamespace r).
Proof.
  intros Hinspect. unfold PodSandboxStatus. simpl. rewrite Hinspect.
  destruct (getContainerTimestamps r) as [[[c s] f] | e]; simpl; [| intros [=]].
  rewrite run_bind.
  destruct (getIP_run h r w0) as (ip & w2 & t' & -> & _). simpl.
  destruct (_ !! containerTypeLabelKey); simpl.
  - destruct (parseSandboxName _) as [md | e]; simpl; [| intros [=]].
    destruct (extractLabels _) as [ls ans]; simpl.
    intros [= <- <- <-]. simpl. eauto 10.
  - destruct (convertLegacyNameAndLabels _ _) as [[[| n ns] ls] | e]; simpl;
      try (intros [=]; fail).
    destruct (parseSandboxName _) as [md | e]; simpl; [| intros [=]].
    destruct (extractLabels _) as [ls' ans]; simpl.
    intros [= <- <- <-]. simpl. eauto 10.
Qed.

Lemma PodSandboxStatus_calls id w :
  let t := (run h (PodSandboxStatus id) w).2 in
  Forall (λ o, is_status_call o = true) (calls t) ∧ (length t ≤ 2)%nat.
Proof.
  unfold PodSandboxStatus. simpl. run_step h.
  destruct r as [r | e]; simpl; [| split; [by repeat constructor | lia]].
  destruct (getContainerTimestamps r) as [[[c s] f] | e]; simpl;
    [| split; [by repeat constructor | lia]].
  rewrite run_bind.
  pose proof (getIP_calls r w0) as [Hcalls Hlen].
  destruct (getIP_run h r w0) as (ip & w2 & t' & Hip & _).
  rewrite Hip in Hcalls, Hlen |- *. simpl in Hcalls, Hlen. simpl.
  assert (Hgoal : Forall (λ o, is_status_call o = true)
                    (calls (ev (client (InspectContainer id)) (ok r) :: t' ++ [])) ∧
                  (length (ev (client (InspectContainer id)) (ok r) :: t' ++ []) ≤ 2)%nat).
  { rewrite app_nil_r. split; [by constructor | simpl; lia]. }
  destruct (_ !! containerTypeLabelKey); simpl.
  - destruct (parseSandboxName _); simpl; [destruct (extractLabels _); simpl |];
      exact Hgoal.
  - destruct (convertLegacyNameAndLabels _ _) as [[[| n ns] ls] | e]; simpl;
      try exact Hgoal.
    destruct (parseSandboxName _); simpl; [destruct (extractLabels _); simpl |];
      exact Hgoal.
Qed.

(** X1.  [PodSandboxStatus] only reads: it calls nothing but the inspection
    of docker and the status query of the plugin, twice at most in all.  When
    the inspection fails its error comes back as it is and nothing else is
    called.  When the status comes back, it carries the id of the record
    inspected, the state ready exactly for a running container, the creation
    time [getContainerTimestamps] gives and the network namespace
    [getNetworkNamespace] gives. *)
Theorem PodSandboxStatus_read_only (id : string) (w : W) :
  let '(out, w1, t) := run h (PodSandboxStatus id) w in
  Forall (λ o, is_status_call o = true) (calls t) ∧
  (length t ≤ 2)%nat ∧
  (∀ err w0,
     h (client (InspectContainer id)) w = (fail err, w0) →
     out = Returned (fail err) ∧ w1 = w0 ∧
     t = [ev (client (InspectContainer id)) (fail err)]) ∧
  (∀ r w0 status,
     h (client (InspectContainer id)) w = (ok r, w0) →
     out = Returned (ok status) →
     runtimeapi.PodSandboxStatus.Id status = dockertypes.ContainerJSON.ID r ∧
     runtimeapi.PodSandboxStatus.State status =
       (if dockertypes.ContainerState.Running (dockertypes.ContainerJSON.State r)
        then runtimeapi.PodSandboxState_SANDBOX_READY
        else runtimeapi.PodSandboxState_SANDBOX_NOTREADY) ∧
     (∃ started finished,
        getContainerTimestamps r =
          ok (runtimeapi.PodSandboxStatus.CreatedAt status, started, finished)) ∧
     runtimeapi.Namespace.Network <$>
       runtimeapi.PodSandboxStatus.GetNamespaces
         (runtimeapi.PodSandboxStatus.GetLinux status) =
       Some (getNetworkNamespace r)).
Proof.
  pose proof (PodSandboxStatus_calls id w) as [Hcalls Hlen].
  destruct (run h (PodSandboxStatus id) w) as [[out w1] t] eqn:Hrun.
  simpl in Hcalls, Hlen. split; [done |]. split; [done |]. split.
  - intros err w0 Hinspect. unfold PodSandboxStatus in Hrun. simpl in Hrun.
    rewrite Hinspect in Hrun. simpl in Hrun. by injection Hrun as <- <- <-.
  - intros r w0 status Hinspect ->. by eapply PodSandboxStatus_fields.
Qed.


(** X2.  For a sandbox docker has a record of, [StopPodSandbox] goes by the
    kind of the record: for a record with the container-type label the
    network plugin is asked to tear down exactly when the container is not
    on the host network; for a legacy record, whose flag the status negates,
    exactly when it is on the host network.  The teardown runs with the
    namespace and the name of the status. *)
Theorem StopPodSandbox_record_kind id w r w0 status w1 t1 :
  h (client (InspectContainer id)) w = (ok r, w0) →
  run h (PodSandboxStatus id) w = (Returned (ok status), w1, t1) →
  let host := sharesHostNetwork (Some r) in
  let need :=
    match dockercontainer.Config.Labels (dockertypes.ContainerJSON.Config r)
            !! containerTypeLabelKey with
    | Some _ => negb host
    | None => host
    end in
  ∃ metadata,
    runtimeapi.PodSandboxStatus.Metadata status = Some metadata ∧
    run h (StopPodSandbox id) w =
      teardown_from h id need
        (runtimeapi.PodSandboxMetadata.Namespace metadata)
        (runtimeapi.PodSandboxMetadata.Name metadata) w1 t1.
Proof.
  intros Hinspect Hrun host need.
  destruct (PodSandboxStatus_inspected h _ _ _ _ _ _ _ Hinspect Hrun)
    as (ip & t & _ & _ & _ & _ & Hkind).
  assert (Hstatus : ∃ metadata,
    runtimeapi.PodSandboxStatus.Metadata status = Some metadata ∧
    reported_hostNetwork status = Some (negb need)).
  { subst need host.
    destruct (_ !! containerTypeLabelKey).
    - destruct Hkind as (md & _ & Hmd & _ & Hflag). exists md.
      by rewrite negb_involutive.
    - destruct Hkind as (n & ns & ls & md & _ & _ & Hmd & _ & Hflag). by exists md. }
  destruct Hstatus as (metadata & Hmd & Hflag). exists metadata. split; [done |].
  unfold StopPodSandbox. rewrite run_bind, Hrun.
  unfold runtimeapi.PodSandboxStatus.GetMetadata. rewrite Hmd.
  unfold reported_hostNetwork in Hflag.
  destruct (runtimeapi.PodSandboxStatus.GetOptions _) as [nsOpts |]; [| done].
  injection Hflag as Hflag. rewrite Hflag, negb_involutive.
  rewrite StopPodSandbox_teardown_run.
  rewrite (teardown_from_before _ _ _ _ _ _ t1). reflexivity.
Qed.

Lemma teardown_from_calls id need namespace name w before :
  Forall (λ o, is_stop_call o = true) (calls before) →
  Forall (λ o, is_stop_call o = true)
    (calls (teardown_from h id need namespace name w before).2).
Proof.
  intros Hbefore. unfold teardown_from.
  destruct need.
  - destruct (h _ w) as [rn w1]. destruct (h _ w1) as [rs w2]. simpl.
    unfold calls. rewrite fmap_app. apply Forall_app. split; [done |].
    by repeat constructor.
  - destruct (h _ w) as [rs w2]. simpl.
    unfold calls. rewrite fmap_app. apply Forall_app. split; [done |].
    by repeat constructor.
Qed.

Lemma StopPodSandbox_stop_calls id w :
  Forall (λ o, is_stop_call o = true) (calls (run h (StopPodSandbox id) w).2).
Proof.
  unfold StopPodSandbox. rewrite run_bind.
  pose proof (PodSandboxStatus_calls id w) as [Hcalls _].
  destruct (run h (PodSandboxStatus id) w) as [[out w1] t]. simpl in Hcalls.
  assert (Hstop : Forall (λ o, is_stop_call o = true) (calls t)).
  { eapply Forall_impl; [exact Hcalls |]. intros [[] | [] | [] | []]; done. }
  destruct out as [[status | statusErr] |]; [| | done].
  - destruct (runtimeapi.PodSandboxStatus.GetMetadata status); simpl.
    + rewrite StopPodSandbox_teardown_run.
      pose proof (teardown_from_calls id
        match runtimeapi.PodSandboxStatus.GetOptions
                (runtimeapi.PodSandboxStatus.GetNamespaces
                   (runtimeapi.PodSandboxStatus.GetLinux status)) with
        | Some nsOpts => negb (runtimeapi.NamespaceOption.HostNetwork nsOpts)
        | None => false
        end
        (runtimeapi.PodSandboxMetadata.Namespace t0)
        (runtimeapi.PodSandboxMetadata.Name t0) w1 t Hstop) as Hgoal.
      rewrite teardown_from_before in Hgoal.
      by destruct (teardown_from _ _ _ _ _ _ _) as [[o w2] t2].
    + by rewrite app_nil_r.
  - simpl. run_step h.
    set (lookup := ev (checkpointHandler (GetCheckpoint id)) r).
    assert (Hlookup : Forall (λ o, is_stop_call o = true) (calls (t ++ [lookup]))).
    { unfold calls. rewrite fmap_app. apply Forall_app. split; [done |].
      by repeat constructor. }
    assert (Hteardown : ∀ namespace name,
      Forall (λ o, is_stop_call o = true)
        (calls
           (let '(out, w3, t2) :=
              let '(out, w3, t1) :=
                run h (StopPodSandbox_teardown id true namespace name) w0 in
              (out, w3, lookup :: t1) in
            (out, w3, t ++ t2)).2)).
    { intros namespace name. rewrite StopPodSandbox_teardown_run.
      pose proof (teardown_from_calls id true namespace name w0 _ Hlookup) as Hgoal.
      rewrite teardown_from_before in Hgoal.
      destruct (teardown_from _ _ _ _ _ _ _) as [[o w2] t2].
      simpl in *. by rewrite <- app_assoc in Hgoal. }
    destruct r as [[cp |] [cerr |]]; simpl.
    + destruct (_ && _); [apply Hteardown | exact Hlookup].
    + apply Hteardown.
    + destruct (_ && _); [apply Hteardown | exact Hlookup].
    + exact Hlookup.
Qed.

End status_and_stop.

Section stop_frame.
Context `{Helpers} {X : Type} (hX : Handler X).

(** X3.  [StopPodSandbox] calls nothing but the inspection and the stop of
    docker, the status query and the teardown of the plugin and the lookup
    of the checkpoint: it removes no container, and over the checkpoint
    store it leaves every checkpoint as it was. *)
Theorem StopPodSandbox_keeps_checkpoints (id : string) (x : X) (store : Store.t) :
  let '(out, w, t) := run (withStore hX) (StopPodSandbox id) (x, store) in
  Forall (λ o, is_stop_call o = true) (calls t) ∧ w.2 = store.
Proof.
  pose proof (StopPodSandbox_stop_calls (withStore hX) id (x, store)) as Hcalls.
  destruct (run (withStore hX) (StopPodSandbox id) (x, store))
    as [[out [x' store']] t] eqn:Hrun.
  simpl in Hcalls. split; [done |]. simpl.
  eapply withStore_frame; [exact Hrun |].
  eapply Forall_impl; [exact Hcalls |]. intros [[] | [] | [] | []]; done.
Qed.

End stop_frame.

(** In the fake world the sandbox "s1" runs: its status is ready and carries
    the id and the creation time of the record. *)
Lemma PodSandboxStatus_read_only_witness :
  ∃ status w1 t,
    run (Fake.docker Fake.quiet) (@PodSandboxStatus Fake.helpers "s1") tt =
      (Returned (ok status), w1, t) ∧
    runtimeapi.PodSandboxStatus.Id status = "s1"%string ∧
    runtimeapi.PodSandboxStatus.State status = runtimeapi.PodSandboxState_SANDBOX_READY ∧
    (length t ≤ 2)%nat.
Proof.
  pose proof (@PodSandboxStatus_read_only Fake.helpers _ (Fake.docker Fake.quiet) "s1" tt)
    as Hstatus.
  destruct (run (Fake.docker Fake.quiet) (@PodSandboxStatus Fake.helpers "s1") tt)
    as [[out w1] t] eqn:Hrun.
  destruct Hstatus as (_ & Hlen & _ & Hfields).
  assert (Hout : ∃ status, out = Returned (ok status)).
  { vm_compute in Hrun. injection Hrun as <- _ _. eauto. }
  destruct Hout as (status & ->). exists status, w1, t. split; [reflexivity |].
  destruct (Hfields _ tt status eq_refl eq_refl) as (Hid & Hstate & _).
  rewrite Hid, Hstate. split; [reflexivity |]. split; [reflexivity | exact Hlen].
Defined.

(** A legacy record on the host network: the plugin is asked to tear down
    the network of the pod. *)
Lemma StopPodSandbox_record_kind_witness :
  let s :=
    {| Fake.pull := None; Fake.create := (None, None); Fake.start := None;
       Fake.stop := None; Fake.remove := None;
       Fake.inspect := ok (Fake.sandbox ∅ "host");
       Fake.listed := ok []; Fake.setup := None; Fake.teardown := None;
       Fake.status := (None, None);
       Fake.legacy_done := true; Fake.legacy := ok [] |} in
  run (Fake.docker s) (@StopPodSandbox Fake.helpers "s1") tt =
    (Returned None, tt,
     [ev (client (InspectContainer "s1")) (Fake.inspect s);
      ev (networkPlugin
            (TearDownPod "default" "web" (kubecontainer.ContainerID.mk "docker" "s1")))
        None;
      ev (client (StopContainer "s1" 10)) None]).
Proof.
  intros s.
  assert (Hstatus : ∃ status,
    run (Fake.docker s) (@PodSandboxStatus Fake.helpers "s1") tt =
      (Returned (ok status), tt, [ev (client (InspectContainer "s1")) (Fake.inspect s)]))
    by (eexists; reflexivity).
  destruct Hstatus as (status & Hstatus).
  destruct (@StopPodSandbox_record_kind Fake.helpers _ (Fake.docker s) "s1" tt
              _ tt status tt _ eq_refl Hstatus)
    as (metadata & Hmd & ->).
  vm_compute in Hstatus. injection Hstatus as <-. injection Hmd as <-. reflexivity.
Defined.

Section filtered_list.
Context `{Helpers} {W : Type} (h : Handler W).

Lemma ListPodSandbox_convert_kept filterOut containers result sandboxIDs :
  (ListPodSandbox_convert filterOut containers result sandboxIDs).1 =
    result ++ kept filterOut containers.
Proof.
  revert result sandboxIDs.
  induction containers as [| c containers IH]; intros result sandboxIDs; simpl.
  - unfold kept. simpl. by rewrite app_nil_r.
  - unfold kept, converted. cbn [omap list_omap].
    destruct (containerToRuntimeAPISandbox c) as [sandbox | e]; [| apply IH].
    rewrite filter_cons.
    destruct (filterOut && is_ready (runtimeapi.PodSandbox.State sandbox)) eqn:E.
    + rewrite decide_False by done. apply IH.
    + rewrite decide_True by done. rewrite IH. by rewrite <- app_assoc.
Qed.

Lemma kept_not_ready containers :
  Forall (λ s, runtimeapi.PodSandbox.State s = runtimeapi.PodSandboxState_SANDBOX_NOTREADY)
    (kept true containers).
Proof.
  unfold kept. apply Forall_forall. intros s Hs.
  apply list_elem_of_filter in Hs as [Hs _]. simpl in Hs.
  by destruct (runtimeapi.PodSandbox.State s).
Qed.

Lemma kept_all containers : kept false containers = converted containers.
Proof.
  unfold kept. induction (converted containers) as [| s l IH]; [done |].
  rewrite filter_cons, decide_True by done. by rewrite IH.
Qed.

Lemma ListPodSandbox_options_not_ready filter :
  (ListPodSandbox_options (Some filter)).2 = asks_not_ready filter.
Proof.
  unfold ListPodSandbox_options, asks_not_ready.
  by destruct (runtimeapi.PodSandboxFilter.State filter) as [[] |].
Qed.

(** A filtered [ListPodSandbox], call by call. *)
Lemma ListPodSandbox_filtered_run (filter : runtimeapi.PodSandboxFilter.t) (w : W) :
  let listing := client (ListContainers (ListPodSandbox_options (Some filter)).1) in
  let notReady := asks_not_ready filter in
  let '(r, w1) := h listing w in
  let '(isDone, w2) := h (shim legacyCleanup_Done) w1 in
  let '(rl, w3) := h (shim (ListLegacyPodSandbox (Some filter))) w2 in
  run h (ListPodSandbox (Some filter)) w =
    match r with
    | fail err => (Returned (fail err), w1, [ev listing r])
    | ok containers =>
        if isDone
        then (Returned (ok (kept notReady containers)), w2,
              [ev listing r; ev (shim legacyCleanup_Done) true])
        else
          (match rl with
           | fail err => Returned (fail err)
           | ok legacy => Returned (ok (kept notReady containers ++ legacy))
           end,
           w3,
           [ev listing r; ev (shim legacyCleanup_Done) false;
            ev (shim (ListLegacyPodSandbox (Some filter))) rl])
    end.
Proof.
  intros listing notReady. subst listing notReady. unfold ListPodSandbox.
  rewrite <- ListPodSandbox_options_not_ready.
  destruct (ListPodSandbox_options (Some filter)) as [opts filterOut]. simpl.
  destruct (h (client (ListContainers opts)) w) as [r w1]. simpl in r.
  destruct r as [containers | err]; simpl.
  - pose proof (ListPodSandbox_convert_kept filterOut containers [] ∅) as Hkept.
    destruct (ListPodSandbox_convert filterOut containers [] ∅) as [result0 sandboxIDs].
    simpl in Hkept. subst result0. simpl.
    destruct (h (shim legacyCleanup_Done) w1) as [isDone w2]. simpl in isDone.
    destruct (h (shim (ListLegacyPodSandbox (Some filter))) w2) as [rl w3] eqn:Hlegacy.
    simpl in rl.
    destruct isDone; simpl; [reflexivity |].
    rewrite Hlegacy. by destruct rl.
  - destruct (h (shim legacyCleanup_Done) w1) as [isDone w2].
    by destruct (h (shim (ListLegacyPodSandbox (Some filter))) w2) as [rl w3].
Qed.

(** X4.  With a filter, [ListPodSandbox] never calls the checkpoint handler
    and makes three calls at most.  The sequence it returns is made of the
    containers docker listed that convert, followed by nothing when the
    legacy cleanup is done and by the sandboxes [ListLegacyPodSandbox]
    answers for the filter when it is not; when the filter asks for the state
    not-ready no sandbox of the first part is ready, and otherwise all the
    converted ones are there. *)
Theorem ListPodSandbox_filtered (filter : runtimeapi.PodSandboxFilter.t) (w : W) :
  let listing := client (ListContainers (ListPodSandbox_options (Some filter)).1) in
  let notReady := asks_not_ready filter in
  let w1 := (h listing w).2 in
  let cleanup := h (shim legacyCleanup_Done) w1 in
  let '(out, w', t) := run h (ListPodSandbox (Some filter)) w in
  Forall (λ o, is_checkpoint_call o = false) (calls t) ∧
  (length t ≤ 3)%nat ∧
  ∀ result,
    out = Returned (ok result) →
    ∃ containers legacy,
      (h listing w).1 = ok containers ∧
      result = kept notReady containers ++ legacy ∧
      (if cleanup.1 then legacy = []
       else (h (shim (ListLegacyPodSandbox (Some filter))) cleanup.2).1 = ok legacy) ∧
      (notReady = true →
       Forall (λ s, runtimeapi.PodSandbox.State s =
                      runtimeapi.PodSandboxState_SANDBOX_NOTREADY)
         (kept notReady containers)) ∧
      (notReady = false → kept notReady containers = converted containers).
Proof.
  intros listing notReady w1 cleanup. subst listing notReady w1 cleanup.
  pose proof (ListPodSandbox_filtered_run filter w) as Hrun. cbv zeta in Hrun.
  destruct (h (client _) w) as [r w1]. simpl in r. cbn [fst snd].
  destruct (h (shim legacyCleanup_Done) w1) as [isDone w2]. simpl in isDone.
  cbn [fst snd].
  destruct (h (shim (ListLegacyPodSandbox (Some filter))) w2) as [rl w3]. simpl in rl.
  rewrite Hrun. clear Hrun. cbn [fst snd].
  assert (Hkept : ∀ containers,
    (asks_not_ready filter = true →
     Forall (λ s, runtimeapi.PodSandbox.State s =
                    runtimeapi.PodSandboxState_SANDBOX_NOTREADY)
       (kept (asks_not_ready filter) containers)) ∧
    (asks_not_ready filter = false →
     kept (asks_not_ready filter) containers = converted containers)).
  { intros containers. split; intros ->; [apply kept_not_ready | apply kept_all]. }
  destruct r as [containers | err]; simpl.
  - destruct isDone; [| destruct rl as [legacy | err]]; simpl;
      (split; [by repeat constructor |]); (split; [lia |]); intros result [=]; subst.
    + exists containers, []. split; [done |]. split; [by rewrite app_nil_r |].
      split; [done |]. apply Hkept.
    + exists containers, legacy. split; [done |]. split; [done |].
      split; [done |]. apply Hkept.
  - split; [by repeat constructor |]. split; [lia |]. intros result [=].
Qed.

Lemma ListPodSandbox_checkpoints_calls sandboxIDs ids result w :
  Forall (λ o, is_checkpoint_call o = true)
    (calls (run h (ListPodSandbox_checkpoints sandboxIDs ids result) w).2).
Proof.
  revert result w. induction ids as [| id ids IH]; intros result w; simpl.
  - constructor.
  - destruct (sandboxIDs !! id); [apply IH |]. simpl.
    destruct (h (checkpointHandler (GetCheckpoint id)) w) as [[checkpoint cerr] w1].
    destruct checkpoint as [checkpoint |], cerr as [cerr |]; simpl.
    + destruct (is_CorruptCheckpointError cerr); simpl.
      * destruct (h (checkpointHandler (RemoveCheckpoint id)) w1) as [r w2].
        specialize (IH result w2).
        destruct (run h (ListPodSandbox_checkpoints sandboxIDs ids result) w2)
          as [[out w3] t].
        simpl. by repeat constructor.
      * specialize (IH result w1).
        destruct (run h (ListPodSandbox_checkpoints sandboxIDs ids result) w1)
          as [[out w3] t].
        simpl. by repeat constructor.
    + specialize (IH (result ++ [checkpointToRuntimeAPISandbox id checkpoint]) w1).
      destruct (run h (ListPodSandbox_checkpoints sandboxIDs ids _) w1) as [[out w3] t].
      simpl. by repeat constructor.
    + destruct (is_CorruptCheckpointError cerr); simpl; [by repeat constructor |].
      specialize (IH result w1).
      destruct (run h (ListPodSandbox_checkpoints sandboxIDs ids result) w1)
        as [[out w3] t].
      simpl. by repeat constructor.
    + by repeat constructor.
Qed.

(** An unfiltered [ListPodSandbox] after a listing of docker that succeeded:
    the calls of the checkpoint handler, then the legacy path. *)
Lemma ListPodSandbox_unfiltered_run (w : W) containers w1 :
  h (client (ListContainers (ListPodSandbox_options None).1)) w = (ok containers, w1) →
  ∃ out w2 t1,
    Forall (λ o, is_checkpoint_call o = true) (calls t1) ∧
    let listing :=
      ev (client (ListContainers (ListPodSandbox_options None).1)) (ok containers) in
    run h (ListPodSandbox None) w =
      match out with
      | Panicked => (Panicked, w2, listing :: t1)
      | Returned result =>
          let '(isDone, w3) := h (shim legacyCleanup_Done) w2 in
          let '(rl, w4) := h (shim (ListLegacyPodSandbox None)) w3 in
          if isDone
          then (Returned (ok result), w3,
                listing :: t1 ++ [ev (shim legacyCleanup_Done) true])
          else
            (match rl with
             | fail err => Returned (fail err)
             | ok legacy => Returned (ok (result ++ legacy))
             end,
             w4,
             listing :: t1 ++ [ev (shim legacyCleanup_Done) false;
                               ev (shim (ListLegacyPodSandbox None)) rl])
      end.
Proof.
  intros Hlist. unfold ListPodSandbox.
  destruct (ListPodSandbox_options None) as [opts filterOut]. simpl in *.
  rewrite Hlist. simpl.
  destruct (ListPodSandbox_convert filterOut containers [] ∅) as [result0 sandboxIDs].
  simpl.
  destruct (h (checkpointHandler ListCheckpoints) w1) as [l w2]. simpl in l.
  match goal with
  | |- context [run h (Prog_mbind ?A ?B ?f ?p) w2] =>
      change (Prog_mbind A B f p) with (p ≫= f)
  end.
  rewrite run_bind.
  pose proof (ListPodSandbox_checkpoints_calls sandboxIDs l.1 result0 w2) as Hcalls.
  destruct (run h (ListPodSandbox_checkpoints sandboxIDs l.1 result0) w2)
    as [[out w3] t1].
  simpl in Hcalls.
  exists out, w3, (ev (checkpointHandler ListCheckpoints) l :: t1).
  split; [by constructor |].
  destruct out as [result |]; [| reflexivity].
  simpl.
  destruct (h (shim legacyCleanup_Done) w3) as [isDone w4]. simpl in isDone.
  destruct (h (shim (ListLegacyPodSandbox None)) w4) as [rl w5] eqn:Hlegacy.
  simpl in rl.
  destruct isDone; simpl; [reflexivity |].
  rewrite Hlegacy. by destruct rl.
Qed.

(** X5.  The first call of [ListPodSandbox] is the listing of docker, with
    the options made of the filter; the calls its statements make after it
    are calls of the checkpoint handler, the test of the legacy cleanup and
    [ListLegacyPodSandbox].  When the listing of docker fails its error is
    returned and no other call is made.  An error [ListPodSandbox] returns is
    the error of that listing or the error [ListLegacyPodSandbox] answered,
    which is then the last call: no failure of the checkpoint handler is ever
    returned.  A filtered call does not panic. *)
Theorem ListPodSandbox_failures (filter : option runtimeapi.PodSandboxFilter.t) (w : W) :
  let listing := client (ListContainers (ListPodSandbox_options filter).1) in
  let '(out, w1, t) := run h (ListPodSandbox filter) w in
  ∃ t',
    t = ev listing (h listing w).1 :: t' ∧
    Forall (λ o, is_listing_step o = true) (calls t') ∧
    (∀ err, (h listing w).1 = fail err → out = Returned (fail err) ∧ t' = []) ∧
    (∀ err,
       out = Returned (fail err) →
       ((h listing w).1 = fail err ∧ t' = []) ∨
       ∃ t0, t' = t0 ++ [ev (shim (ListLegacyPodSandbox filter)) (fail err)]) ∧
    (out = Panicked → filter = None).
Proof.
  intros listing. destruct filter as [filter |].
  - pose proof (ListPodSandbox_filtered_run filter w) as Hrun. cbv zeta in Hrun.
    subst listing.
    destruct (h (client _) w) as [r w1]. simpl in r.
    destruct (h (shim legacyCleanup_Done) w1) as [isDone w2].
    destruct (h (shim (ListLegacyPodSandbox (Some filter))) w2) as [rl w3].
    rewrite Hrun. clear Hrun.
    destruct r as [containers | err]; simpl.
    + destruct isDone; [| destruct rl as [legacy | err]]; simpl;
        eexists; (split; [reflexivity |]); (split; [by repeat constructor |]);
        (split; [by intros ? [=] |]); split; try done.
      intros ? [= <-]. right. by exists [ev (shim legacyCleanup_Done) false].
    + eexists. split; [reflexivity |]. split; [constructor |].
      split; [by intros ? [= <-] |]. split; [| done].
      intros ? [= <-]. by left.
  - subst listing.
    destruct (h (client (ListContainers (ListPodSandbox_options None).1)) w)
      as [r w1] eqn:Hlist.
    simpl in r. destruct r as [containers | err].
    + destruct (ListPodSandbox_unfiltered_run w containers w1 Hlist)
        as (out & w2 & t1 & Hcalls & Hrun).
      cbv zeta in Hrun. rewrite Hrun. clear Hrun.
      assert (Hsteps : ∀ t2,
        Forall (λ o, is_listing_step o = true) (calls t2) →
        Forall (λ o, is_listing_step o = true) (calls (t1 ++ t2))).
      { intros t2 Ht2. unfold calls. rewrite fmap_app. apply Forall_app. split; [| done].
        eapply Forall_impl; [exact Hcalls |]. by intros [] ?. }
      destruct out as [result |].
      * destruct (h (shim legacyCleanup_Done) w2) as [isDone w3].
        destruct (h (shim (ListLegacyPodSandbox None)) w3) as [rl w4].
        destruct isDone; [| destruct rl as [legacy | err]]; simpl;
          eexists; (split; [reflexivity |]);
          (split; [apply Hsteps; by repeat constructor |]);
          (split; [by intros ? [=] |]); split; try done.
        intros ? [= <-]. right. exists (t1 ++ [ev (shim legacyCleanup_Done) false]).
        by rewrite <- app_assoc.
      * simpl. eexists. split; [reflexivity |].
        split; [rewrite <- (app_nil_r t1); apply Hsteps; constructor |].
        split; [by intros ? [=] |]. done.
    + unfold ListPodSandbox.
      destruct (ListPodSandbox_options None) as [opts filterOut]. simpl in *.
      rewrite Hlist. simpl.
      eexists. split; [reflexivity |]. split; [constructor |].
      split; [by intros ? [= <-] |]. split; [| done].
      intros ? [= <-]. by left.
Qed.

End filtered_list.

Section list_over_store.
Context `{Helpers} {X : Type} (hX : Handler X).

(** X6.  Over the checkpoint store [ListPodSandbox] never panics, whatever
    the store holds and whatever the filter.  The store it leaves has nothing
    the store did not have, and every record that is no corrupted checkpoint
    is still there; with a filter the store is left as it was. *)
Theorem ListPodSandbox_store_safe
  (filter : option runtimeapi.PodSandboxFilter.t) (x : X) (store : Store.t) :
  let '(out, w1, t) := run (withStore hX) (ListPodSandbox filter) (x, store) in
  out ≠ Panicked ∧
  w1.2 ⊆ store ∧
  (∀ id stored,
     store !! id = Some stored → is_corrupt stored = false → w1.2 !! id = Some stored) ∧
  (is_Some filter → w1.2 = store).
Proof.
  destruct filter as [filter |].
  - pose proof (ListPodSandbox_filtered_run (withStore hX) filter (x, store)) as Hrun.
    cbv zeta in Hrun. simpl in Hrun.
    destruct (hX (client _) x) as [r x1]. simpl in r, Hrun.
    destruct (hX (shim legacyCleanup_Done) x1) as [isDone x2]. simpl in Hrun.
    destruct (hX (shim (ListLegacyPodSandbox (Some filter))) x2) as [rl x3].
    simpl in Hrun. rewrite Hrun. clear Hrun.
    destruct r as [containers | err]; [destruct isDone; [| destruct rl] |]; simpl; done.
  - pose proof (ListPodSandbox_store_run hX x store) as Hrun. cbv zeta in Hrun.
    destruct (hX (client _) x) as [r x1]. simpl in r.
    destruct (hX (shim legacyCleanup_Done) x1) as [isDone x2].
    destruct (hX (shim (ListLegacyPodSandbox None)) x2) as [rl x3].
    destruct Hrun as (t & ->).
    assert (Hswept : ∀ backend,
      swept backend store ⊆ store ∧
      ∀ id stored,
        store !! id = Some stored → is_corrupt stored = false →
        swept backend store !! id = Some stored).
    { intros backend. split; [apply map_filter_subseteq |].
      intros id stored Hid Hstored. rewrite swept_lookup, Hid. by destruct stored. }
    destruct r as [containers | err]; [destruct isDone; [| destruct rl] |]; simpl;
      (split; [done |]);
      try (destruct (Hswept (runtimeapi.PodSandbox.Id <$> converted containers))
             as [Hsub Hkeep];
           split; [exact Hsub |]; split; [exact Hkeep |]; by intros [? [=]]).
    split; [done |]. split; [done |]. by intros [? [=]].
Qed.

End list_over_store.

(** The fake docker lists the sandbox "s1", which is up, and the legacy path
    gives the sandbox "old": asked for the sandboxes that are not ready, the
    call returns "old" alone. *)
Lemma ListPodSandbox_filtered_witness :
  let filter :=
    runtimeapi.PodSandboxFilter.mk ""
      (Some runtimeapi.PodSandboxState_SANDBOX_NOTREADY) None in
  ∃ containers legacy,
    Fake.listed Fake.listing = ok containers ∧
    Fake.legacy Fake.listing = ok legacy ∧
    @kept Fake.helpers true containers = [] ∧
    run (Fake.docker Fake.listing) (@ListPodSandbox Fake.helpers (Some filter)) tt =
      (Returned (ok (@kept Fake.helpers true containers ++ legacy)), tt,
       (run (Fake.docker Fake.listing) (@ListPodSandbox Fake.helpers (Some filter)) tt).2).
Proof.
  intros filter.
  pose proof (@ListPodSandbox_filtered Fake.helpers _ (Fake.docker Fake.listing) filter tt)
    as Hfiltered.
  destruct (run (Fake.docker Fake.listing) (@ListPodSandbox Fake.helpers (Some filter)) tt)
    as [[out w1] t] eqn:Hrun.
  destruct Hfiltered as (_ & _ & Hresult).
  assert (Hout : ∃ result, out = Returned (ok result) ∧ Fake.legacy Fake.listing = ok result).
  { vm_compute in Hrun. injection Hrun as <- _ _. eauto. }
  destruct Hout as (result & -> & Hlegacy).
  destruct (Hresult result eq_refl) as (containers & legacy & Hlisted & Hparts & _).
  simpl in Hlisted. injection Hlisted as <-.
  exists [dockertypes.Container.mk "s1" ["web"%string] ∅ 0 "Up"], result.
  split; [reflexivity |]. split; [exact Hlegacy |]. split; [reflexivity |].
  destruct w1. reflexivity.
Defined.

(** The legacy listing fails: its error comes back, as the answer of the last
    call. *)
Lemma ListPodSandbox_failures_witness :
  let s :=
    {| Fake.pull := None; Fake.create := (None, None); Fake.start := None;
       Fake.stop := None; Fake.remove := None; Fake.inspect := fail Fake.notFound;
       Fake.listed := ok []; Fake.setup := None; Fake.teardown := None;
       Fake.status := (None, None);
       Fake.legacy_done := false; Fake.legacy := fail (Opaque "legacy") |} in
  ∃ t0,
    (run (Fake.docker s) (@ListPodSandbox Fake.helpers None) tt).2 =
      ev (client (ListContainers (@ListPodSandbox_options Fake.helpers None).1)) (ok [])
        :: t0 ++ [ev (shim (ListLegacyPodSandbox None)) (fail (Opaque "legacy"))].
Proof.
  intros s.
  pose proof (@ListPodSandbox_failures Fake.helpers _ (Fake.docker s) None tt) as Hfailures.
  cbv zeta in Hfailures.
  destruct (run (Fake.docker s) (@ListPodSandbox Fake.helpers None) tt)
    as [[out w1] t] eqn:Hrun.
  destruct Hfailures as (t' & -> & _ & _ & Herr & _).
  assert (Hout : out = Returned (fail (Opaque "legacy"))).
  { vm_compute in Hrun. by injection Hrun as <- _ _. }
  destruct (Herr _ Hout) as [[Hlisted _] | (t0 & ->)]; [discriminate Hlisted |].
  by exists t0.
Defined.

(** A filtered listing over the fake store, which holds a corrupted
    checkpoint: the store is left as it was. *)
Lemma ListPodSandbox_store_safe_witness :
  (run (withStore (Fake.docker Fake.listing))
     (@ListPodSandbox Fake.helpers
        (Some (runtimeapi.PodSandboxFilter.mk "" None None)))
     (tt, Fake.store)).1.2.2 = Fake.store.
Proof.
  pose proof (@ListPodSandbox_store_safe Fake.helpers _ (Fake.docker Fake.listing)
                (Some (runtimeapi.PodSandboxFilter.mk "" None None)) tt Fake.store)
    as Hsafe.
  destruct (run _ _ _) as [[out w1] t].
  destruct Hsafe as (_ & _ & _ & Hsame). apply Hsame. eauto.
Defined.

Section config_properties.
Context `{Helpers} (ds : dockerService) {W : Type} (h : Handler W).

Lemma setSandboxResources_fields hc :
  let hc' := setSandboxResources hc in
  dockercontainer.HostConfig.Resources hc' =
    dockercontainer.Resources.mk DefaultMemorySwap defaultSandboxCPUshares ∧
  dockercontainer.HostConfig.OomScoreAdj hc' = PodInfraOOMAdj ∧
  dockercontainer.HostConfig.PortBindings hc' = dockercontainer.HostConfig.PortBindings hc ∧
  dockercontainer.HostConfig.DNS hc' = dockercontainer.HostConfig.DNS hc ∧
  dockercontainer.HostConfig.DNSSearch hc' = dockercontainer.HostConfig.DNSSearch hc ∧
  dockercontainer.HostConfig.DNSOptions hc' = dockercontainer.HostConfig.DNSOptions hc ∧
  dockercontainer.HostConfig.SecurityOpt hc' = dockercontainer.HostConfig.SecurityOpt hc.
Proof. by destruct hc. Qed.

Lemma configured_fields c config0 hc0 securityOpts :
  let ports := makePortsAndBindings (runtimeapi.PodSandboxConfig.GetPortMappings c) in
  let config :=
    dockertypes.ContainerCreateConfig.Config (configured c config0 hc0 securityOpts) in
  let hc :=
    dockertypes.ContainerCreateConfig.HostConfig (configured c config0 hc0 securityOpts) in
  dockertypes.ContainerCreateConfig.Name (configured c config0 hc0 securityOpts) =
    makeSandboxName c ∧
  dockercontainer.Config.ExposedPorts config = ports.1 ∧
  dockercontainer.Config.Hostname config = dockercontainer.Config.Hostname config0 ∧
  dockercontainer.Config.Image config = dockercontainer.Config.Image config0 ∧
  dockercontainer.Config.Labels config = dockercontainer.Config.Labels config0 ∧
  dockercontainer.HostConfig.PortBindings hc = ports.2 ∧
  dockercontainer.HostConfig.Resources hc =
    dockercontainer.Resources.mk DefaultMemorySwap defaultSandboxCPUshares ∧
  dockercontainer.HostConfig.OomScoreAdj hc = PodInfraOOMAdj ∧
  dockercontainer.HostConfig.SecurityOpt hc =
    dockercontainer.HostConfig.SecurityOpt hc0 ++ securityOpts ∧
  dockercontainer.HostConfig.NetworkMode hc = dockercontainer.HostConfig.NetworkMode hc0 ∧
  dockercontainer.HostConfig.CgroupParent hc = dockercontainer.HostConfig.CgroupParent hc0 ∧
  dockercontainer.HostConfig.Sysctls hc = dockercontainer.HostConfig.Sysctls hc0 ∧
  match runtimeapi.PodSandboxConfig.GetDnsConfig c with
  | Some dnsConfig =>
      dockercontainer.HostConfig.DNS hc = runtimeapi.DNSConfig.Servers dnsConfig ∧
      dockercontainer.HostConfig.DNSSearch hc = runtimeapi.DNSConfig.Searches dnsConfig ∧
      dockercontainer.HostConfig.DNSOptions hc = runtimeapi.DNSConfig.Options dnsConfig
  | None =>
      dockercontainer.HostConfig.DNS hc = dockercontainer.HostConfig.DNS hc0 ∧
      dockercontainer.HostConfig.DNSSearch hc = dockercontainer.HostConfig.DNSSearch hc0 ∧
      dockercontainer.HostConfig.DNSOptions hc = dockercontainer.HostConfig.DNSOptions hc0
  end.
Proof.
  unfold configured. destruct hc0, config0.
  by destruct (runtimeapi.PodSandboxConfig.GetDnsConfig c) as [[] |].
Qed.

(** A run of [makeSandboxDockerConfig] that gives a configuration: the
    version docker answered, the configuration and the host configuration
    before line 453, and the security options. *)
Lemma makeSandboxDockerConfig_ok c image w createConfig w1 t :
  run h (makeSandboxDockerConfig ds c image) w = (Returned (ok createConfig), w1, t) →
  ∃ apiVersion t' sysctls config0 hc0 securityOpts,
    t = ev (shim getDockerAPIVersion) (ok apiVersion) :: t' ∧
    getSysctlsFromAnnotations (runtimeapi.PodSandboxConfig.Annotations c) = ok sysctls ∧
    getSandboxSecurityOpts c (seccompProfileRoot ds) (getSecurityOptSeparator apiVersion) =
      ok securityOpts ∧
    (runtimeapi.PodSandboxConfig.GetLinux c = None →
     t' = [] ∧
     config0 =
       dockercontainer.Config.mk (runtimeapi.PodSandboxConfig.Hostname c) image
         (<[KubernetesContainerNameLabel := sandboxContainerName]>
            (<[containerTypeLabelKey := containerTypeLabelSandbox]>
               (makeLabels (runtimeapi.PodSandboxConfig.GetLabels c)
                  (runtimeapi.PodSandboxConfig.GetAnnotations c)))) ∅ ∧
     hc0 = dockercontainer.HostConfig.set_Sysctls sysctls dockercontainer.HostConfig.zero) ∧
    createConfig = configured c config0 hc0 securityOpts.
Proof.
  unfold makeSandboxDockerConfig. simpl.
  destruct (h (shim getDockerAPIVersion) w) as [r w0]. simpl in r.
  destruct r as [apiVersion | e]; simpl; [| intros [=]].
  destruct (getSysctlsFromAnnotations _) as [sysctls | e]; simpl; [| intros [=]].
  destruct (runtimeapi.PodSandboxConfig.GetLinux c) as [lc |]; simpl.
  - unfold applySandboxLinuxOptions. simpl.
    destruct (h (shim (GenerateExpectedCgroupParent _)) w0) as [r w2]. simpl in r.
    destruct r as [cgroupParent | e]; simpl; [| intros [=]].
    destruct (h (shim (applySandboxSecurityContext _ _ _ _)) w2) as [[config0 hc0] w3].
    simpl.
    destruct (makePortsAndBindings _) as [exposedPorts portBindings] eqn:Hports. simpl.
    destruct (getSandboxSecurityOpts _ _ _) as [securityOpts | e] eqn:Hopts; simpl;
      [| intros [=]].
    intros [= <- <- <-].
    eexists apiVersion, _, sysctls, config0, hc0, securityOpts.
    split; [reflexivity |]. split; [reflexivity |]. split; [exact Hopts |].
    split; [intros [=] |]. unfold configured. by rewrite Hports.
  - destruct (makePortsAndBindings _) as [exposedPorts portBindings] eqn:Hports. simpl.
    destruct (getSandboxSecurityOpts _ _ _) as [securityOpts | e] eqn:Hopts; simpl;
      [| intros [=]].
    intros [= <- <- <-].
    eexists apiVersion, _, sysctls, _, _, securityOpts.
    split; [reflexivity |]. split; [reflexivity |]. split; [exact Hopts |].
    split; [intros _; split; [reflexivity |]; split; reflexivity |].
    unfold configured. by rewrite Hports.
Qed.

(** X7.  The configuration [makeSandboxDockerConfig] gives has the name
    [makeSandboxName] makes, the exposed ports and port bindings of
    [makePortsAndBindings], the resources of a sandbox (the default memory
    swap, two CPU shares), the OOM score adjustment of the pod infrastructure
    container and, when the sandbox configuration has a DNS configuration,
    its servers, searches and options, whatever the security context wrote
    into the configuration before.  The security options of
    [getSandboxSecurityOpts], computed with the separator of the version
    docker answered in the first call, are at the end of its security
    options. *)
Theorem makeSandboxDockerConfig_shape
  (c : runtimeapi.PodSandboxConfig.t) (image : string) (w : W)
  (createConfig : dockertypes.ContainerCreateConfig.t) (w1 : W) (t : list Event) :
  run h (makeSandboxDockerConfig ds c image) w = (Returned (ok createConfig), w1, t) →
  let config := dockertypes.ContainerCreateConfig.Config createConfig in
  let hc := dockertypes.ContainerCreateConfig.HostConfig createConfig in
  let ports := makePortsAndBindings (runtimeapi.PodSandboxConfig.GetPortMappings c) in
  dockertypes.ContainerCreateConfig.Name createConfig = makeSandboxName c ∧
  dockercontainer.Config.ExposedPorts config = ports.1 ∧
  dockercontainer.HostConfig.PortBindings hc = ports.2 ∧
  dockercontainer.HostConfig.Resources hc = dockercontainer.Resources.mk DefaultMemorySwap 2 ∧
  dockercontainer.HostConfig.OomScoreAdj hc = PodInfraOOMAdj ∧
  (∀ dnsConfig,
     runtimeapi.PodSandboxConfig.GetDnsConfig c = Some dnsConfig →
     dockercontainer.HostConfig.DNS hc = runtimeapi.DNSConfig.Servers dnsConfig ∧
     dockercontainer.HostConfig.DNSSearch hc = runtimeapi.DNSConfig.Searches dnsConfig ∧
     dockercontainer.HostConfig.DNSOptions hc = runtimeapi.DNSConfig.Options dnsConfig) ∧
  ∃ apiVersion securityOpts,
    head t = Some (ev (shim getDockerAPIVersion) (ok apiVersion)) ∧
    getSandboxSecurityOpts c (seccompProfileRoot ds) (getSecurityOptSeparator apiVersion) =
      ok securityOpts ∧
    securityOpts `suffix_of` dockercontainer.HostConfig.SecurityOpt hc.
Proof.
  intros Hrun.
  destruct (makeSandboxDockerConfig_ok _ _ _ _ _ _ Hrun)
    as (apiVersion & t' & sysctls & config0 & hc0 & securityOpts & -> & _ & Hopts & _ & ->).
  destruct (configured_fields c config0 hc0 securityOpts)
    as (Hname & Hexposed & _ & _ & _ & Hbindings & Hres & Hoom & Hsec & _ & _ & _ & Hdns).
  cbv zeta.
  split; [exact Hname |]. split; [exact Hexposed |]. split; [exact Hbindings |].
  split; [exact Hres |]. split; [exact Hoom |]. split.
  - intros dnsConfig Hsome. rewrite Hsome in Hdns. exact Hdns.
  - exists apiVersion, securityOpts. split; [reflexivity |]. split; [exact Hopts |].
    rewrite Hsec. by apply suffix_app_r.
Qed.

(** X8.  For a sandbox configuration without Linux options
    [makeSandboxDockerConfig] makes one call, the query of the version of
    docker.  The configuration it gives has the hostname of the sandbox
    configuration and the image; its labels are those [makeLabels] makes of
    the labels and annotations, with the name of the sandbox container under
    the container name label and, if that is another key, the sandbox type
    under the type label.  The network mode and the cgroup parent are empty,
    the sysctls are those of the annotations, and the security options are
    those of [getSandboxSecurityOpts] and no other. *)
Theorem makeSandboxDockerConfig_plain
  (c : runtimeapi.PodSandboxConfig.t) (image : string) (w : W) :
  runtimeapi.PodSandboxConfig.GetLinux c = None →
  let '(out, w1, t) := run h (makeSandboxDockerConfig ds c image) w in
  t = [ev (shim getDockerAPIVersion) (h (shim getDockerAPIVersion) w).1] ∧
  w1 = (h (shim getDockerAPIVersion) w).2 ∧
  ∀ createConfig,
    out = Returned (ok createConfig) →
    let config := dockertypes.ContainerCreateConfig.Config createConfig in
    let hc := dockertypes.ContainerCreateConfig.HostConfig createConfig in
    let labels :=
      makeLabels (runtimeapi.PodSandboxConfig.GetLabels c)
        (runtimeapi.PodSandboxConfig.GetAnnotations c) in
    dockercontainer.Config.Hostname config = runtimeapi.PodSandboxConfig.Hostname c ∧
    dockercontainer.Config.Image config = image ∧
    dockercontainer.Config.Labels config !! KubernetesContainerNameLabel =
      Some sandboxContainerName ∧
    (containerTypeLabelKey ≠ KubernetesContainerNameLabel →
     dockercontainer.Config.Labels config !! containerTypeLabelKey =
       Some containerTypeLabelSandbox) ∧
    (∀ key,
       key ≠ KubernetesContainerNameLabel → key ≠ containerTypeLabelKey →
       dockercontainer.Config.Labels config !! key = labels !! key) ∧
    dockercontainer.HostConfig.NetworkMode hc = "" ∧
    dockercontainer.HostConfig.CgroupParent hc = "" ∧
    getSysctlsFromAnnotations (runtimeapi.PodSandboxConfig.Annotations c) =
      ok (dockercontainer.HostConfig.Sysctls hc) ∧
    ∃ apiVersion,
      (h (shim getDockerAPIVersion) w).1 = ok apiVersion ∧
      getSandboxSecurityOpts c (seccompProfileRoot ds) (getSecurityOptSeparator apiVersion) =
        ok (dockercontainer.HostConfig.SecurityOpt hc).
Proof.
  intros Hlinux.
  destruct (run h (makeSandboxDockerConfig ds c image) w) as [[out w1] t] eqn:Hrun.
  assert (Hcall :
    t = [ev (shim getDockerAPIVersion) (h (shim getDockerAPIVersion) w).1] ∧
    w1 = (h (shim getDockerAPIVersion) w).2).
  { revert Hrun. unfold makeSandboxDockerConfig. simpl. rewrite Hlinux.
    destruct (h (shim getDockerAPIVersion) w) as [r w0]. simpl in r.
    destruct r as [apiVersion | e]; simpl; [| by intros [= _ <- <-]].
    destruct (getSysctlsFromAnnotations _) as [sysctls | e]; simpl;
      [| by intros [= _ <- <-]].
    destruct (makePortsAndBindings _) as [exposedPorts portBindings]. simpl.
    destruct (getSandboxSecurityOpts _ _ _) as [securityOpts | e]; simpl;
      by intros [= _ <- <-]. }
  destruct Hcall as [Ht Hw]. split; [exact Ht |]. split; [exact Hw |].
  intros createConfig ->.
  destruct (makeSandboxDockerConfig_ok _ _ _ _ _ _ Hrun)
    as (apiVersion & t' & sysctls & config0 & hc0 & securityOpts
        & Ht' & Hsysctls & Hopts & Hplain & ->).
  destruct (Hplain Hlinux) as (_ & -> & ->).
  match goal with
  | |- context [configured c ?config0 ?hc0 securityOpts] =>
      destruct (configured_fields c config0 hc0 securityOpts)
        as (_ & _ & Hhost & Himage & Hlabels & _ & _ & _ & Hsec & Hmode & Hcgroup & Hsys & _)
  end.
  cbv zeta.
  rewrite Hhost, Himage, Hlabels, Hsec, Hmode, Hcgroup, Hsys. simpl.
  split; [reflexivity |]. split; [reflexivity |].
  split; [by rewrite lookup_insert_eq |].
  split; [intros Hne; by rewrite lookup_insert_ne, lookup_insert_eq |].
  split; [intros key Hname Htype; by rewrite !lookup_insert_ne |].
  split; [reflexivity |]. split; [reflexivity |]. split; [exact Hsysctls |].
  exists apiVersion. split; [| exact Hopts].
  rewrite Ht in Ht'.
  apply (f_equal (λ t, head t ≫= λ e,
           let '(existT o r) := e in
           match o return Resp o → option (result string) with
           | shim getDockerAPIVersion => λ r, Some r
           | _ => λ _, None
           end r)) in Ht'.
  simpl in Ht'. by injection Ht' as ->.
Qed.

Lemma makeSandboxDockerConfig_calls c image w :
  let t := (run h (makeSandboxDockerConfig ds c image) w).2 in
  Forall (λ o, is_config_call o = true) (calls t) ∧ (length t ≤ 3)%nat.
Proof.
  unfold makeSandboxDockerConfig. simpl.
  destruct (h (shim getDockerAPIVersion) w) as [r w0]. simpl in r.
  destruct r as [apiVersion | e]; simpl; [| split; [by repeat constructor | lia]].
  destruct (getSysctlsFromAnnotations _) as [sysctls | e]; simpl;
    [| split; [by repeat constructor | lia]].
  destruct (runtimeapi.PodSandboxConfig.GetLinux c) as [lc |]; simpl.
  - unfold applySandboxLinuxOptions. simpl.
    destruct (h (shim (GenerateExpectedCgroupParent _)) w0) as [r w2]. simpl in r.
    destruct r as [cgroupParent | e]; simpl; [| split; [by repeat constructor | lia]].
    destruct (h (shim (applySandboxSecurityContext _ _ _ _)) w2) as [[config0 hc0] w3].
    simpl.
    destruct (makePortsAndBindings _) as [exposedPorts portBindings]. simpl.
    destruct (getSandboxSecurityOpts _ _ _) as [securityOpts | e]; simpl;
      (split; [by repeat constructor | lia]).
  - destruct (makePortsAndBindings _) as [exposedPorts portBindings]. simpl.
    destruct (getSandboxSecurityOpts _ _ _) as [securityOpts | e]; simpl;
      (split; [by repeat constructor | lia]).
Qed.

End config_properties.
(** In the fake world the sandbox "web" gets the name "web", two CPU shares
    and the OOM score adjustment -998. *)
Lemma makeSandboxDockerConfig_shape_witness :
  ∃ createConfig t,
    run (Fake.docker Fake.quiet)
      (@makeSandboxDockerConfig Fake.helpers Fake.service (Fake.config false) "pause") tt =
      (Returned (ok createConfig), tt, t) ∧
    dockertypes.ContainerCreateConfig.Name createConfig = "web"%string ∧
    dockercontainer.HostConfig.Resources
      (dockertypes.ContainerCreateConfig.HostConfig createConfig) =
      dockercontainer.Resources.mk 0 2 ∧
    dockercontainer.HostConfig.OomScoreAdj
      (dockertypes.ContainerCreateConfig.HostConfig createConfig) = -998.
Proof.
  assert (Hrun : ∃ createConfig t,
    run (Fake.docker Fake.quiet)
      (@makeSandboxDockerConfig Fake.helpers Fake.service (Fake.config false) "pause") tt =
      (Returned (ok createConfig), tt, t))
    by (eexists; eexists; reflexivity).
  destruct Hrun as (createConfig & t & Hrun). exists createConfig, t.
  destruct (@makeSandboxDockerConfig_shape Fake.helpers Fake.service _
              (Fake.docker Fake.quiet) _ _ _ _ _ _ Hrun)
    as (Hname & _ & _ & Hres & Hoom & _).
  split; [exact Hrun |]. split; [exact Hname |]. split; [exact Hres | exact Hoom].
Defined.

(** A sandbox configuration without Linux options: the labels of the
    container tell that it is a sandbox and that its container is "POD". *)
Lemma makeSandboxDockerConfig_plain_witness :
  let c :=
    runtimeapi.PodSandboxConfig.mk
      (runtimeapi.PodSandboxMetadata.mk "web" "uid" "default" 0)
      "web" "" None [] ∅ ∅ None in
  ∃ createConfig,
    run (Fake.docker Fake.quiet)
      (@makeSandboxDockerConfig Fake.helpers Fake.service c "pause") tt =
      (Returned (ok createConfig), tt, [ev (shim getDockerAPIVersion) (ok "1.24"%string)]) ∧
    dockercontainer.Config.Labels (dockertypes.ContainerCreateConfig.Config createConfig)
      !! "io.kubernetes.container.name"%string = Some "POD"%string ∧
    dockercontainer.Config.Labels (dockertypes.ContainerCreateConfig.Config createConfig)
      !! "io.kubernetes.docker.type"%string = Some "podsandbox"%string ∧
    dockercontainer.Config.Image (dockertypes.ContainerCreateConfig.Config createConfig) =
      "pause"%string.
Proof.
  intros c.
  pose proof (@makeSandboxDockerConfig_plain Fake.helpers Fake.service _
                (Fake.docker Fake.quiet) c "pause" tt eq_refl) as Hplain.
  destruct (run (Fake.docker Fake.quiet)
              (@makeSandboxDockerConfig Fake.helpers Fake.service c "pause") tt)
    as [[out w1] t] eqn:Hrun.
  destruct Hplain as (-> & -> & Hfields).
  assert (Hout : ∃ createConfig, out = Returned (ok createConfig)).
  { assert (Hrun' : ∃ createConfig t,
      run (Fake.docker Fake.quiet)
        (@makeSandboxDockerConfig Fake.helpers Fake.service c "pause") tt =
        (Returned (ok createConfig), tt, t))
      by (eexists; eexists; reflexivity).
    destruct Hrun' as (createConfig & t & Hrun'). rewrite Hrun' in Hrun.
    injection Hrun as <- _. eauto. }
  destruct Hout as (createConfig & ->). exists createConfig.
  destruct (Hfields createConfig eq_refl) as (_ & Himage & Hname & Htype & _).
  split; [reflexivity |]. split; [exact Hname |].
  split; [apply Htype; discriminate | exact Himage].
Defined.

Section run_steps.
Context `{Helpers} (ds : dockerService) {W : Type} (h : Handler W).

#[local] Opaque makeSandboxDockerConfig RunPodSandbox_created.

(** [RunPodSandbox], step by step. *)
Lemma RunPodSandbox_steps config w :
  let image := sandboxImage ds in
  let name :=
    runtimeapi.PodSandboxMetadata.Name (runtimeapi.PodSandboxConfig.Metadata config) in
  let pull := client (PullImage image) in
  let '(perr, w1) := h pull w in
  let '(rc, w2, tc) := run h (makeSandboxDockerConfig ds config image) w1 in
  run h (RunPodSandbox ds config) w =
    match perr with
    | Some err =>
        (Returned ("", Some (Errorf "unable to pull image for the sandbox container: %v"
                               [] (Some err))),
         w1, [ev pull (Some err)])
    | None =>
        match rc with
        | Panicked => (Panicked, w2, ev pull None :: tc)
        | Returned (fail err) =>
            (Returned ("", Some (Errorf "failed to make sandbox docker config for pod %q: %v"
                                   [name] (Some err))),
             w2, ev pull None :: tc)
        | Returned (ok createConfig) =>
            let create := client (CreateContainer createConfig) in
            let '(r, w3) := h create w2 in
            let '(r', w4, tr) :=
              match r.2 with
              | Some err =>
                  let recover :=
                    shim (recoverFromCreationConflictIfNeeded createConfig err) in
                  let '(r', w4) := h recover w3 in
                  (r', w4, [ev recover r'])
              | None => ((r.1, None), w3, [])
              end in
            match r' with
            | (Some createResp, None) =>
                let '(out, w5, tl) := run h (RunPodSandbox_created config createResp) w4 in
                (out, w5, ev pull None :: tc ++ ev create r :: tr ++ tl)
            | (_, err) =>
                (Returned ("", Some (Errorf "failed to create a sandbox for pod %q: %v"
                                       [name] err)),
                 w4, ev pull None :: tc ++ ev create r :: tr)
            end
        end
    end.
Proof.
  intros image name pull. subst image name pull.
  unfold RunPodSandbox. simpl. run_step h.
  destruct r as [e |]; simpl.
  { by destruct (run h (makeSandboxDockerConfig ds config (sandboxImage ds)) w0)
      as [[rc w2] tc]. }
  rewrite run_bind.
  destruct (run h (makeSandboxDockerConfig ds config (sandboxImage ds)) w0)
    as [[rc w2] tc].
  destruct rc as [[createConfig | e] |]; simpl; [| by rewrite app_nil_r | done].
  run_step h. destruct r as [[createResp |] [e |]]; simpl.
  - run_step h. destruct r as [[createResp' |] [e' |]]; simpl; try done.
    destruct (run h (RunPodSandbox_created _ _) _) as [[out w4] t4]. done.
  - destruct (run h (RunPodSandbox_created _ _) _) as [[out w4] t4]. done.
  - run_step h. destruct r as [[createResp' |] [e' |]]; simpl; try done.
    destruct (run h (RunPodSandbox_created _ _) _) as [[out w4] t4]. done.
  - done.
Qed.

Lemma sandboxImage_default :
  sandboxImage ds =
    if decide (podSandboxImage ds = "") then defaultSandboxImage else podSandboxImage ds.
Proof. unfold sandboxImage. by destruct (podSandboxImage ds). Qed.

Lemma calls_app (t1 t2 : list Event) : calls (t1 ++ t2) = calls t1 ++ calls t2.
Proof. apply fmap_app. Qed.

Lemma filter_calls_none (f : Op → bool) (l : list Op) :
  Forall (λ o, f o = false) l → filter (λ o, f o = true) l = [].
Proof.
  induction 1 as [| o l Ho _ IH]; [done |].
  rewrite filter_cons, decide_False by congruence. exact IH.
Qed.

Lemma config_calls_run (l : list Op) :
  Forall (λ o, is_config_call o = true) l →
  Forall (λ o, is_run_step o = true) l ∧ Forall (λ o, is_creation_step o = false) l.
Proof.
  intros Hl. split; (eapply Forall_impl; [exact Hl |]); by intros [[] | [] | [] | []].
Qed.

Lemma later_calls_run (l : list Op) :
  Forall (λ o, is_later_call o = true) l →
  Forall (λ o, is_run_step o = true) l ∧ Forall (λ o, is_creation_step o = false) l.
Proof.
  intros Hl. split; (eapply Forall_impl; [exact Hl |]); by intros [[] | [] | [] | []].
Qed.

#[local] Transparent makeSandboxDockerConfig RunPodSandbox_created.

End run_steps.

(** The leaves of [RunPodSandbox_steps]. *)
Ltac run_leaves ds h config w Hconfig Hcreated :=
  let Hsteps := fresh "Hsteps" in
  pose proof (RunPodSandbox_steps ds h config w) as Hsteps; cbv zeta in Hsteps;
  let perr := fresh "perr" in
  let w1 := fresh "w1" in
  let Hpull := fresh "Hpull" in
  destruct (h (client (PullImage (sandboxImage ds))) w) as [perr w1] eqn:Hpull;
  simpl in perr;
  let rc := fresh "rc" in
  let w2 := fresh "w2" in
  let tc := fresh "tc" in
  destruct (run h (makeSandboxDockerConfig ds config (sandboxImage ds)) w1)
    as [[rc w2] tc] eqn:Hconfig;
  let e := fresh "e" in
  let createConfig := fresh "createConfig" in
  let Hcreate := fresh "Hcreate" in
  let Hrecover := fresh "Hrecover" in
  destruct perr as [e |];
    [| destruct rc as [[createConfig | e] |];
       [let r := fresh "r" in
        let w3 := fresh "w3" in
        let createResp := fresh "createResp" in
        destruct (h (client (CreateContainer createConfig)) w2) as [r w3] eqn:Hcreate;
        simpl in r; destruct r as [[createResp |] [e |]];
        cbv beta iota zeta delta [fst snd] in Hsteps;
        [let r' := fresh "r'" in
         let w4 := fresh "w4" in
         let createResp' := fresh "createResp'" in
         destruct (h (shim (recoverFromCreationConflictIfNeeded createConfig e)) w3)
           as [r' w4] eqn:Hrecover;
         simpl in r'; destruct r' as [[createResp' |] [? |]];
         cbv beta iota zeta delta [fst snd] in Hsteps
        | |
         let r' := fresh "r'" in
         let w4 := fresh "w4" in
         let createResp' := fresh "createResp'" in
         destruct (h (shim (recoverFromCreationConflictIfNeeded createConfig e)) w3)
           as [r' w4] eqn:Hrecover;
         simpl in r'; destruct r' as [[createResp' |] [? |]];
         cbv beta iota zeta delta [fst snd] in Hsteps
        |]
       | |]];
  try match type of Hsteps with
      | context [run h (RunPodSandbox_created config ?createResp) ?w4] =>
          let out := fresh "out" in
          let w5 := fresh "w5" in
          let tl := fresh "tl" in
          destruct (run h (RunPodSandbox_created config createResp) w4)
            as [[out w5] tl] eqn:Hcreated
      end;
  rewrite Hsteps; clear Hsteps.

Section run_calls.
Context `{Helpers} (ds : dockerService) {W : Type} (h : Handler W).

#[local] Opaque makeSandboxDockerConfig RunPodSandbox_created.

(** X9.  The first call of [RunPodSandbox] pulls the image of the service,
    or the default image of a sandbox when the service has none; when the
    pull fails nothing else is called and the error says so.  The calls the
    statements of [RunPodSandbox] make are the pull, the calls of the docker
    configuration, the two statements of the creation step and the later
    steps: no statement of [RunPodSandbox] stops or removes a container,
    tears down a network or removes a checkpoint, so a step that fails is not
    rolled back by it.  The statement that calls [CreateContainer] runs once
    at most, and the hand-over to the recovery once at most, after it and
    with the same configuration.  The recovery is one event: what it asks
    docker is not covered. *)
Theorem RunPodSandbox_calls (config : runtimeapi.PodSandboxConfig.t) (w : W) :
  let image :=
    if decide (podSandboxImage ds = "") then defaultSandboxImage else podSandboxImage ds in
  let pull := client (PullImage image) in
  let '(out, w', t) := run h (RunPodSandbox ds config) w in
  (∃ t',
     t = ev pull (h pull w).1 :: t' ∧
     ∀ err,
       (h pull w).1 = Some err →
       t' = [] ∧
       out = Returned ("", Some (Errorf "unable to pull image for the sandbox container: %v"
                                   [] (Some err)))) ∧
  Forall (λ o, is_run_step o = true) (calls t) ∧
  ∃ createConfig err,
    filter (λ o, is_creation_step o = true) (calls t)
      `prefix_of` [client (CreateContainer createConfig);
                   shim (recoverFromCreationConflictIfNeeded createConfig err)].
Proof.
  rewrite <- sandboxImage_default. cbv zeta.
  set (none :=
    dockertypes.ContainerCreateConfig.mk ""
      (dockercontainer.Config.mk "" "" ∅ ∅) dockercontainer.HostConfig.zero).
  run_leaves ds h config w Hconfig Hcreated; simpl;
    (split; [eexists; split; [reflexivity |]; intros ? [=]; by subst |]);
    try (split; [by repeat constructor |];
         exists none, CheckpointNotFoundError; apply prefix_nil).
  all: pose proof (makeSandboxDockerConfig_calls ds h config (sandboxImage ds) w1) as Hc;
    rewrite Hconfig in Hc; simpl in Hc; destruct Hc as [Hc _];
    apply config_calls_run in Hc as [Hrun Hnone];
    try match type of Hcreated with
        | run _ (RunPodSandbox_created ?c ?createResp) ?w4 = _ =>
            pose proof (RunPodSandbox_created_calls h c createResp w4) as Hl;
            rewrite Hcreated in Hl; simpl in Hl; destruct Hl as [_ Hl];
            apply later_calls_run in Hl as [Hlrun Hlnone]
        end.
  all: split;
    [constructor; [done |]; rewrite ?calls_app; try rewrite app_nil_r;
     repeat (apply Forall_app; split); try done; simpl;
     repeat (constructor; [done |]); try done |].
  all: try (exists none, CheckpointNotFoundError;
            rewrite filter_cons, decide_False by done;
            rewrite (filter_calls_none _ _ Hnone); apply prefix_nil).
  all: exists createConfig; try (exists e); try (exists CheckpointNotFoundError);
    rewrite filter_cons, decide_False by done;
    rewrite ?calls_app, ?filter_app, (filter_calls_none _ _ Hnone); simpl;
    rewrite ?filter_cons, ?decide_True by done;
    rewrite ?filter_cons, ?decide_True by done;
    try rewrite ?calls_app, ?filter_app; simpl;
    try rewrite (filter_calls_none _ _ Hlnone); simpl.
  all: try done.
  all: try (by eexists [_]).
  all: try (by exists []).
Qed.

Lemma not_elem_of_calls (f : Op → bool) (l : list Op) (o : Op) :
  Forall (λ o, f o = false) l → f o = true → o ∉ l.
Proof.
  intros Hl Ho Hin. rewrite Forall_forall in Hl. specialize (Hl o Hin). congruence.
Qed.

(** The configuration a successful [makeSandboxDockerConfig] hands to the
    creation. *)
Lemma makeSandboxDockerConfig_fields config image w1 createConfig w2 tc :
  run h (makeSandboxDockerConfig ds config image) w1 =
    (Returned (ok createConfig), w2, tc) →
  let cfg := dockertypes.ContainerCreateConfig.Config createConfig in
  let hc := dockertypes.ContainerCreateConfig.HostConfig createConfig in
  let ports := makePortsAndBindings (runtimeapi.PodSandboxConfig.GetPortMappings config) in
  dockertypes.ContainerCreateConfig.Name createConfig = makeSandboxName config ∧
  dockercontainer.HostConfig.Resources hc = dockercontainer.Resources.mk DefaultMemorySwap 2 ∧
  dockercontainer.HostConfig.OomScoreAdj hc = PodInfraOOMAdj ∧
  dockercontainer.Config.ExposedPorts cfg = ports.1 ∧
  dockercontainer.HostConfig.PortBindings hc = ports.2 ∧
  (runtimeapi.PodSandboxConfig.GetLinux config = None →
   dockercontainer.Config.Image cfg = image ∧
   dockercontainer.Config.Hostname cfg = runtimeapi.PodSandboxConfig.Hostname config ∧
   dockercontainer.Config.Labels cfg !! KubernetesContainerNameLabel =
     Some sandboxContainerName).
Proof.
  intros Hrun.
  destruct (makeSandboxDockerConfig_ok ds h _ _ _ _ _ _ Hrun)
    as (apiVersion & t' & sysctls & config0 & hc0 & securityOpts
        & _ & _ & _ & Hplain & ->).
  destruct (configured_fields config config0 hc0 securityOpts)
    as (Hname & Hexposed & Hhost & Himage & Hlabels & Hbindings & Hres & Hoom & _).
  cbv zeta.
  split; [exact Hname |]. split; [exact Hres |]. split; [exact Hoom |].
  split; [exact Hexposed |]. split; [exact Hbindings |].
  intros Hlinux. destruct (Hplain Hlinux) as (_ & -> & _).
  rewrite Himage, Hhost, Hlabels. simpl. by rewrite lookup_insert_eq.
Qed.

(** X10.  The configuration [RunPodSandbox] hands to [CreateContainer] at
    line 73 is the one [makeSandboxDockerConfig] made for the image of the
    sandbox: it has the name of [makeSandboxName], the resources and the OOM
    score adjustment of a sandbox, the ports of the sandbox configuration
    and, for a sandbox configuration without Linux options, the image, the
    hostname and the container name label.  The recovery from a creation
    conflict is handed this configuration too, with the error that
    [CreateContainer] answered.  A creation the recovery makes itself is
    not covered. *)
Theorem RunPodSandbox_creates (config : runtimeapi.PodSandboxConfig.t) (w : W) :
  let '(out, w', t) := run h (RunPodSandbox ds config) w in
  (∀ createConfig,
     client (CreateContainer createConfig) ∈ calls t →
     let cfg := dockertypes.ContainerCreateConfig.Config createConfig in
     let hc := dockertypes.ContainerCreateConfig.HostConfig createConfig in
     let ports :=
       makePortsAndBindings (runtimeapi.PodSandboxConfig.GetPortMappings config) in
     dockertypes.ContainerCreateConfig.Name createConfig = makeSandboxName config ∧
     dockercontainer.HostConfig.Resources hc =
       dockercontainer.Resources.mk DefaultMemorySwap 2 ∧
     dockercontainer.HostConfig.OomScoreAdj hc = PodInfraOOMAdj ∧
     dockercontainer.Config.ExposedPorts cfg = ports.1 ∧
     dockercontainer.HostConfig.PortBindings hc = ports.2 ∧
     (runtimeapi.PodSandboxConfig.GetLinux config = None →
      dockercontainer.Config.Image cfg = sandboxImage ds ∧
      dockercontainer.Config.Hostname cfg = runtimeapi.PodSandboxConfig.Hostname config ∧
      dockercontainer.Config.Labels cfg !! KubernetesContainerNameLabel =
        Some sandboxContainerName)) ∧
  (∀ createConfig err,
     shim (recoverFromCreationConflictIfNeeded createConfig err) ∈ calls t →
     ∃ createResp, ev (client (CreateContainer createConfig)) (createResp, Some err) ∈ t).
Proof.
  run_leaves ds h config w Hconfig Hcreated.
  all: pose proof (makeSandboxDockerConfig_calls ds h config (sandboxImage ds) w1) as Hc;
    rewrite Hconfig in Hc; simpl in Hc; destruct Hc as [Hc _];
    apply config_calls_run in Hc as [_ Hnone];
    try match type of Hcreated with
        | run _ (RunPodSandbox_created ?c ?createResp) ?w4 = _ =>
            pose proof (RunPodSandbox_created_calls h c createResp w4) as Hl;
            rewrite Hcreated in Hl; simpl in Hl; destruct Hl as [_ Hl];
            apply later_calls_run in Hl as [_ Hlnone]
        end.
  all: split;
    [intros cc Hin | intros cc err Hin];
    simpl in Hin; rewrite ?calls_app in Hin; simpl in Hin;
    repeat (first [apply elem_of_cons in Hin as [Hin | Hin]
                  | apply elem_of_app in Hin as [Hin | Hin]
                  | apply elem_of_nil in Hin; destruct Hin]);
    try discriminate Hin;
    try (by apply (not_elem_of_calls _ _ _ Hnone) in Hin);
    try (by apply (not_elem_of_calls _ _ _ Hlnone) in Hin).
  all: try (injection Hin as ->; by apply (makeSandboxDockerConfig_fields _ _ _ _ _ _ Hconfig)).
  all: injection Hin as -> ->; eexists; rewrite !elem_of_cons, !elem_of_app, !elem_of_cons;
    right; right; left; reflexivity.
Qed.

#[local] Transparent makeSandboxDockerConfig RunPodSandbox_created.

End run_calls.

Section stop_from_checkpoint.
Context `{Helpers} {W : Type} (h : Handler W).

(** [StopPodSandbox] when the status query fails and the checkpoint is
    found. *)
Lemma StopPodSandbox_from_checkpoint id w statusErr w1 t1 checkpoint w2 :
  run h (PodSandboxStatus id) w = (Returned (fail statusErr), w1, t1) →
  h (checkpointHandler (GetCheckpoint id)) w1 = ((Some checkpoint, None), w2) →
  run h (StopPodSandbox id) w =
    teardown_from h id true
      (PodSandboxCheckpoint.Namespace checkpoint) (PodSandboxCheckpoint.Name checkpoint)
      w2 (t1 ++ [ev (checkpointHandler (GetCheckpoint id)) (Some checkpoint, None)]).
Proof.
  intros Hstatus Hlookup.
  set (lookup := ev (checkpointHandler (GetCheckpoint id)) (Some checkpoint, None)).
  assert (Hteardown : ∀ namespace name,
    (let '(out, w3, t2) :=
       let '(out, w3, t) :=
         run h (StopPodSandbox_teardown id true namespace name) w2 in
       (out, w3, lookup :: t) in
     (out, w3, t1 ++ t2)) = teardown_from h id true namespace name w2 (t1 ++ [lookup])).
  { intros namespace name. rewrite StopPodSandbox_teardown_run.
    rewrite (teardown_from_before _ _ _ _ _ _ (t1 ++ _)).
    destruct (teardown_from _ _ _ _ _ _ _) as [[o w3] t3].
    by rewrite <- app_assoc. }
  unfold StopPodSandbox. rewrite run_bind, Hstatus. simpl. rewrite Hlookup.
  apply Hteardown.
Qed.

End stop_from_checkpoint.

Section run_over_store.
Context `{Helpers} (ds : dockerService) {X : Type} (hX : Handler X).

Lemma withStore_call_frame o (w : X * Store.t) r w' :
  withStore hX o w = (r, w') → is_store_update o = false → w'.2 = w.2.
Proof.
  destruct w as [x store].
  destruct o as [c | c | [] | c]; simpl; intros Hstep Ho; try discriminate;
    try (destruct (hX _ x) as [r' x'']; by injection Hstep as _ <-);
    by injection Hstep as _ <-.
Qed.

Lemma withStore_run_frame {A : Type} (p : Prog A) (w : X * Store.t) out w' t :
  run (withStore hX) p w = (out, w', t) →
  Forall (λ o, is_store_update o = false) (calls t) →
  w'.2 = w.2.
Proof. destruct w, w'. apply withStore_frame. Qed.

Lemma constructPodSandboxCheckpoint_names config :
  PodSandboxCheckpoint.Namespace (constructPodSandboxCheckpoint config) =
    runtimeapi.PodSandboxMetadata.Namespace (runtimeapi.PodSandboxConfig.Metadata config) ∧
  PodSandboxCheckpoint.Name (constructPodSandboxCheckpoint config) =
    runtimeapi.PodSandboxMetadata.Name (runtimeapi.PodSandboxConfig.Metadata config).
Proof.
  unfold constructPodSandboxCheckpoint. cbv zeta.
  by rewrite constructPodSandboxCheckpoint_foldl.
Qed.

(** The later steps over the store: the store after them is the store after
    the write of the checkpoint, and they succeed only if the write did. *)
Lemma RunPodSandbox_created_store config createResp (w : X * Store.t) :
  let ID := dockertypes.ContainerCreateResponse.ID createResp in
  let written := Store.Write ID (constructPodSandboxCheckpoint config) w.2 in
  let '(out, w', t) := run (withStore hX) (RunPodSandbox_created config createResp) w in
  w'.2 = written.2 ∧
  ∀ id, out = Returned (id, None) → id = ID ∧ written.1 = None.
Proof.
  destruct w as [x store]. unfold RunPodSandbox_created. simpl.
  destruct (Store.Write _ _ store) as [[e |] store1]; simpl; [by split |].
  destruct (hX (client (StartContainer _)) x) as [[e |] x1]; simpl; [by split |].
  destruct (match _ with Some _ => _ | None => _ end); simpl.
  - split; [done |]. by intros id [= <-].
  - destruct (hX (networkPlugin _) x1) as [r x2]. simpl.
    split; [done |]. by intros id [= <- _].
Qed.

#[local] Opaque makeSandboxDockerConfig RunPodSandbox_created.

(** [RunPodSandbox] over the store: either the store is as it was and the
    call did not succeed, or the later steps ran for a record docker handed
    back and the store is the store after the write of its checkpoint. *)
Lemma RunPodSandbox_store_run config (x : X) (store : Store.t) :
  let '(out, w', t) := run (withStore hX) (RunPodSandbox ds config) (x, store) in
  (w'.2 = store ∧ ∀ id, out ≠ Returned (id, None)) ∨
  ∃ createResp,
    let ID := dockertypes.ContainerCreateResponse.ID createResp in
    let written := Store.Write ID (constructPodSandboxCheckpoint config) store in
    w'.2 = written.2 ∧
    ∀ id, out = Returned (id, None) → id = ID ∧ written.1 = None.
Proof.
  run_leaves ds (withStore hX) config (x, store) Hconfig Hcreated.
  all: apply withStore_call_frame in Hpull; [| done]; simpl in Hpull.
  all: try (left; by split).
  all: pose proof (makeSandboxDockerConfig_calls ds (withStore hX) config
                     (sandboxImage ds) w1) as Hc;
    rewrite Hconfig in Hc; simpl in Hc; destruct Hc as [Hc _];
    apply withStore_run_frame in Hconfig;
    [| eapply Forall_impl; [exact Hc |]; by intros [[] | [] | [] | []]];
    rewrite Hpull in Hconfig.
  all: try (left; by split).
  all: apply withStore_call_frame in Hcreate; [| done]; rewrite Hconfig in Hcreate.
  all: try (apply withStore_call_frame in Hrecover; [| done];
            rewrite Hcreate in Hrecover).
  all: try (left; by split).
  all: match type of Hcreated with
       | run _ (RunPodSandbox_created ?c ?createResp) ?w4 = _ =>
           pose proof (RunPodSandbox_created_store c createResp w4) as Hstore;
           rewrite Hcreated in Hstore; cbv zeta in Hstore
       end.
  all: first [rewrite Hrecover in Hstore | rewrite Hcreate in Hstore].
  all: right; eexists; exact Hstore.
Qed.

#[local] Transparent makeSandboxDockerConfig RunPodSandbox_created.

Lemma Write_cases id checkpoint (store : Store.t) :
  let written := Store.Write id checkpoint store in
  (written.2 = store ∨ written.2 = <[id := Store.Valid checkpoint]> store) ∧
  (written.1 = None → written.2 = <[id := Store.Valid checkpoint]> store).
Proof.
  unfold Store.Write. destruct (store !! id) as [[] |]; simpl; split; auto; done.
Qed.

Lemma RunPodSandbox_success_store config x store id w' t :
  run (withStore hX) (RunPodSandbox ds config) (x, store) = (Returned (id, None), w', t) →
  w'.2 = <[id := Store.Valid (constructPodSandboxCheckpoint config)]> store.
Proof.
  intros Hrun. pose proof (RunPodSandbox_store_run config x store) as Hstore.
  rewrite Hrun in Hstore.
  destruct Hstore as [[_ Hne] | (createResp & Hw & Hok)]; [by destruct (Hne id) |].
  destruct (Hok id eq_refl) as [-> Hnone]. rewrite Hw.
  by apply Write_cases.
Qed.

(** X11.  Over the checkpoint store, the only change [RunPodSandbox] makes
    to the store is the write of the checkpoint made of the sandbox
    configuration, under one id: whatever fails, it removes no checkpoint
    and the checkpoint it wrote stays.  When it succeeds the checkpoint is in
    the store under the id it returns, and its namespace and name are those
    of the metadata of the sandbox configuration. *)
Theorem RunPodSandbox_checkpointed
  (config : runtimeapi.PodSandboxConfig.t) (x : X) (store : Store.t) :
  let checkpoint := constructPodSandboxCheckpoint config in
  let '(out, w', t) := run (withStore hX) (RunPodSandbox ds config) (x, store) in
  (w'.2 = store ∨ ∃ id, w'.2 = <[id := Store.Valid checkpoint]> store) ∧
  (∀ id stored, store !! id = Some stored → is_Some (w'.2 !! id)) ∧
  (∀ id,
     out = Returned (id, None) →
     w'.2 !! id = Some (Store.Valid checkpoint) ∧
     (∀ id', id' ≠ id → w'.2 !! id' = store !! id') ∧
     PodSandboxCheckpoint.Namespace checkpoint =
       runtimeapi.PodSandboxMetadata.Namespace (runtimeapi.PodSandboxConfig.Metadata config) ∧
     PodSandboxCheckpoint.Name checkpoint =
       runtimeapi.PodSandboxMetadata.Name (runtimeapi.PodSandboxConfig.Metadata config)).
Proof.
  intros checkpoint.
  pose proof (RunPodSandbox_store_run config x store) as Hstore.
  destruct (run (withStore hX) (RunPodSandbox ds config) (x, store)) as [[out w'] t] eqn:Hrun.
  assert (Hchange : w'.2 = store ∨ ∃ id, w'.2 = <[id := Store.Valid checkpoint]> store).
  { destruct Hstore as [[Hw _] | (createResp & Hw & _)]; [by left |].
    rewrite Hw.
    destruct (Write_cases (dockertypes.ContainerCreateResponse.ID createResp)
                checkpoint store) as [[Hsame | Hnew] _]; [by left | right; eauto]. }
  split; [exact Hchange |]. split.
  - intros id stored Hid. destruct Hchange as [-> | (id' & ->)]; [by eexists |].
    destruct (decide (id' = id)) as [-> | Hne].
    + rewrite lookup_insert_eq. by eexists.
    + rewrite lookup_insert_ne by done. by eexists.
  - intros id ->. rewrite (RunPodSandbox_success_store _ _ _ _ _ _ Hrun).
    split; [by rewrite lookup_insert_eq |].
    split; [intros id' Hne; by rewrite lookup_insert_ne |].
    apply constructPodSandboxCheckpoint_names.
Qed.

(** X12.  After a [RunPodSandbox] that succeeded with the id [id], a
    [StopPodSandbox] of [id] whose status query fails, docker having lost
    the container say, finds the checkpoint and tears down the network of the
    pod with the namespace and the name of the sandbox configuration, before
    it asks docker to stop the container. *)
Theorem RunPodSandbox_then_stop
  (config : runtimeapi.PodSandboxConfig.t) (x : X) (store : Store.t)
  (id : string) (w1 : X * Store.t) (t : list Event)
  (x2 : X) (statusErr : error) (w3 : X * Store.t) (t3 : list Event) :
  run (withStore hX) (RunPodSandbox ds config) (x, store) = (Returned (id, None), w1, t) →
  run (withStore hX) (PodSandboxStatus id) (x2, w1.2) = (Returned (fail statusErr), w3, t3) →
  run (withStore hX) (StopPodSandbox id) (x2, w1.2) =
    teardown_from (withStore hX) id true
      (runtimeapi.PodSandboxMetadata.Namespace (runtimeapi.PodSandboxConfig.Metadata config))
      (runtimeapi.PodSandboxMetadata.Name (runtimeapi.PodSandboxConfig.Metadata config))
      w3
      (t3 ++ [ev (checkpointHandler (GetCheckpoint id))
                (Some (constructPodSandboxCheckpoint config), None)]).
Proof.
  intros Hrun Hstatus.
  pose proof (RunPodSandbox_success_store _ _ _ _ _ _ Hrun) as Hstore.
  pose proof (PodSandboxStatus_calls (withStore hX) id (x2, w1.2)) as [Hcalls _].
  rewrite Hstatus in Hcalls. simpl in Hcalls.
  assert (Hframe : w3.2 = w1.2).
  { apply (withStore_run_frame _ _ _ _ _ Hstatus).
    eapply Forall_impl; [exact Hcalls |]. by intros [[] | [] | [] | []]. }
  destruct (constructPodSandboxCheckpoint_names config) as [<- <-].
  apply (StopPodSandbox_from_checkpoint _ _ _ _ _ _ _ w3 Hstatus).
  destruct w3 as [x3 store3]. simpl in Hframe. subst store3. simpl.
  unfold Store.Read. rewrite Hstore. by rewrite lookup_insert_eq.
Qed.

(** X13.  After a [RunPodSandbox] that succeeded with the id [id], a
    [RemovePodSandbox] of [id] asks docker to remove the container and then
    the checkpoint handler to remove the checkpoint, and returns the
    aggregate of the error of docker, unless it is a not-found error, and of
    the error of the checkpoint handler.  When the checkpoint handler reports
    no error, the store has no checkpoint under [id] and its other records
    are as they were before the sandbox was run. *)
Theorem RunPodSandbox_then_remove
  (config : runtimeapi.PodSandboxConfig.t) (x : X) (store : Store.t)
  (id : string) (w1 : X * Store.t) (t : list Event) (x2 : X) :
  run (withStore hX) (RunPodSandbox ds config) (x, store) = (Returned (id, None), w1, t) →
  let docker := client (RemoveContainer id true) in
  let removal := checkpointHandler (RemoveCheckpoint id) in
  let '(out, w', t') := run (withStore hX) (RemovePodSandbox id) (x2, w1.2) in
  ∃ removed : option error,
    t' = [ev docker (hX docker x2).1; ev removal removed] ∧
    out = Returned (NewAggregate
                      (unless_not_found (hX docker x2).1 ++ option_list removed)) ∧
    (removed = None →
     w'.2 !! id = None ∧ ∀ id', id' ≠ id → w'.2 !! id' = store !! id').
Proof.
  intros Hrun docker removal. subst docker removal.
  pose proof (RunPodSandbox_success_store _ _ _ _ _ _ Hrun) as Hstore.
  unfold RemovePodSandbox. simpl.
  destruct (hX (client (RemoveContainer id true)) x2) as [r x3]. simpl.
  destruct (Store.Remove id w1.2) as [removed store'] eqn:Hremove. simpl.
  exists removed. split; [reflexivity |]. split.
  - unfold unless_not_found. destruct r as [e |]; [| by destruct removed].
    by destruct (IsContainerNotFoundError e), removed.
  - intros ->. unfold Store.Remove in Hremove.
    rewrite Hstore, lookup_insert_eq in Hremove. injection Hremove as <-.
    rewrite delete_insert_eq.
    split; [apply lookup_delete_eq |]. intros id' Hne. by apply lookup_delete_ne.
Qed.

(** X14.  After a [RunPodSandbox] that succeeded with the id [id], an
    unfiltered [ListPodSandbox] does not panic and, when docker lists no
    sandbox with the id [id], what it returns has the sandbox made of the
    checkpoint: the id [id], the name and the namespace of the sandbox
    configuration, the state not-ready. *)
Theorem RunPodSandbox_then_list
  (config : runtimeapi.PodSandboxConfig.t) (x : X) (store : Store.t)
  (id : string) (w1 : X * Store.t) (t : list Event)
  (x2 : X) (containers : list dockertypes.Container.t) :
  run (withStore hX) (RunPodSandbox ds config) (x, store) = (Returned (id, None), w1, t) →
  (hX (client (ListContainers (ListPodSandbox_options None).1)) x2).1 = ok containers →
  id ∉ runtimeapi.PodSandbox.Id <$> converted containers →
  let '(out, w', t') := run (withStore hX) (ListPodSandbox None) (x2, w1.2) in
  out ≠ Panicked ∧
  ∀ result,
    out = Returned (ok result) →
    ∃ sandbox,
      sandbox ∈ result ∧
      runtimeapi.PodSandbox.Id sandbox = id ∧
      runtimeapi.PodSandbox.State sandbox = runtimeapi.PodSandboxState_SANDBOX_NOTREADY ∧
      ∃ metadata,
        runtimeapi.PodSandbox.Metadata sandbox = Some metadata ∧
        runtimeapi.PodSandboxMetadata.Name metadata =
          runtimeapi.PodSandboxMetadata.Name (runtimeapi.PodSandboxConfig.Metadata config) ∧
        runtimeapi.PodSandboxMetadata.Namespace metadata =
          runtimeapi.PodSandboxMetadata.Namespace
            (runtimeapi.PodSandboxConfig.Metadata config).
Proof.
  intros Hrun Hlist Hid.
  pose proof (RunPodSandbox_success_store _ _ _ _ _ _ Hrun) as Hstore.
  pose proof (ListPodSandbox_store_run hX x2 w1.2) as Hlisting. cbv zeta in Hlisting.
  destruct (hX (client _) x2) as [r x3]. simpl in r, Hlist. subst r.
  destruct (hX (shim legacyCleanup_Done) x3) as [isDone x4].
  destruct (hX (shim (ListLegacyPodSandbox None)) x4) as [rl x5].
  destruct Hlisting as (t' & ->).
  set (backend := runtimeapi.PodSandbox.Id <$> converted containers) in *.
  assert (Hentry :
    checkpointToRuntimeAPISandbox id (constructPodSandboxCheckpoint config)
      ∈ checkpoint_entries backend w1.2).
  { apply elem_of_checkpoint_entries. exists id, (constructPodSandboxCheckpoint config).
    split; [by rewrite Hstore, lookup_insert_eq |]. by split. }
  assert (Hfields : ∀ result : list runtimeapi.PodSandbox.t,
    checkpointToRuntimeAPISandbox id (constructPodSandboxCheckpoint config) ∈ result →
    ∃ sandbox,
      sandbox ∈ result ∧
      runtimeapi.PodSandbox.Id sandbox = id ∧
      runtimeapi.PodSandbox.State sandbox = runtimeapi.PodSandboxState_SANDBOX_NOTREADY ∧
      ∃ metadata,
        runtimeapi.PodSandbox.Metadata sandbox = Some metadata ∧
        runtimeapi.PodSandboxMetadata.Name metadata =
          runtimeapi.PodSandboxMetadata.Name (runtimeapi.PodSandboxConfig.Metadata config) ∧
        runtimeapi.PodSandboxMetadata.Namespace metadata =
          runtimeapi.PodSandboxMetadata.Namespace
            (runtimeapi.PodSandboxConfig.Metadata config)).
  { intros result Hin.
    exists (checkpointToRuntimeAPISandbox id (constructPodSandboxCheckpoint config)).
    split; [exact Hin |].
    split; [reflexivity |]. split; [reflexivity |].
    eexists. split; [reflexivity |]. simpl.
    by destruct (constructPodSandboxCheckpoint_names config) as [-> ->]. }
  destruct isDone; [| destruct rl as [legacy | e]]; simpl; (split; [done |]);
    intros result [=]; subst; apply Hfields;
    rewrite !elem_of_app; auto.
Qed.

End run_over_store.
(** The registry cannot be reached: the pull is the only call. *)
Lemma RunPodSandbox_calls_witness :
  let s :=
    {| Fake.pull := Some (Opaque "no registry");
       Fake.create := (None, None); Fake.start := None; Fake.stop := None;
       Fake.remove := None; Fake.inspect := fail Fake.notFound;
       Fake.listed := ok []; Fake.setup := None; Fake.teardown := None;
       Fake.status := (None, None);
       Fake.legacy_done := true; Fake.legacy := ok [] |} in
  run (Fake.docker s) (@RunPodSandbox Fake.helpers Fake.service (Fake.config false)) tt =
    (Returned ("", Some (Errorf "unable to pull image for the sandbox container: %v" []
                           (Some (Opaque "no registry")))),
     tt,
     [ev (client (PullImage "gcr.io/google_containers/pause-amd64:3.0"))
        (Some (Opaque "no registry"))]).
Proof.
  intros s.
  pose proof (@RunPodSandbox_calls Fake.helpers Fake.service _ (Fake.docker s)
                (Fake.config false) tt) as Hcalls.
  cbv zeta in Hcalls.
  destruct (run (Fake.docker s) (@RunPodSandbox Fake.helpers Fake.service (Fake.config false))
              tt) as [[out []] t].
  destruct Hcalls as ((t' & -> & Hpull) & _).
  destruct (Hpull (Opaque "no registry") eq_refl) as [-> ->]. reflexivity.
Defined.

(** In the fake world the container docker is asked to create is named
    "web" and has two CPU shares. *)
Lemma RunPodSandbox_creates_witness :
  ∃ createConfig,
    client (CreateContainer createConfig) ∈
      calls (run (Fake.docker Fake.quiet)
               (@RunPodSandbox Fake.helpers Fake.service (Fake.config false)) tt).2 ∧
    dockertypes.ContainerCreateConfig.Name createConfig = "web"%string ∧
    dockercontainer.Resources.CPUShares
      (dockercontainer.HostConfig.Resources
         (dockertypes.ContainerCreateConfig.HostConfig createConfig)) = 2.
Proof.
  pose proof (@RunPodSandbox_creates Fake.helpers Fake.service _ (Fake.docker Fake.quiet)
                (Fake.config false) tt) as Hcreates.
  assert (Hin : ∃ createConfig,
    client (CreateContainer createConfig) ∈
      calls (run (Fake.docker Fake.quiet)
               (@RunPodSandbox Fake.helpers Fake.service (Fake.config false)) tt).2).
  { eexists. simpl. rewrite !elem_of_cons. do 4 right. left. reflexivity. }
  destruct Hin as (createConfig & Hin). exists createConfig.
  destruct (run (Fake.docker Fake.quiet)
              (@RunPodSandbox Fake.helpers Fake.service (Fake.config false)) tt)
    as [[out w'] t].
  destruct Hcreates as [Hcreates _].
  destruct (Hcreates createConfig Hin) as (Hname & Hres & _).
  split; [exact Hin |]. split; [exact Hname |]. by rewrite Hres.
Defined.

(** In the fake world the sandbox "s1" is run over the empty store: the
    store then holds its checkpoint. *)
Lemma RunPodSandbox_checkpointed_witness :
  (run (withStore (Fake.docker Fake.quiet))
     (@RunPodSandbox Fake.helpers Fake.service (Fake.config false)) (tt, ∅)).1.2.2
    !! "s1"%string =
  Some (Store.Valid (constructPodSandboxCheckpoint (Fake.config false))).
Proof.
  pose proof (@RunPodSandbox_checkpointed Fake.helpers Fake.service _
                (Fake.docker Fake.quiet) (Fake.config false) tt ∅) as Hstore.
  cbv zeta in Hstore.
  destruct (run (withStore (Fake.docker Fake.quiet))
              (@RunPodSandbox Fake.helpers Fake.service (Fake.config false)) (tt, ∅))
    as [[out w'] t] eqn:Hrun.
  assert (Hout : out = Returned ("s1"%string, None)).
  { vm_compute in Hrun. by injection Hrun as <- _ _. }
  destruct Hstore as (_ & _ & Hok). by destruct (Hok "s1"%string Hout) as [Hid _].
Defined.

(** Docker has lost the container of the sandbox "s1" that was run: the
    network of the pod "web" is torn down all the same. *)
Lemma RunPodSandbox_then_stop_witness :
  let s :=
    {| Fake.pull := None;
       Fake.create := (Some (dockertypes.ContainerCreateResponse.mk "s1"), None);
       Fake.start := None; Fake.stop := Some Fake.notFound;
       Fake.remove := None; Fake.inspect := fail Fake.notFound;
       Fake.listed := ok []; Fake.setup := None; Fake.teardown := None;
       Fake.status := (None, None);
       Fake.legacy_done := true; Fake.legacy := ok [] |} in
  ∃ w1 t,
    run (withStore (Fake.docker s))
      (@RunPodSandbox Fake.helpers Fake.service (Fake.config false)) (tt, ∅) =
      (Returned ("s1"%string, None), w1, t) ∧
    run (withStore (Fake.docker s)) (@StopPodSandbox Fake.helpers "s1") (tt, w1.2) =
      (Returned None, (tt, w1.2),
       [ev (client (InspectContainer "s1")) (fail Fake.notFound);
        ev (checkpointHandler (GetCheckpoint "s1"))
          (Some (constructPodSandboxCheckpoint (Fake.config false)), None);
        ev (networkPlugin
              (TearDownPod "default" "web" (kubecontainer.ContainerID.mk "docker" "s1")))
          None;
        ev (client (StopContainer "s1" 10)) (Some Fake.notFound)]).
Proof.
  intros s.
  destruct (run (withStore (Fake.docker s))
              (@RunPodSandbox Fake.helpers Fake.service (Fake.config false)) (tt, ∅))
    as [[out w1] t] eqn:Hrun.
  assert (Hout : out = Returned ("s1"%string, None)).
  { vm_compute in Hrun. by injection Hrun as <- _ _. }
  subst out. exists w1, t. split; [reflexivity |].
  rewrite (@RunPodSandbox_then_stop Fake.helpers Fake.service _ (Fake.docker s)
             (Fake.config false) tt ∅ "s1" w1 t tt Fake.notFound (tt, w1.2)
             [ev (client (InspectContainer "s1")) (fail Fake.notFound)] Hrun eq_refl).
  reflexivity.
Defined.

(** The sandbox "s1" is run over the empty store and removed: no error comes
    back and no checkpoint is left under "s1". *)
Lemma RunPodSandbox_then_remove_witness :
  ∃ w1 t,
    run (withStore (Fake.docker Fake.quiet))
      (@RunPodSandbox Fake.helpers Fake.service (Fake.config false)) (tt, ∅) =
      (Returned ("s1"%string, None), w1, t) ∧
    (run (withStore (Fake.docker Fake.quiet)) (@RemovePodSandbox Fake.helpers "s1")
       (tt, w1.2)).1.1 = Returned None ∧
    (run (withStore (Fake.docker Fake.quiet)) (@RemovePodSandbox Fake.helpers "s1")
       (tt, w1.2)).1.2.2 !! "s1"%string = None.
Proof.
  destruct (run (withStore (Fake.docker Fake.quiet))
              (@RunPodSandbox Fake.helpers Fake.service (Fake.config false)) (tt, ∅))
    as [[out w1] t] eqn:Hrun.
  assert (Hout : out = Returned ("s1"%string, None)).
  { vm_compute in Hrun. by injection Hrun as <- _ _. }
  subst out. exists w1, t. split; [reflexivity |].
  pose proof (@RunPodSandbox_then_remove Fake.helpers Fake.service _
                (Fake.docker Fake.quiet) (Fake.config false) tt ∅ "s1" w1 t tt Hrun)
    as Hremove.
  cbv zeta in Hremove.
  assert (Hanswer : ∃ x3 store3,
    run (withStore (Fake.docker Fake.quiet)) (@RemovePodSandbox Fake.helpers "s1")
      (tt, w1.2) =
      (Returned (NewAggregate (option_list (Store.Remove "s1" w1.2).1)), (x3, store3),
       [ev (client (RemoveContainer "s1" true)) None;
        ev (checkpointHandler (RemoveCheckpoint "s1")) (Store.Remove "s1" w1.2).1])).
  { unfold RemovePodSandbox. simpl.
    destruct (Store.Remove "s1" w1.2) as [removed store3]. simpl.
    do 2 eexists. by destruct removed. }
  destruct Hanswer as (x3 & store3 & Hanswer). rewrite Hanswer in Hremove |- *.
  destruct Hremove as (removed & Hcalls & Hout & Hstore).
  assert (Hremoved : removed = None).
  { apply (f_equal (λ t, last t ≫= λ e,
             let '(existT o r) := e in
             match o return Resp o → option (option error) with
             | checkpointHandler (RemoveCheckpoint _) => λ r, Some r
             | _ => λ _, None
             end r)) in Hcalls.
    simpl in Hcalls. injection Hcalls as Hcalls. rewrite <- Hcalls.
    apply (f_equal (λ out, match out with
                           | Returned r => r
                           | Panicked => None
                           end)) in Hout.
    simpl in Hout. rewrite <- Hcalls in Hout.
    unfold Store.Remove in *.
    destruct (w1.2 !! "s1"%string) as [[cp | cp | msg] |] eqn:Hid; try reflexivity.
    exfalso.
    pose proof (f_equal (λ w : _ * _ * list Event, w.1.2.2 !! "s1"%string) Hrun) as Hlook.
    cbn [fst snd] in Hlook. rewrite Hid in Hlook. vm_compute in Hlook.
    discriminate Hlook. }
  destruct (Hstore Hremoved) as [Hgone _]. subst removed.
  split; [| exact Hgone]. simpl in Hout |- *. exact Hout.
Defined.

(** The sandbox "s1" is run over the empty store; docker lists no
    container: the listing has the sandbox "s1" of the pod "web", made of
    its checkpoint. *)
Lemma RunPodSandbox_then_list_witness :
  ∃ w1 t,
    run (withStore (Fake.docker Fake.quiet))
      (@RunPodSandbox Fake.helpers Fake.service (Fake.config false)) (tt, ∅) =
      (Returned ("s1"%string, None), w1, t) ∧
    (run (withStore (Fake.docker Fake.quiet)) (@ListPodSandbox Fake.helpers None)
       (tt, w1.2)).1.1 ≠ Panicked ∧
    ∀ result,
      (run (withStore (Fake.docker Fake.quiet)) (@ListPodSandbox Fake.helpers None)
         (tt, w1.2)).1.1 = Returned (ok result) →
      ∃ sandbox,
        sandbox ∈ result ∧ runtimeapi.PodSandbox.Id sandbox = "s1"%string ∧
        runtimeapi.PodSandboxMetadata.Name <$> runtimeapi.PodSandbox.Metadata sandbox =
          Some "web"%string.
Proof.
  destruct (run (withStore (Fake.docker Fake.quiet))
              (@RunPodSandbox Fake.helpers Fake.service (Fake.config false)) (tt, ∅))
    as [[out w1] t] eqn:Hrun.
  assert (Hout : out = Returned ("s1"%string, None)).
  { vm_compute in Hrun. by injection Hrun as <- _ _. }
  subst out. exists w1, t. split; [reflexivity |].
  pose proof (@RunPodSandbox_then_list Fake.helpers Fake.service _
                (Fake.docker Fake.quiet) (Fake.config false) tt ∅ "s1" w1 t tt []
                Hrun eq_refl) as Hlist.
  destruct (run (withStore (Fake.docker Fake.quiet)) (@ListPodSandbox Fake.helpers None)
              (tt, w1.2)) as [[out w'] t'].
  destruct Hlist as [Hsafe Hentry].
  { change ("s1"%string ∉ @nil string). apply not_elem_of_nil. }
  split; [exact Hsafe |].
  intros result Hresult.
  destruct (Hentry result Hresult) as (sandbox & Hin & Hid & _ & metadata & Hmd & Hname & _).
  exists sandbox. split; [exact Hin |]. split; [exact Hid |].
  rewrite Hmd. simpl. by rewrite Hname.
Defined.

Section status_failures.
Context `{Helpers} {W : Type} (h : Handler W).

(** X15.  Once docker has answered the inspection with the container [r],
    the network plugin decides nothing of the errors of [PodSandboxStatus].
    An error it returns is the error of the timestamps of the container,
    wrapped; or, for a container with the type label, the error of the
    parsing of its name; or, for a legacy container, the error of the
    conversion or the error of the parsing of the first name the conversion
    gives.  So for a container with the type label whose timestamps and name
    parse it returns no error, whatever the plugin answers. *)
Theorem PodSandboxStatus_failures
  (id : string) (w : W) (r : dockertypes.ContainerJSON.t) (w0 : W) :
  h (client (InspectContainer id)) w = (ok r, w0) →
  let labels := dockercontainer.Config.Labels (dockertypes.ContainerJSON.Config r) in
  let name := dockertypes.ContainerJSON.Name r in
  let '(out, w1, t) := run h (PodSandboxStatus id) w in
  (∀ err,
     out = Returned (fail err) →
     (∃ cause,
        getContainerTimestamps r = fail cause ∧
        err = Errorf "failed to parse timestamp for container %q: %v" [id] (Some cause)) ∨
     (is_Some (labels !! containerTypeLabelKey) ∧ parseSandboxName name = fail err) ∨
     (labels !! containerTypeLabelKey = None ∧
      convertLegacyNameAndLabels [name] labels = fail err) ∨
     (labels !! containerTypeLabelKey = None ∧
      ∃ name0 names labels',
        convertLegacyNameAndLabels [name] labels = ok (name0 :: names, labels') ∧
        parseSandboxName name0 = fail err)) ∧
  (is_Some (labels !! containerTypeLabelKey) →
   (∃ timestamps, getContainerTimestamps r = ok timestamps) →
   (∃ metadata, parseSandboxName name = ok metadata) →
   ∀ err, out ≠ Returned (fail err)).
Proof.
  intros Hinspect labels name. subst labels name.
  unfold PodSandboxStatus. simpl. rewrite Hinspect.
  destruct (getContainerTimestamps r) as [[[createdAt startedAt] finishedAt] | cause];
    simpl.
  2: { split; [intros err [= <-]; left; eauto |]. by intros _ [timestamps [=]]. }
  rewrite run_bind.
  destruct (getIP_run h r w0) as (ip & w1 & t & -> & _). simpl.
  destruct (dockercontainer.Config.Labels (dockertypes.ContainerJSON.Config r)
              !! containerTypeLabelKey) as [kind |] eqn:Hkind; simpl.
  - destruct (parseSandboxName (dockertypes.ContainerJSON.Name r)) as [metadata | e] eqn:Hp;
      simpl.
    + destruct (extractLabels _) as [labels annotations]. simpl.
      split; [by intros err [=] |]. by intros _ _ _ err [=].
    + split; [intros err [= <-]; right; left; eauto |].
      by intros _ _ [metadata [=]].
  - destruct (convertLegacyNameAndLabels _ _) as [[[| name0 names] labels'] | e] eqn:Hc;
      simpl.
    + split; [by intros err [=] |]. by intros [? [=]].
    + destruct (parseSandboxName name0) as [metadata | e] eqn:Hp; simpl.
      * destruct (extractLabels _) as [labels annotations]. simpl.
        split; [by intros err [=] |]. by intros [? [=]].
      * split; [intros err [= <-]; right; right; right; eauto 10 |].
        by intros [? [=]].
    + split; [intros err [= <-]; right; right; left; eauto |].
      by intros [? [=]].
Qed.

End status_failures.

Section linux_options.
Context `{Helpers} (ds : dockerService) {W : Type} (h : Handler W).

(** X16.  For a sandbox configuration with the Linux options [lc],
    [makeSandboxDockerConfig] asks for the version of docker, then for the
    cgroup parent of [lc], then applies the security context, in this order
    and each once at most; when the version query or the generation of the
    cgroup parent fails nothing is called after it, and the error of the
    cgroup parent comes back as it is.  The security context is the last
    call; it is applied to [lc] with the separator of the
    version, to a configuration that has the image, the hostname and the
    container name label, and to a host configuration that has the cgroup
    parent that was generated and the sysctls of the annotations. *)
Theorem makeSandboxDockerConfig_linux
  (c : runtimeapi.PodSandboxConfig.t) (lc : runtimeapi.LinuxPodSandboxConfig.t)
  (image : string) (w : W) :
  runtimeapi.PodSandboxConfig.GetLinux c = Some lc →
  let version := shim getDockerAPIVersion in
  let cgroup :=
    shim (GenerateExpectedCgroupParent (runtimeapi.LinuxPodSandboxConfig.CgroupParent lc)) in
  let '(out, w1, t) := run h (makeSandboxDockerConfig ds c image) w in
  (∃ t', t = ev version (h version w).1 :: t') ∧
  (∀ err,
     (h version w).1 = fail err →
     t = [ev version (fail err)] ∧
     out = Returned (fail (Errorf "unable to get the docker API version: %v" []
                             (Some err)))) ∧
  (∀ e before after,
     t = before ++ e :: after →
     match projT1 e with
     | shim (GenerateExpectedCgroupParent cgroupParent) =>
         cgroupParent = runtimeapi.LinuxPodSandboxConfig.CgroupParent lc ∧
         calls before = [version] ∧
         ∀ err, e = ev cgroup (fail err) → after = [] ∧ out = Returned (fail err)
     | shim (applySandboxSecurityContext lc' config hc separator) =>
         lc' = lc ∧
         (∃ apiVersion parent,
            before = [ev version (ok apiVersion); ev cgroup (ok parent)] ∧
            separator = getSecurityOptSeparator apiVersion ∧
            dockercontainer.HostConfig.CgroupParent hc = parent) ∧
         after = [] ∧
         dockercontainer.Config.Image config = image ∧
         dockercontainer.Config.Hostname config = runtimeapi.PodSandboxConfig.Hostname c ∧
         dockercontainer.Config.Labels config !! KubernetesContainerNameLabel =
           Some sandboxContainerName ∧
         getSysctlsFromAnnotations (runtimeapi.PodSandboxConfig.Annotations c) =
           ok (dockercontainer.HostConfig.Sysctls hc)
     | _ => before = []
     end).
Proof.
  intros Hlinux version cgroup. subst version cgroup.
  unfold makeSandboxDockerConfig. simpl. rewrite Hlinux.
  destruct (h (shim getDockerAPIVersion) w) as [rv w0]. simpl in rv.
  assert (Hone : ∀ (e0 e : Event) before after,
    [e0] = before ++ e :: after → before = [] ∧ e = e0 ∧ after = []).
  { intros e0 e [| e1 before] after Heq; simpl in Heq.
    - by injection Heq as <- <-.
    - injection Heq as _ Heq. by destruct before. }
  destruct rv as [apiVersion | e]; simpl.
  2: { split; [eauto |]. split; [by intros err [= <-] |].
       intros e' before after Heq. apply Hone in Heq as (-> & -> & ->). done. }
  destruct (getSysctlsFromAnnotations _) as [sysctls | e] eqn:Hsysctls; simpl.
  2: { split; [eauto |]. split; [by intros err [=] |].
       intros e' before after Heq. apply Hone in Heq as (-> & -> & ->). done. }
  unfold applySandboxLinuxOptions. simpl.
  destruct (h (shim (GenerateExpectedCgroupParent _)) w0) as [rg w2]. simpl in rg.
  assert (Htwo : ∀ (e0 e1 e : Event) before after,
    [e0; e1] = before ++ e :: after →
    (before = [] ∧ e = e0 ∧ after = [e1]) ∨ (before = [e0] ∧ e = e1 ∧ after = [])).
  { intros e0 e1 e [| e2 before] after Heq; simpl in Heq.
    - injection Heq as <- <-. by left.
    - injection Heq as <- Heq. apply Hone in Heq as (-> & -> & ->). by right. }
  destruct rg as [parent | e]; simpl.
  2: { split; [eauto |]. split; [by intros err [=] |].
       intros e' before after Heq.
       apply Htwo in Heq as [(-> & -> & ->) | (-> & -> & ->)]; simpl; [done |].
       split; [done |]. split; [done |]. intros err Herr. split; [done |].
       apply (f_equal (λ e, let '(existT o r) := e in
                match o return Resp o → option error with
                | shim (GenerateExpectedCgroupParent _) =>
                    λ r, match r with fail err => Some err | ok _ => None end
                | _ => λ _, None
                end r)) in Herr.
       simpl in Herr. by injection Herr as ->. }
  destruct (h (shim (applySandboxSecurityContext _ _ _ _)) w2) as [[config0 hc0] w3].
  simpl.
  destruct (makePortsAndBindings _) as [exposedPorts portBindings]. simpl.
  assert (Hthree : ∀ (e0 e1 e2 e : Event) before after,
    [e0; e1; e2] = before ++ e :: after →
    (before = [] ∧ e = e0 ∧ after = [e1; e2]) ∨
    (before = [e0] ∧ e = e1 ∧ after = [e2]) ∨
    (before = [e0; e1] ∧ e = e2 ∧ after = [])).
  { intros e0 e1 e2 e [| e3 before] after Heq; simpl in Heq.
    - injection Heq as <- <-. by left.
    - injection Heq as <- Heq.
      apply Htwo in Heq as [(-> & -> & ->) | (-> & -> & ->)]; auto. }
  assert (Hcalls : ∀ e' before after,
    [ev (shim getDockerAPIVersion) (ok apiVersion);
     ev (shim (GenerateExpectedCgroupParent
                 (runtimeapi.LinuxPodSandboxConfig.CgroupParent lc))) (ok parent);
     ev (shim (applySandboxSecurityContext lc
                 (dockercontainer.Config.mk (runtimeapi.PodSandboxConfig.Hostname c) image
                    (<[KubernetesContainerNameLabel := sandboxContainerName]>
                       (<[containerTypeLabelKey := containerTypeLabelSandbox]>
                          (makeLabels (runtimeapi.PodSandboxConfig.GetLabels c)
                             (runtimeapi.PodSandboxConfig.GetAnnotations c)))) ∅)
                 (dockercontainer.HostConfig.set_CgroupParent parent
                    (dockercontainer.HostConfig.set_Sysctls sysctls
                       dockercontainer.HostConfig.zero))
                 (getSecurityOptSeparator apiVersion))) (config0, hc0)] =
      before ++ e' :: after →
    ∀ out : Outcome (result dockertypes.ContainerCreateConfig.t),
    match projT1 e' with
    | shim (GenerateExpectedCgroupParent cgroupParent) =>
        cgroupParent = runtimeapi.LinuxPodSandboxConfig.CgroupParent lc ∧
        calls before = [shim getDockerAPIVersion] ∧
        ∀ err,
          e' = ev (shim (GenerateExpectedCgroupParent
                           (runtimeapi.LinuxPodSandboxConfig.CgroupParent lc))) (fail err) →
          after = [] ∧ out = Returned (fail err)
    | shim (applySandboxSecurityContext lc' config hc separator) =>
        lc' = lc ∧
        (∃ apiVersion0 parent0,
           before =
             [ev (shim getDockerAPIVersion) (ok apiVersion0);
              ev (shim (GenerateExpectedCgroupParent
                          (runtimeapi.LinuxPodSandboxConfig.CgroupParent lc)))
                (ok parent0)] ∧
           separator = getSecurityOptSeparator apiVersion0 ∧
           dockercontainer.HostConfig.CgroupParent hc = parent0) ∧
        after = [] ∧
        dockercontainer.Config.Image config = image ∧
        dockercontainer.Config.Hostname config = runtimeapi.PodSandboxConfig.Hostname c ∧
        dockercontainer.Config.Labels config !! KubernetesContainerNameLabel =
          Some sandboxContainerName ∧
        @eq (result (gmap string string)) (ok sysctls)
          (ok (dockercontainer.HostConfig.Sysctls hc))
    | _ => before = []
    end).
  { intros e' before after Heq out.
    apply Hthree in Heq as [(-> & -> & ->) | [(-> & -> & ->) | (-> & -> & ->)]]; simpl.
    - done.
    - split; [done |]. split; [done |]. intros err Herr.
      apply (f_equal (λ e, let '(existT o r) := e in
               match o return Resp o → option error with
               | shim (GenerateExpectedCgroupParent _) =>
                   λ r, match r with fail err => Some err | ok _ => None end
               | _ => λ _, None
               end r)) in Herr.
      simpl in Herr. discriminate Herr.
    - split; [done |]. split; [by exists apiVersion, parent |]. split; [done |].
      split; [done |]. split; [done |]. split; [by rewrite lookup_insert_eq |].
      reflexivity. }
  destruct (getSandboxSecurityOpts _ _ _) as [securityOpts | e]; simpl;
    (split; [eauto |]); (split; [by intros err [=] |]);
    intros e' before after Heq; exact (Hcalls e' before after Heq _).
Qed.

End linux_options.

(** The timestamps of the fake container parse and its name does: no error
    comes back although the plugin fails. *)
Lemma PodSandboxStatus_failures_witness :
  let s :=
    {| Fake.pull := None; Fake.create := (None, None); Fake.start := None;
       Fake.stop := None; Fake.remove := None;
       Fake.inspect :=
         ok (Fake.sandbox {[ "io.kubernetes.docker.type" := "podsandbox" ]} "default");
       Fake.listed := ok []; Fake.setup := None; Fake.teardown := None;
       Fake.status := (None, Some (Opaque "plugin down"));
       Fake.legacy_done := true; Fake.legacy := ok [] |} in
  ¬ ∃ err,
      (run (Fake.docker s) (@PodSandboxStatus Fake.helpers "s1") tt).1.1 =
        Returned (fail err).
Proof.
  intros s.
  pose proof (@PodSandboxStatus_failures Fake.helpers _ (Fake.docker s) "s1" tt _ tt eq_refl)
    as Hstatus.
  cbv zeta in Hstatus.
  destruct (run (Fake.docker s) (@PodSandboxStatus Fake.helpers "s1") tt) as [[out w1] t].
  destruct Hstatus as (_ & Hok). intros [err Herr]. revert Herr. apply Hok.
  - by eexists.
  - by eexists.
  - by eexists.
Defined.

(** In the fake world the security context is applied to a host
    configuration with the cgroup parent "kubepods". *)
Lemma makeSandboxDockerConfig_linux_witness :
  let lc := runtimeapi.LinuxPodSandboxConfig.mk "kubepods" None in
  let c :=
    runtimeapi.PodSandboxConfig.mk
      (runtimeapi.PodSandboxMetadata.mk "web" "uid" "default" 0)
      "web" "" None [] ∅ ∅ (Some lc) in
  ∃ before config hc separator r after,
    (run (Fake.docker Fake.quiet)
       (@makeSandboxDockerConfig Fake.helpers Fake.service c "pause") tt).2 =
      before ++ ev (shim (applySandboxSecurityContext lc config hc separator)) r :: after ∧
    after = [] ∧
    dockercontainer.Config.Image config = "pause"%string ∧
    dockercontainer.HostConfig.CgroupParent hc = "kubepods"%string.
Proof.
  intros lc c.
  pose proof (@makeSandboxDockerConfig_linux Fake.helpers Fake.service _
                (Fake.docker Fake.quiet) c lc "pause" tt eq_refl) as Hlinux.
  cbv zeta in Hlinux.
  assert (Ht : ∃ config hc separator r,
    (run (Fake.docker Fake.quiet)
       (@makeSandboxDockerConfig Fake.helpers Fake.service c "pause") tt).2 =
      [ev (shim getDockerAPIVersion) (ok "1.24"%string);
       ev (shim (GenerateExpectedCgroupParent "kubepods")) (ok "kubepods"%string)] ++
      ev (shim (applySandboxSecurityContext lc config hc separator)) r :: [])
    by (do 4 eexists; reflexivity).
  destruct Ht as (config & hc & separator & r & Ht).
  destruct (run (Fake.docker Fake.quiet)
              (@makeSandboxDockerConfig Fake.helpers Fake.service c "pause") tt)
    as [[out w1] t].
  simpl in Ht. destruct Hlinux as (_ & _ & Hcalls).
  destruct (Hcalls (ev (shim (applySandboxSecurityContext lc config hc separator)) r)
              [ev (shim getDockerAPIVersion) (ok "1.24"%string);
               ev (shim (GenerateExpectedCgroupParent "kubepods")) (ok "kubepods"%string)]
              [] Ht)
    as (_ & (apiVersion & parent & Hbefore & _ & Hparent) & Hafter & Himage & _).
  exists [ev (shim getDockerAPIVersion) (ok "1.24"%string);
          ev (shim (GenerateExpectedCgroupParent "kubepods")) (ok "kubepods"%string)],
    config, hc, separator, r, [].
  split; [exact Ht |]. split; [reflexivity |]. split; [exact Himage |].
  rewrite Hparent.
  apply (f_equal (λ t, t !! 1%nat ≫= λ e,
           let '(existT o r) := e in
           match o return Resp o → option string with
           | shim (GenerateExpectedCgroupParent _) =>
               λ r, match r with ok parent => Some parent | fail _ => None end
           | _ => λ _, None
           end r)) in Hbefore.
  simpl in Hbefore. by injection Hbefore as <-.
Defined.
